(** * LocalLens: report lifecycle, access control and token checks

    A shallow embedding of the Express/Mongoose backend of LocalLens:
    - [backend/models/Report.js]      the report schema, its pre-save hook and
                                      the instance methods;
    - [backend/routes/reports.js]     create / list / view / update / upvote /
                                      delete, and the statistics of
                                      [my-reports];
    - [backend/routes/auth.js]        the refresh route;
    - the admin router ([unnamed/part_008])
                                      status / assign / comment;
    - [backend/middleware/auth.js] ([unnamed/part_007])
                                      bearer-token middleware and token issue.

    Conventions of the embedding:
    - a handler is a function from the store and the request to the new store
      and the response it sends;
    - JavaScript strings are [string], read as sequences of UTF-16 code units
      below 256 (Latin-1 text), so that [String.length] is the [length] of
      the JavaScript string; dates are milliseconds in [Z]; coordinates are
      rationals;
    - the [:id] of a request path is read as an ObjectId; an id that arrives
      in a request body is text and goes through the validator and the cast
      of Mongoose;
    - an absent JSON field ([undefined]) is [None];
    - every [new Date()] of one request reads the same instant [now];
    - a report is the paths its schema declares; the [createdAt]/[updatedAt]
      bookkeeping of the [timestamps] option is not part of the record;
    - [populate] only decorates the response and is left out. *)

From stdpp Require Import gmap strings list relations.
From Stdlib Require Import Ascii String QArith.

Open Scope string_scope.

(** ** JavaScript string primitives used by the handlers *)

Module Js.

(** Truthiness of a string value: only the empty string is falsy. *)
Definition truthy (s : string) : bool :=
  match s with
  | EmptyString => false
  | String _ _ => true
  end.

(** Truthiness of a possibly absent string. *)
Definition truthy_opt (o : option string) : bool :=
  match o with
  | None => false
  | Some s => truthy s
  end.

(** [a || b] on strings. *)
Definition or_else (o : option string) (d : string) : string :=
  match o with
  | Some s => if truthy s then s else d
  | None => d
  end.

(** White space and line terminators among the code units below 256: TAB,
    LF, VT, FF, CR, SP and NBSP. *)
Definition is_ws (c : ascii) : bool :=
  let n := nat_of_ascii c in
  Nat.eqb n 32 || (Nat.leb 9 n && Nat.leb n 13) || Nat.eqb n 160.

Fixpoint trimStart (s : string) : string :=
  match s with
  | EmptyString => EmptyString
  | String c r => if is_ws c then trimStart r else s
  end.

Fixpoint trimEnd (s : string) : string :=
  match s with
  | EmptyString => EmptyString
  | String c r =>
      match trimEnd r with
      | EmptyString => if is_ws c then EmptyString else String c EmptyString
      | r' => String c r'
      end
  end.

(** [String.prototype.trim]. *)
Definition trim (s : string) : string := trimEnd (trimStart s).

(** [s.split(sep)] for a one-character separator. *)
Fixpoint split (sep : ascii) (s : string) : list string :=
  match s with
  | EmptyString => [EmptyString]
  | String c r =>
      if Ascii.eqb c sep then EmptyString :: split sep r
      else match split sep r with
           | [] => [String c EmptyString]
           | w :: ws => String c w :: ws
           end
  end.

(** The lower-case mapping of one code unit below 256: [A]-[Z] and the
    capitals U+00C0-U+00DE, the multiplication sign U+00D7 apart, move up by
    32; every other unit is its own lower case. *)
Definition lower_unit (c : ascii) : ascii :=
  let n := nat_of_ascii c in
  if (Nat.leb 65 n && Nat.leb n 90)
     || (Nat.leb 192 n && Nat.leb n 222 && negb (Nat.eqb n 215))
  then ascii_of_nat (n + 32) else c.

(** [String.prototype.toLowerCase]. *)
Fixpoint toLowerCase (s : string) : string :=
  match s with
  | EmptyString => EmptyString
  | String c r => String (lower_unit c) (toLowerCase r)
  end.

(** [s.includes(sub)]. *)
Fixpoint includes (s sub : string) : bool :=
  String.prefix sub s ||
  match s with
  | EmptyString => false
  | String _ r => includes r sub
  end.

End Js.

(** ** express-validator checks *)

Module Validator.

(** [isLength({min, max})]. *)
Definition isLength (min max : nat) (s : string) : bool :=
  Nat.leb min (String.length s) && Nat.leb (String.length s) max.

(** [isIn([...])]. *)
Definition isIn (allowed : list string) (s : string) : bool :=
  existsb (String.eqb s) allowed.

(** [notEmpty()]. *)
Definition notEmpty (s : string) : bool := Js.truthy s.

(** [isFloat({min, max})] on a numeric value. *)
Definition isFloat (lo hi : Q) (x : Q) : bool :=
  Qle_bool lo x && Qle_bool x hi.

End Validator.

(** ** Data model ([backend/models/Report.js]) *)

Abbreviation ObjectId := string (only parsing).
Abbreviation Date := Z (only parsing).

Definition categories : list string :=
  ["road"; "water"; "electricity"; "cleanliness"; "streetlight"; "drainage";
   "traffic"; "noise"; "construction"; "safety"; "other"].

Definition statuses : list string :=
  ["pending"; "in_progress"; "resolved"; "rejected"].

Definition priorities : list string := ["low"; "medium"; "high"; "urgent"].

Record Coordinates := mkCoordinates { lat : option Q; lng : option Q }.

Record Location := mkLocation {
  address : option string;
  coordinates : Coordinates;
  city : option string;
  state : option string;
  zipCode : option string
}.

Record Image := mkImage {
  url : string;
  publicId : option string;
  caption : option string
}.

Record StatusEntry := mkStatusEntry {
  sh_status : string;
  sh_changedBy : option ObjectId;
  sh_changedAt : Date;
  sh_comment : option string
}.

Record AdminComment := mkAdminComment {
  ac_comment : string;
  ac_commentedBy : ObjectId;
  ac_commentedAt : Date
}.

Record Upvote := mkUpvote { user : ObjectId; votedAt : Date }.

Record Metadata := mkMetadata {
  deviceInfo : option string;
  ipAddress : option string;
  userAgent : option string
}.

Record Report := mkReport {
  _id : ObjectId;
  title : string;
  description : string;
  category : string;
  status : string;
  priority : string;
  location : Location;
  images : list Image;
  reportedBy : ObjectId;
  assignedTo : option ObjectId;
  statusHistory : list StatusEntry;
  adminComments : list AdminComment;
  upvotes : list Upvote;
  isPublic : bool;
  resolvedAt : option Date;
  estimatedResolutionTime : option Date;
  tags : list string;
  metadata : Metadata
}.

(** Field assignment, one function per path the handlers write. *)

Definition set_title (v : string) (r : Report) : Report :=
  mkReport (_id r) v (description r) (category r) (status r) (priority r)
    (location r) (images r) (reportedBy r) (assignedTo r) (statusHistory r)
    (adminComments r) (upvotes r) (isPublic r) (resolvedAt r)
    (estimatedResolutionTime r) (tags r) (metadata r).

Definition set_description (v : string) (r : Report) : Report :=
  mkReport (_id r) (title r) v (category r) (status r) (priority r)
    (location r) (images r) (reportedBy r) (assignedTo r) (statusHistory r)
    (adminComments r) (upvotes r) (isPublic r) (resolvedAt r)
    (estimatedResolutionTime r) (tags r) (metadata r).

Definition set_category (v : string) (r : Report) : Report :=
  mkReport (_id r) (title r) (description r) v (status r) (priority r)
    (location r) (images r) (reportedBy r) (assignedTo r) (statusHistory r)
    (adminComments r) (upvotes r) (isPublic r) (resolvedAt r)
    (estimatedResolutionTime r) (tags r) (metadata r).

Definition set_status (v : string) (r : Report) : Report :=
  mkReport (_id r) (title r) (description r) (category r) v (priority r)
    (location r) (images r) (reportedBy r) (assignedTo r) (statusHistory r)
    (adminComments r) (upvotes r) (isPublic r) (resolvedAt r)
    (estimatedResolutionTime r) (tags r) (metadata r).

Definition set_priority (v : string) (r : Report) : Report :=
  mkReport (_id r) (title r) (description r) (category r) (status r) v
    (location r) (images r) (reportedBy r) (assignedTo r) (statusHistory r)
    (adminComments r) (upvotes r) (isPublic r) (resolvedAt r)
    (estimatedResolutionTime r) (tags r) (metadata r).

Definition set_location (v : Location) (r : Report) : Report :=
  mkReport (_id r) (title r) (description r) (category r) (status r)
    (priority r) v (images r) (reportedBy r) (assignedTo r) (statusHistory
    r) (adminComments r) (upvotes r) (isPublic r) (resolvedAt r)
    (estimatedResolutionTime r) (tags r) (metadata r).

Definition set_images (v : list Image) (r : Report) : Report :=
  mkReport (_id r) (title r) (description r) (category r) (status r)
    (priority r) (location r) v (reportedBy r) (assignedTo r) (statusHistory
    r) (adminComments r) (upvotes r) (isPublic r) (resolvedAt r)
    (estimatedResolutionTime r) (tags r) (metadata r).

Definition set_assignedTo (v : option ObjectId) (r : Report) : Report :=
  mkReport (_id r) (title r) (description r) (category r) (status r)
    (priority r) (location r) (images r) (reportedBy r) v (statusHistory r)
    (adminComments r) (upvotes r) (isPublic r) (resolvedAt r)
    (estimatedResolutionTime r) (tags r) (metadata r).

Definition set_statusHistory (v : list StatusEntry) (r : Report) : Report :=
  mkReport (_id r) (title r) (description r) (category r) (status r)
    (priority r) (location r) (images r) (reportedBy r) (assignedTo r) v
    (adminComments r) (upvotes r) (isPublic r) (resolvedAt r)
    (estimatedResolutionTime r) (tags r) (metadata r).

Definition set_adminComments (v : list AdminComment) (r : Report) : Report :=
  mkReport (_id r) (title r) (description r) (category r) (status r)
    (priority r) (location r) (images r) (reportedBy r) (assignedTo r)
    (statusHistory r) v (upvotes r) (isPublic r) (resolvedAt r)
    (estimatedResolutionTime r) (tags r) (metadata r).

Definition set_upvotes (v : list Upvote) (r : Report) : Report :=
  mkReport (_id r) (title r) (description r) (category r) (status r)
    (priority r) (location r) (images r) (reportedBy r) (assignedTo r)
    (statusHistory r) (adminComments r) v (isPublic r) (resolvedAt r)
    (estimatedResolutionTime r) (tags r) (metadata r).

Definition set_isPublic (v : bool) (r : Report) : Report :=
  mkReport (_id r) (title r) (description r) (category r) (status r)
    (priority r) (location r) (images r) (reportedBy r) (assignedTo r)
    (statusHistory r) (adminComments r) (upvotes r) v (resolvedAt r)
    (estimatedResolutionTime r) (tags r) (metadata r).

Definition set_resolvedAt (v : option Date) (r : Report) : Report :=
  mkReport (_id r) (title r) (description r) (category r) (status r)
    (priority r) (location r) (images r) (reportedBy r) (assignedTo r)
    (statusHistory r) (adminComments r) (upvotes r) (isPublic r) v
    (estimatedResolutionTime r) (tags r) (metadata r).

Definition set_estimatedResolutionTime (v : option Date) (r : Report) : Report :=
  mkReport (_id r) (title r) (description r) (category r) (status r)
    (priority r) (location r) (images r) (reportedBy r) (assignedTo r)
    (statusHistory r) (adminComments r) (upvotes r) (isPublic r) (resolvedAt
    r) v (tags r) (metadata r).

Definition set_tags (v : list string) (r : Report) : Report :=
  mkReport (_id r) (title r) (description r) (category r) (status r)
    (priority r) (location r) (images r) (reportedBy r) (assignedTo r)
    (statusHistory r) (adminComments r) (upvotes r) (isPublic r) (resolvedAt
    r) (estimatedResolutionTime r) v (metadata r).

(** Modelled from the spec: the User model ([backend/models/User.js]) is not
    among the sources.  The record keeps the fields the handlers read: the id,
    the display name, the role ([admin] or not), the optional administrative
    area and the active flag (spec, section 3, User). *)
Record User := mkUser {
  u_id : ObjectId;
  u_name : string;
  role : string;
  adminArea : option string;
  isActive : bool
}.

(** The two collections. *)
Abbreviation Reports := (gmap string Report) (only parsing).
Abbreviation Users := (gmap string User) (only parsing).

(** ** Mongoose documents: change tracking, validation, save *)

(** The schema paths a handler can write. *)
Inductive Path :=
| PTitle | PDescription | PCategory | PStatus | PPriority | PLocation
| PImages | PAssignedTo | PStatusHistory | PAdminComments | PUpvotes
| PIsPublic | PResolvedAt | PEstimatedResolutionTime | PTags.

#[global] Instance Path_eq_dec : EqDecision Path.
Proof. solve_decision. Defined.

Definition all_paths : list Path :=
  [PTitle; PDescription; PCategory; PStatus; PPriority; PLocation; PImages;
   PAssignedTo; PStatusHistory; PAdminComments; PUpvotes; PIsPublic;
   PResolvedAt; PEstimatedResolutionTime; PTags].

(** A document in memory: the data, whether it was built by [new Report]
    and not saved yet, and the paths assigned since it was loaded. *)
Record Doc := mkDoc {
  doc_report : Report;
  isNew : bool;
  modifiedPaths : list Path
}.

(** [this.isModified(path)]. *)
Definition isModified (p : Path) (d : Doc) : bool :=
  bool_decide (p ∈ modifiedPaths d).

(** Marks [p] modified and applies [f] to the data. *)
Definition write (p : Path) (f : Report -> Report) (d : Doc) : Doc :=
  mkDoc (f (doc_report d)) (isNew d) (p :: modifiedPaths d).

(** [report.status = v]: assigning the value a loaded document already has
    leaves the path unmodified. *)
Definition assign_status (v : string) (d : Doc) : Doc :=
  if negb (isNew d) && String.eqb v (status (doc_report d)) then d
  else write PStatus (set_status v) d.

(** The schema setters [trim: true] of the location sub-paths. *)
Definition cast_location (l : Location) : Location :=
  mkLocation (Js.trim <$> address l) (coordinates l) (Js.trim <$> city l)
    (Js.trim <$> state l) (Js.trim <$> zipCode l).

(** The [required] validator on a string path. *)
Definition required (o : option string) : bool := Js.truthy_opt o.

Definition coordinate_valid (lo hi : Q) (o : option Q) : bool :=
  match o with
  | Some x => Qle_bool lo x && Qle_bool x hi
  | None => false
  end.

(** The validators the schema declares on each path. *)
Definition path_valid (p : Path) (r : Report) : bool :=
  match p with
  | PTitle =>
      Js.truthy (title r) && Nat.leb (String.length (title r)) 100
  | PDescription =>
      Js.truthy (description r)
      && Nat.leb 20 (String.length (description r))
      && Nat.leb (String.length (description r)) 1000
  | PCategory => Validator.isIn categories (category r)
  | PStatus => Validator.isIn statuses (status r)
  | PPriority => Validator.isIn priorities (priority r)
  | PLocation =>
      required (address (location r))
      && coordinate_valid (-90) 90 (lat (coordinates (location r)))
      && coordinate_valid (-180) 180 (lng (coordinates (location r)))
      && required (city (location r))
  | PImages => forallb (fun i => Js.truthy (url i)) (images r)
  | PStatusHistory =>
      forallb (fun e => Validator.isIn statuses (sh_status e)) (statusHistory r)
  | PAdminComments =>
      forallb (fun c => Js.truthy (ac_comment c)) (adminComments r)
  | _ => true
  end.

(** Validation at [save]: a new document validates every path, a loaded one
    the paths modified since. *)
Definition validate (d : Doc) : bool :=
  forallb (fun p => path_valid p (doc_report d))
    (if isNew d then all_paths else modifiedPaths d).

(** [reportSchema.pre('save', ...)]. *)
Definition pre_save (now : Date) (d : Doc) : Doc :=
  if isModified PStatus d && negb (isNew d) then
    let r := doc_report d in
    let r :=
      set_statusHistory
        (statusHistory r ++ [mkStatusEntry (status r) None now None]) r in
    let r :=
      if String.eqb (status r) "resolved" then set_resolvedAt (Some now) r
      else r in
    mkDoc r (isNew d) (modifiedPaths d)
  else d.

(** [doc.save()]: validation, then the pre-save hook, then the write.  [None]
    is the rejected promise of a validation error. *)
Definition save (now : Date) (d : Doc) (db : Reports) : option (Reports * Doc) :=
  if validate d then
    let r := doc_report (pre_save now d) in
    Some (<[_id r := r]> db, mkDoc r false [])
  else None.

(** [Report.findById(id)]. *)
Definition findById (db : Reports) (id : ObjectId) : option Doc :=
  (fun r => mkDoc r false []) <$> db !! id.

(** [reportSchema.methods.canEdit]. *)
Definition canEdit (r : Report) (userId : ObjectId) (userRole : string) : bool :=
  String.eqb userRole "admin" || String.eqb (reportedBy r) userId.

(** [reportSchema.methods.addUpvote]. *)
Definition addUpvote (now : Date) (userId : ObjectId) (d : Doc) (db : Reports)
  : option (Reports * Doc) :=
  match List.find (fun vote => String.eqb (user vote) userId)
          (upvotes (doc_report d)) with
  | None =>
      save now
        (write PUpvotes
           (fun r => set_upvotes (upvotes r ++ [mkUpvote userId now]) r) d) db
  | Some _ => Some (db, d)
  end.

(** [reportSchema.methods.removeUpvote]. *)
Definition removeUpvote (now : Date) (userId : ObjectId) (d : Doc) (db : Reports)
  : option (Reports * Doc) :=
  save now
    (write PUpvotes
       (fun r =>
          set_upvotes
            (List.filter (fun vote => negb (String.eqb (user vote) userId))
               (upvotes r)) r) d) db.

(** ** Requests and responses *)

Inductive Body :=
| Message (message : string)
| Error (message error : string)
| ValidationFailed (errors : list string)
| ReportCreated (r : Report)
| ReportRetrieved (r : Report) (upvoteCount : nat) (hasUserUpvoted : bool)
| ReportUpdated (r : option Report)
| UpvoteToggled (message : string) (upvoted : bool) (upvoteCount : nat)
| StatusUpdated (r : Report) (statusChanged : bool)
| ReportAssigned (r : Report)
| CommentAdded (c : option AdminComment).

Record Response := mkResponse { code : nat; body : Body }.

(** The JSON body of [POST /api/reports] and [PUT /api/reports/:id]. *)
Record ReportBody := mkReportBody {
  b_title : option string;
  b_description : option string;
  b_category : option string;
  b_location : option Location;
  b_images : option (list Image);
  b_priority : option string;
  b_tags : option (list string);
  b_isPublic : option bool
}.

(** The JSON body of [PUT /api/admin/reports/:id/status].  The estimated
    resolution time arrives as text; [Iso8601 d] is text that [isISO8601]
    accepts and [new Date] reads as [d], [NotIso8601] is any other text. *)
Inductive DateText := Iso8601 (d : Date) | NotIso8601 (raw : string).

Record StatusBody := mkStatusBody {
  sb_status : option string;
  sb_comment : option string;
  sb_estimatedResolutionTime : option DateText
}.

(** The JSON body of [PUT /api/admin/reports/:id/assign]. *)
Record AssignBody := mkAssignBody {
  ab_assignedTo : option string;
  ab_comment : option string
}.

(** ** [backend/routes/reports.js] *)

(** A validation chain step: the message when the check fails. *)
Definition check (ok : bool) (msg : string) : list string :=
  if ok then [] else [msg].

(** The value a chain reads for an absent field. *)
Definition field (o : option string) : string := default "" o.

Definition loc_address (b : ReportBody) : option string :=
  b_location b ≫= address.
Definition loc_city (b : ReportBody) : option string :=
  b_location b ≫= city.
Definition loc_lat (b : ReportBody) : option Q :=
  b_location b ≫= (fun l => lat (coordinates l)).
Definition loc_lng (b : ReportBody) : option Q :=
  b_location b ≫= (fun l => lng (coordinates l)).

(** [createReportValidation]: the errors of the chains. *)
Definition createReportValidation (b : ReportBody) : list string :=
  check (Validator.isLength 5 100 (Js.trim (field (b_title b))))
    "Title must be between 5 and 100 characters"
  ++ check (Validator.isLength 20 1000 (Js.trim (field (b_description b))))
    "Description must be between 20 and 1000 characters"
  ++ check (Validator.isIn categories (field (b_category b))) "Invalid category"
  ++ check (Validator.notEmpty (Js.trim (field (loc_address b))))
    "Address is required"
  ++ check (from_option (Validator.isFloat (-90) 90) false (loc_lat b))
    "Invalid latitude"
  ++ check (from_option (Validator.isFloat (-180) 180) false (loc_lng b))
    "Invalid longitude"
  ++ check (Validator.notEmpty (Js.trim (field (loc_city b))))
    "City is required"
  ++ check (from_option (Validator.isIn priorities) true (b_priority b))
    "Invalid priority level".

(** The sanitizers of [createReportValidation]: [trim()] rewrites the field
    in [req.body]. *)
Definition createReportSanitize (b : ReportBody) : ReportBody :=
  mkReportBody
    (Some (Js.trim (field (b_title b))))
    (Some (Js.trim (field (b_description b))))
    (b_category b)
    ((fun l =>
        mkLocation (Some (Js.trim (field (address l)))) (coordinates l)
          (Some (Js.trim (field (city l)))) (state l) (zipCode l))
       <$> b_location b)
    (b_images b) (b_priority b) (b_tags b) (b_isPublic b).

Definition empty_location : Location :=
  mkLocation None (mkCoordinates None None) None None None.

(** [new Report({...})] of the create handler: the fields taken from the
    body, the schema defaults for the rest. *)
Definition new_Report (newId : ObjectId) (b : ReportBody) (reporter : ObjectId)
    (ua ip : option string) : Doc :=
  mkDoc
    (mkReport newId
       (Js.trim (field (b_title b)))
       (Js.trim (field (b_description b)))
       (field (b_category b))
       "pending"
       (Js.or_else (b_priority b) "medium")
       (cast_location (default empty_location (b_location b)))
       (default [] (b_images b))
       reporter
       None
       []
       []
       []
       (negb (bool_decide (b_isPublic b = Some false)))
       None
       None
       (default [] (b_tags b))
       (mkMetadata None ip ua))
    true [].

(** [POST /api/reports], after [authenticateToken] has set [req.user]. *)
Definition post_report (now : Date) (newId : ObjectId) (ua ip : option string)
    (db : Reports) (u : User) (b : ReportBody) : Reports * Response :=
  match createReportValidation b with
  | [] =>
      let b := createReportSanitize b in
      match save now (new_Report newId b (u_id u) ua ip) db with
      | Some (db', d) => (db', mkResponse 201 (ReportCreated (doc_report d)))
      | None =>
          (db, mkResponse 500 (Error "Failed to create report" "REPORT_CREATE_ERROR"))
      end
  | errors => (db, mkResponse 400 (ValidationFailed errors))
  end.

(** [vote.user.toString() === req.user._id.toString()] over the upvotes. *)
Definition hasUpvoted (r : Report) (userId : ObjectId) : bool :=
  existsb (fun vote => String.eqb (user vote) userId) (upvotes r).

(** The denial test of [GET /api/reports/:id]. *)
Definition view_denied (r : Report) (u : option User) : bool :=
  negb (isPublic r)
  && match u with
     | None => true
     | Some u =>
         negb (String.eqb (u_id u) (reportedBy r))
         && negb (String.eqb (role u) "admin")
     end.

(** [GET /api/reports/:id], after [optionalAuth]. *)
Definition get_report (db : Reports) (u : option User) (id : ObjectId) : Response :=
  match findById db id with
  | None => mkResponse 404 (Error "Report not found" "REPORT_NOT_FOUND")
  | Some d =>
      let report := doc_report d in
      if view_denied report u then
        mkResponse 403 (Error "Access denied" "ACCESS_DENIED")
      else
        mkResponse 200
          (ReportRetrieved report (List.length (upvotes report))
             (match u with
              | Some u => hasUpvoted report (u_id u)
              | None => false
              end))
  end.

(** The [updateData] object of [PUT /api/reports/:id]. *)
Record UpdateData := mkUpdateData {
  ud_title : option string;
  ud_description : option string;
  ud_category : option string;
  ud_location : option Location;
  ud_images : option (list Image);
  ud_priority : option string;
  ud_tags : option (list string);
  ud_isPublic : option bool
}.

(** [if (x) updateData.x = x] on a string field. *)
Definition keep_truthy (o : option string) : option string :=
  if Js.truthy_opt o then o else None.

Definition updateData_of (b : ReportBody) : UpdateData :=
  mkUpdateData (keep_truthy (b_title b)) (keep_truthy (b_description b))
    (keep_truthy (b_category b)) (b_location b) (b_images b)
    (keep_truthy (b_priority b)) (b_tags b) (b_isPublic b).

Definition opt_set {A : Type} (o : option A) (f : A -> Report -> Report)
    (r : Report) : Report :=
  match o with
  | Some v => f v r
  | None => r
  end.

(** The [$set] of an [updateData], values cast by the schema setters. *)
Definition apply_update (ud : UpdateData) (r : Report) : Report :=
  let r := opt_set (ud_title ud) (fun v => set_title (Js.trim v)) r in
  let r := opt_set (ud_description ud) (fun v => set_description (Js.trim v)) r in
  let r := opt_set (ud_category ud) set_category r in
  let r := opt_set (ud_location ud) (fun v => set_location (cast_location v)) r in
  let r := opt_set (ud_images ud) set_images r in
  let r := opt_set (ud_priority ud) set_priority r in
  let r := opt_set (ud_tags ud) set_tags r in
  opt_set (ud_isPublic ud) set_isPublic r.

Definition present {A : Type} (o : option A) (p : Path) : list Path :=
  match o with
  | Some _ => [p]
  | None => []
  end.

(** The paths an [updateData] sets. *)
Definition update_paths (ud : UpdateData) : list Path :=
  present (ud_title ud) PTitle ++ present (ud_description ud) PDescription
  ++ present (ud_category ud) PCategory ++ present (ud_location ud) PLocation
  ++ present (ud_images ud) PImages ++ present (ud_priority ud) PPriority
  ++ present (ud_tags ud) PTags ++ present (ud_isPublic ud) PIsPublic.

(** [Report.findByIdAndUpdate(id, updateData, {new: true, runValidators: true})]:
    the schema validators of the paths being set run on the new values; no
    [save] middleware runs.  [None] is the rejected promise, [Some (db, None)]
    the [null] of a missing document. *)
Definition findByIdAndUpdate (db : Reports) (id : ObjectId) (ud : UpdateData)
  : option (Reports * option Report) :=
  match db !! id with
  | None => Some (db, None)
  | Some r =>
      let r' := apply_update ud r in
      if forallb (fun p => path_valid p r') (update_paths ud)
      then Some (<[id := r']> db, Some r')
      else None
  end.

(** [PUT /api/reports/:id], after [authenticateToken]. *)
Definition put_report (db : Reports) (u : User) (id : ObjectId) (b : ReportBody)
  : Reports * Response :=
  match findById db id with
  | None => (db, mkResponse 404 (Error "Report not found" "REPORT_NOT_FOUND"))
  | Some d =>
      if negb (canEdit (doc_report d) (u_id u) (role u)) then
        (db, mkResponse 403 (Error "Access denied" "ACCESS_DENIED"))
      else
        match findByIdAndUpdate db id (updateData_of b) with
        | Some (db', updatedReport) =>
            (db', mkResponse 200 (ReportUpdated updatedReport))
        | None =>
            (db, mkResponse 500
                   (Error "Failed to update report" "REPORT_UPDATE_ERROR"))
        end
  end.

(** [POST /api/reports/:id/upvote], after [authenticateToken]. *)
Definition post_upvote (now : Date) (db : Reports) (u : User) (id : ObjectId)
  : Reports * Response :=
  match findById db id with
  | None => (db, mkResponse 404 (Error "Report not found" "REPORT_NOT_FOUND"))
  | Some report =>
      if hasUpvoted (doc_report report) (u_id u) then
        match removeUpvote now (u_id u) report db with
        | Some (db', report) =>
            (db', mkResponse 200
                    (UpvoteToggled "Upvote removed" false
                       (List.length (upvotes (doc_report report)))))
        | None =>
            (db, mkResponse 500 (Error "Failed to toggle upvote" "UPVOTE_ERROR"))
        end
      else
        match addUpvote now (u_id u) report db with
        | Some (db', report) =>
            (db', mkResponse 200
                    (UpvoteToggled "Report upvoted" true
                       (List.length (upvotes (doc_report report)))))
        | None =>
            (db, mkResponse 500 (Error "Failed to toggle upvote" "UPVOTE_ERROR"))
        end
  end.

(** [DELETE /api/reports/:id], after [authenticateToken]. *)
Definition delete_report (db : Reports) (u : User) (id : ObjectId)
  : Reports * Response :=
  match findById db id with
  | None => (db, mkResponse 404 (Error "Report not found" "REPORT_NOT_FOUND"))
  | Some report =>
      if negb (canEdit (doc_report report) (u_id u) (role u)) then
        (db, mkResponse 403 (Error "Access denied" "ACCESS_DENIED"))
      else (delete id db, mkResponse 200 (Message "Report deleted successfully"))
  end.

(** ** The admin router ([unnamed/part_008]) *)

Definition updateStatusValidation (b : StatusBody) : list string :=
  check (Validator.isIn statuses (field (sb_status b))) "Invalid status"
  ++ check
       (from_option (fun c => Validator.isLength 0 500 (Js.trim c)) true
          (sb_comment b))
       "Comment cannot exceed 500 characters"
  ++ check
       (match sb_estimatedResolutionTime b with
        | Some (NotIso8601 _) => false
        | _ => true
        end)
       "Invalid date format for estimated resolution time".

Definition is_hex (c : ascii) : bool :=
  let n := nat_of_ascii c in
  (Nat.leb 48 n && Nat.leb n 57) || (Nat.leb 65 n && Nat.leb n 70)
  || (Nat.leb 97 n && Nat.leb n 102).

(** [isHexadecimal()], the pattern [/^(0x|0h)?[0-9A-F]+$/i]: hexadecimal
    digits, after an optional [0x] or [0h] in either letter case. *)
Definition isHexadecimal (s : string) : bool :=
  let digits :=
    match s with
    | String "0" (String c r) =>
        if existsb (Ascii.eqb c) ["x"; "X"; "h"; "H"]%char then r else s
    | _ => s
    end in
  Js.truthy digits && forallb is_hex (list_ascii_of_string digits).

(** [isMongoId()]: [isHexadecimal(str) && str.length === 24]. *)
Definition isMongoId (s : string) : bool :=
  isHexadecimal s && Nat.eqb (String.length s) 24.

(** The cast of Mongoose from text to an ObjectId, on the text of 24
    characters that [isMongoId] lets through: 24 hexadecimal digits name the
    id, which prints in lower case; anything else is a [CastError]. *)
Definition castObjectId (s : string) : option ObjectId :=
  if Nat.eqb (String.length s) 24 && forallb is_hex (list_ascii_of_string s)
  then Some (Js.toLowerCase s) else None.

Definition assignReportValidation (b : AssignBody) : list string :=
  check (isMongoId (field (ab_assignedTo b))) "Invalid user ID"
  ++ check
       (from_option (fun c => Validator.isLength 0 500 (Js.trim c)) true
          (ab_comment b))
       "Comment cannot exceed 500 characters".

Definition push_statusHistory (e : StatusEntry) (d : Doc) : Doc :=
  write PStatusHistory (fun r => set_statusHistory (statusHistory r ++ [e]) r) d.

Definition push_adminComments (c : AdminComment) (d : Doc) : Doc :=
  write PAdminComments (fun r => set_adminComments (adminComments r ++ [c]) r) d.

Definition not_found : Response :=
  mkResponse 404 (Error "Report not found" "REPORT_NOT_FOUND").

(** The area test of the status handler: [Some true] denies, [None] is the
    [TypeError] of reading [toLowerCase] of an absent city. *)
Definition outside_area (u : User) (r : Report) : option bool :=
  if Js.truthy_opt (adminArea u) then
    match city (location r) with
    | Some c =>
        Some (negb (Js.includes (Js.toLowerCase c)
                      (Js.toLowerCase (field (adminArea u)))))
    | None => None
    end
  else Some false.

(** [PUT /api/admin/reports/:id/status], after [authenticateToken] and
    [requireAdmin]. *)
Definition put_report_status (now : Date) (db : Reports) (u : User)
    (id : ObjectId) (b : StatusBody) : Reports * Response :=
  match updateStatusValidation b with
  | [] =>
      let status' := field (sb_status b) in
      let comment := Js.trim <$> sb_comment b in
      match findById db id with
      | None => (db, not_found)
      | Some report =>
          match outside_area u (doc_report report) with
          | None =>
              (db, mkResponse 500
                     (Error "Failed to update report status" "STATUS_UPDATE_ERROR"))
          | Some true =>
              (db, mkResponse 403
                     (Error "Access denied - report outside your administrative area"
                        "AREA_ACCESS_DENIED"))
          | Some false =>
              let oldStatus := status (doc_report report) in
              let report := assign_status status' report in
              let report :=
                match sb_estimatedResolutionTime b with
                | Some (Iso8601 t) =>
                    write PEstimatedResolutionTime
                      (set_estimatedResolutionTime (Some t)) report
                | _ => report
                end in
              let report :=
                push_statusHistory
                  (mkStatusEntry status' (Some (u_id u)) now comment) report in
              let report :=
                if Js.truthy_opt comment then
                  push_adminComments
                    (mkAdminComment (field comment) (u_id u) now) report
                else report in
              match save now report db with
              | Some (db', report) =>
                  (db', mkResponse 200
                          (StatusUpdated (doc_report report)
                             (negb (String.eqb oldStatus status'))))
              | None =>
                  (db, mkResponse 500
                         (Error "Failed to update report status"
                            "STATUS_UPDATE_ERROR"))
              end
          end
      end
  | errors => (db, mkResponse 400 (ValidationFailed errors))
  end.

(** [PUT /api/admin/reports/:id/assign], after [authenticateToken] and
    [requireAdmin]. *)
Definition put_report_assign (now : Date) (users : Users) (db : Reports)
    (u : User) (id : ObjectId) (b : AssignBody) : Reports * Response :=
  match assignReportValidation b with
  | [] =>
      let comment := Js.trim <$> ab_comment b in
      match findById db id with
      | None => (db, not_found)
      | Some report =>
          match castObjectId (field (ab_assignedTo b)) with
          | Some assignedTo' =>
              match users !! assignedTo' with
              | Some assignedUser =>
                  if negb (String.eqb (role assignedUser) "admin") then
                    (db, mkResponse 400
                           (Error "Invalid admin user for assignment"
                              "INVALID_ADMIN_USER"))
                  else
                    let report :=
                      write PAssignedTo (set_assignedTo (Some assignedTo'))
                        report in
                    let assignmentComment :=
                      Js.or_else comment
                        ("Report assigned to " ++ u_name assignedUser ++ " by "
                           ++ u_name u) in
                    let report :=
                      push_adminComments
                        (mkAdminComment assignmentComment (u_id u) now)
                        report in
                    let report :=
                      if String.eqb (status (doc_report report)) "pending" then
                        push_statusHistory
                          (mkStatusEntry "in_progress" (Some (u_id u)) now
                             (Some "Status updated due to assignment"))
                          (assign_status "in_progress" report)
                      else report in
                    match save now report db with
                    | Some (db', report) =>
                        (db',
                         mkResponse 200 (ReportAssigned (doc_report report)))
                    | None =>
                        (db, mkResponse 500
                               (Error "Failed to assign report"
                                  "REPORT_ASSIGN_ERROR"))
                    end
              | None =>
                  (db, mkResponse 400
                         (Error "Invalid admin user for assignment"
                            "INVALID_ADMIN_USER"))
              end
          | None =>
              (db, mkResponse 500
                     (Error "Failed to assign report" "REPORT_ASSIGN_ERROR"))
          end
      end
  | errors => (db, mkResponse 400 (ValidationFailed errors))
  end.

Definition commentValidation (c : option string) : list string :=
  check (Validator.isLength 1 500 (Js.trim (field c)))
    "Comment must be between 1 and 500 characters".

(** [POST /api/admin/reports/:id/comment], after [authenticateToken] and
    [requireAdmin]. *)
Definition post_report_comment (now : Date) (db : Reports) (u : User)
    (id : ObjectId) (c : option string) : Reports * Response :=
  match commentValidation c with
  | [] =>
      let comment := Js.trim (field c) in
      match findById db id with
      | None => (db, not_found)
      | Some report =>
          let report :=
            push_adminComments (mkAdminComment comment (u_id u) now) report in
          match save now report db with
          | Some (db', report) =>
              (db', mkResponse 200
                      (CommentAdded (last (adminComments (doc_report report)))))
          | None =>
              (db, mkResponse 500
                     (Error "Failed to add comment" "COMMENT_ADD_ERROR"))
          end
      end
  | errors => (db, mkResponse 400 (ValidationFailed errors))
  end.

(** ** [backend/middleware/auth.js] *)

(** What a middleware does with a request: pass it on, with the user it
    attached if any, or answer it. *)
Inductive Middleware :=
| Next (req_user : option User)
| Respond (r : Response).

(** A route: the middleware, then the handler. *)
Definition route (m : Middleware) (handler : option User -> Response) : Response :=
  match m with
  | Next u => handler u
  | Respond r => r
  end.

(** [process.env]. *)
Record Env := mkEnv {
  JWT_SECRET : string;
  JWT_REFRESH_SECRET : option string;
  JWT_EXPIRES_IN : option string
}.

(** The claims of a token. *)
Record Payload := mkPayload { userId : ObjectId; type : option string }.

Record SignOptions := mkSignOptions {
  expiresIn : string;
  issuer : string;
  audience : string
}.

(** The errors [jwt.verify] throws, by [error.name]. *)
Inductive JwtError := JsonWebTokenError | TokenExpiredError | NotBeforeError.

Inductive Verified := Decoded (p : Payload) | Throws (e : JwtError).

(** [authHeader && authHeader.split(' ')[1]], with the falsy results
    identified. *)
Definition bearer_token (authHeader : option string) : option string :=
  h ← authHeader;
  t ← Js.split " " h !! 1%nat;
  if Js.truthy t then Some t else None.

(** [requireAdmin]. *)
Definition requireAdmin (u : User) : Middleware :=
  if negb (String.eqb (role u) "admin") then
    Respond (mkResponse 403
               (Error "Admin access required" "INSUFFICIENT_PERMISSIONS"))
  else Next (Some u).

Section Auth.

(** The [jsonwebtoken] library: [jwt.sign(payload, secret, options)] and
    [jwt.verify(token, secret)], each at the instant of the call. *)
Variable jwt_sign : Payload -> string -> SignOptions -> Date -> string.
Variable jwt_verify : string -> string -> Date -> Verified.

Variable env : Env.
Variable users : Users.

(** [authenticateToken]. *)
Definition authenticateToken (now : Date) (authorization : option string)
  : Middleware :=
  match bearer_token authorization with
  | None =>
      Respond (mkResponse 401 (Error "Access token required" "MISSING_TOKEN"))
  | Some token =>
      match jwt_verify token (JWT_SECRET env) now with
      | Decoded decoded =>
          match users !! userId decoded with
          | None =>
              Respond (mkResponse 401
                         (Error "Invalid token - user not found" "USER_NOT_FOUND"))
          | Some user =>
              if negb (isActive user) then
                Respond (mkResponse 401
                           (Error "Account is deactivated" "ACCOUNT_DEACTIVATED"))
              else Next (Some user)
          end
      | Throws JsonWebTokenError =>
          Respond (mkResponse 401 (Error "Invalid token" "INVALID_TOKEN"))
      | Throws TokenExpiredError =>
          Respond (mkResponse 401 (Error "Token expired" "TOKEN_EXPIRED"))
      | Throws NotBeforeError =>
          Respond (mkResponse 500 (Error "Authentication error" "AUTH_ERROR"))
      end
  end.

(** [optionalAuth]. *)
Definition optionalAuth (now : Date) (authorization : option string)
  : Middleware :=
  match bearer_token authorization with
  | Some token =>
      match jwt_verify token (JWT_SECRET env) now with
      | Decoded decoded =>
          match users !! userId decoded with
          | Some user => if isActive user then Next (Some user) else Next None
          | None => Next None
          end
      | Throws _ => Next None
      end
  | None => Next None
  end.

(** [generateToken]. *)
Definition generateToken (now : Date) (uid : ObjectId) : string :=
  jwt_sign (mkPayload uid None) (JWT_SECRET env)
    (mkSignOptions (Js.or_else (JWT_EXPIRES_IN env) "7d") "locallens-api"
       "locallens-client")
    now.

(** [process.env.JWT_REFRESH_SECRET || process.env.JWT_SECRET]. *)
Definition refresh_secret : string :=
  Js.or_else (JWT_REFRESH_SECRET env) (JWT_SECRET env).

(** [generateRefreshToken]. *)
Definition generateRefreshToken (now : Date) (uid : ObjectId) : string :=
  jwt_sign (mkPayload uid (Some "refresh")) refresh_secret
    (mkSignOptions "30d" "locallens-api" "locallens-client") now.

(** [verifyRefreshToken]: [None] is the rethrown error. *)
Definition verifyRefreshToken (now : Date) (token : string) : option Payload :=
  match jwt_verify token refresh_secret now with
  | Decoded decoded =>
      if negb (bool_decide (type decoded = Some "refresh")) then None
      else Some decoded
  | Throws _ => None
  end.

End Auth.

(** ** More of the middleware and the refresh route *)

(** [requireAdminOrOwner(resourceUserIdField)]: [resource] is [req.resource]
    and [owner] reads the field named by [resourceUserIdField]. *)
Definition requireAdminOrOwner (owner : Report -> option ObjectId) (u : User)
    (resource : option Report) : Middleware :=
  let isAdmin := String.eqb (role u) "admin" in
  let isOwner :=
    match resource ≫= owner with
    | Some o => String.eqb o (u_id u)
    | None => false
    end in
  if negb isAdmin && negb isOwner then
    Respond (mkResponse 403
               (Error "Access denied - insufficient permissions"
                  "INSUFFICIENT_PERMISSIONS"))
  else Next (Some u).

(** The default field, ['reportedBy']. *)
Definition by_reportedBy (r : Report) : option ObjectId := Some (reportedBy r).

(** The answers of [POST /api/auth/refresh]. *)
Inductive AuthBody :=
| AuthError (message error : string)
| TokenRefreshed (token : string).

Record AuthResponse := mkAuthResponse { auth_code : nat; auth_body : AuthBody }.

Definition invalid_refresh : AuthResponse :=
  mkAuthResponse 401 (AuthError "Invalid refresh token" "INVALID_REFRESH_TOKEN").

(** [POST /api/auth/refresh] ([backend/routes/auth.js]). *)
Definition post_refresh
    (jwt_sign : Payload -> string -> SignOptions -> Date -> string)
    (jwt_verify : string -> string -> Date -> Verified)
    (env : Env) (users : Users) (now : Date) (refreshToken : option string)
  : AuthResponse :=
  if negb (Js.truthy_opt refreshToken) then
    mkAuthResponse 401
      (AuthError "Refresh token required" "MISSING_REFRESH_TOKEN")
  else
    match verifyRefreshToken jwt_verify env now (field refreshToken) with
    | Some decoded =>
        match users !! userId decoded with
        | Some user =>
            if negb (isActive user) then invalid_refresh
            else
              mkAuthResponse 200
                (TokenRefreshed (generateToken jwt_sign env now (u_id user)))
        | None => invalid_refresh
        end
    | None => invalid_refresh
    end.

(** ** The public listing ([GET /api/reports]) and the statistics *)

(** A query-string number: [IsInt n] is text that [isInt] reads and
    [parseInt] turns into [n], [NotInt] is any other text. *)
Inductive IntText := IsInt (n : Z) | NotInt (raw : string).

Record ListQuery := mkListQuery {
  q_page : option IntText;
  q_limit : option IntText;
  q_status : option string;
  q_category : option string;
  q_city : option string;
  q_priority : option string;
  q_sortBy : option string;
  q_sortOrder : option string;
  q_search : option string
}.

(** [isInt({min, max})]. *)
Definition isInt (min : Z) (max : option Z) (t : IntText) : bool :=
  match t with
  | IsInt n => Z.leb min n && from_option (Z.leb n) true max
  | NotInt _ => false
  end.

(** The validation chains of the listing route. *)
Definition listValidation (q : ListQuery) : list string :=
  check (from_option (isInt 1 None) true (q_page q))
    "Page must be a positive integer"
  ++ check (from_option (isInt 1 (Some 50%Z)) true (q_limit q))
    "Limit must be between 1 and 50"
  ++ check (from_option (Validator.isIn statuses) true (q_status q))
    "Invalid status filter"
  ++ check (from_option (Validator.isIn categories) true (q_category q))
    "Invalid category filter"
  ++ check
       (from_option (fun c => Nat.leb 2 (String.length (Js.trim c))) true
          (q_city q))
       "City must be at least 2 characters"
  ++ check
       (from_option
          (Validator.isIn ["createdAt"; "updatedAt"; "priority"; "upvoteCount"])
          true (q_sortBy q))
       "Invalid sort field"
  ++ check (from_option (Validator.isIn ["asc"; "desc"]) true (q_sortOrder q))
    "Sort order must be asc or desc".

(** [const { page = 1 } = req.query; parseInt(page)], for a validated query. *)
Definition int_param (o : option IntText) (dflt : Z) : Z :=
  match o with
  | Some (IsInt n) => n
  | _ => dflt
  end.

(** A MongoDB filter document over reports: equalities and compiled regular
    expressions. *)
Record Filter := mkFilter {
  f_isPublic : option bool;
  f_reportedBy : option ObjectId;
  f_status : option string;
  f_category : option string;
  f_priority : option string;
  f_city : option (string -> bool);
  f_search : option (string -> bool)
}.

(** A regular expression against a field that may be absent. *)
Definition test_field (re : string -> bool) (o : option string) : bool :=
  from_option re false o.

Definition matches (f : Filter) (r : Report) : bool :=
  from_option (Bool.eqb (isPublic r)) true (f_isPublic f)
  && from_option (String.eqb (reportedBy r)) true (f_reportedBy f)
  && from_option (String.eqb (status r)) true (f_status f)
  && from_option (String.eqb (category r)) true (f_category f)
  && from_option (String.eqb (priority r)) true (f_priority f)
  && from_option (fun re => test_field re (city (location r))) true (f_city f)
  && from_option
       (fun re =>
          re (title r) || re (description r)
          || test_field re (address (location r)))
       true (f_search f).

(** The documents of the collection, in its natural order. *)
Definition documents (db : Reports) : list Report := (map_to_list db).*2.

(** [Report.find(f)] before any sort, and [Report.countDocuments(f)]. *)
Definition find (f : Filter) (db : Reports) : list Report :=
  List.filter (matches f) (documents db).

Definition countDocuments (f : Filter) (db : Reports) : nat :=
  List.length (find f db).

(** [Math.ceil(total / limit)] on whole numbers. *)
Definition ceil_div (total limit : Z) : Z := ((total + limit - 1) / limit)%Z.

Record Pagination := mkPagination {
  currentPage : Z;
  totalPages : Z;
  totalReports : nat;
  hasNextPage : bool;
  hasPrevPage : bool
}.

(** A listed report with the metadata the route adds. *)
Record Listed := mkListed {
  l_report : Report;
  l_upvoteCount : nat;
  l_hasUserUpvoted : bool
}.

Inductive ListResponse :=
| ListOk (reports : list Listed) (pagination : Pagination)
| ListFailed (r : Response).

(** The [$group] with [_id: null] of the statistics pipelines. *)
Record Statistics := mkStatistics {
  st_total : nat;
  st_pending : nat;
  st_inProgress : nat;
  st_resolved : nat;
  st_rejected : nat;
  st_categoryBreakdown : list string
}.

(** [$sum: { $cond: [{ $eq: ['$status', s] }, 1, 0] }]. *)
Definition count_status (s : string) (l : list Report) : nat :=
  List.length (List.filter (fun r => String.eqb (status r) s) l).

(** A [$group] stage with [_id: null]: no group for no input. *)
Definition group_all (l : list Report) : list Statistics :=
  match l with
  | [] => []
  | _ =>
      [mkStatistics (List.length l) (count_status "pending" l)
         (count_status "in_progress" l) (count_status "resolved" l)
         (count_status "rejected" l) (category <$> l)]
  end.

(** The [$group] of [GET /api/reports/my-reports]: the five counts, and no
    category breakdown. *)
Record MyStatistics := mkMyStatistics {
  ms_total : nat;
  ms_pending : nat;
  ms_inProgress : nat;
  ms_resolved : nat;
  ms_rejected : nat
}.

Definition group_mine (l : list Report) : list MyStatistics :=
  match l with
  | [] => []
  | _ =>
      [mkMyStatistics (List.length l) (count_status "pending" l)
         (count_status "in_progress" l) (count_status "resolved" l)
         (count_status "rejected" l)]
  end.

Definition no_statistics : MyStatistics := mkMyStatistics 0 0 0 0 0.

(** The [statistics] of [GET /api/reports/my-reports]: the pipeline over the
    user's reports and the [stats[0] || {...}] default. *)
Definition my_reports_statistics (db : Reports) (u : User) : MyStatistics :=
  let f := mkFilter None (Some (u_id u)) None None None None None in
  match group_mine (find f db) with
  | s :: _ => s
  | [] => no_statistics
  end.

Section Listing.

(** [new RegExp(pattern, 'i')] as MongoDB applies it to a string: [None] is
    the [SyntaxError] of a pattern that does not compile. *)
Variable regexp_i : string -> option (string -> bool).

(** [.sort({ [key]: desc ? -1 : 1 })]. *)
Variable mongo_sort : string -> bool -> list Report -> list Report.

(** [if (x) query[path] = new RegExp(x, 'i')]: the outer [None] is the
    thrown error. *)
Definition regexp_filter (o : option string)
  : option (option (string -> bool)) :=
  if Js.truthy_opt o then
    match regexp_i (field o) with
    | Some re => Some (Some re)
    | None => None
    end
  else Some None.

(** The [query] object of the public listing. *)
Definition list_filter (q : ListQuery) : option Filter :=
  match regexp_filter (Js.trim <$> q_city q) with
  | Some c =>
      match regexp_filter (q_search q) with
      | Some s =>
          Some (mkFilter (Some true) None (keep_truthy (q_status q))
                  (keep_truthy (q_category q)) (keep_truthy (q_priority q))
                  c s)
      | None => None
      end
  | None => None
  end.

Definition with_metadata (u : option User) (r : Report) : Listed :=
  mkListed r (List.length (upvotes r))
    (match u with
     | Some u => hasUpvoted r (u_id u)
     | None => false
     end).

(** [GET /api/reports], after [optionalAuth]. *)
Definition get_reports (db : Reports) (u : option User) (q : ListQuery)
  : ListResponse :=
  match listValidation q with
  | [] =>
      match list_filter q with
      | Some f =>
          let page := int_param (q_page q) 1 in
          let limit := int_param (q_limit q) 10 in
          let sortBy := default "createdAt" (q_sortBy q) in
          let desc := String.eqb (default "desc" (q_sortOrder q)) "desc" in
          let skip := ((page - 1) * limit)%Z in
          let reports :=
            take (Z.to_nat limit)
              (drop (Z.to_nat skip) (mongo_sort sortBy desc (find f db))) in
          let total := countDocuments f db in
          let pages := ceil_div (Z.of_nat total) limit in
          ListOk (with_metadata u <$> reports)
            (mkPagination page pages total (Z.ltb page pages) (Z.ltb 1 page))
      | None =>
          ListFailed
            (mkResponse 500
               (Error "Failed to retrieve reports" "REPORTS_FETCH_ERROR"))
      end
  | errors => ListFailed (mkResponse 400 (ValidationFailed errors))
  end.

(** [reportSchema.statics.getStatistics]: [None] is the thrown
    [SyntaxError]. *)
Definition getStatistics (db : Reports) (city : option string)
  : option (list Statistics) :=
  match regexp_filter city with
  | Some c =>
      Some (group_all (find (mkFilter None None None None None c None) db))
  | None => None
  end.

End Listing.

(** ** A reference token library and sample data *)

(** A symbolic stand-in for [jsonwebtoken], used for the examples: a token
    spells out its claims and the key that signed it, and verification
    accepts exactly the tokens signed with the key it is given. *)
Module SymbolicJwt.

Definition sign (p : Payload) (secret : string) (_ : SignOptions) (_ : Date)
  : string :=
  userId p ++ "." ++ default "" (type p) ++ "." ++ secret.

Definition verify (token secret : string) (_ : Date) : Verified :=
  match Js.split "." token with
  | [uid; ty; key] =>
      if String.eqb key secret then
        Decoded (mkPayload uid (if Js.truthy ty then Some ty else None))
      else Throws JsonWebTokenError
  | _ => Throws JsonWebTokenError
  end.

End SymbolicJwt.

Module Sample.

Definition alice : User :=
  mkUser "64a0000000000000000000a1" "Alice" "user" None true.
Definition bob : User :=
  mkUser "64a0000000000000000000b2" "Bob" "user" None true.
(** An administrator scoped to Shelbyville. *)
Definition carol : User :=
  mkUser "64a0000000000000000000c3" "Carol" "admin" (Some "Shelbyville") true.
(** An administrator without an area. *)
Definition dave : User :=
  mkUser "64a0000000000000000000d4" "Dave" "admin" None true.

Definition users : Users :=
  <[u_id alice := alice]> (<[u_id bob := bob]>
    (<[u_id carol := carol]> (<[u_id dave := dave]> ∅))).

(** The deployment of the README: only [JWT_SECRET] is configured. *)
Definition env : Env := mkEnv "your_super_secret_jwt_key" None None.

Definition elm_street : Location :=
  mkLocation (Some "12 Elm St") (mkCoordinates (Some 40) (Some (-75)))
    (Some "Springfield") None None.

Definition streetlight : ReportBody :=
  mkReportBody (Some "Broken streetlight on Elm St")
    (Some "The lamp at the corner has been dark for a week.")
    (Some "streetlight") (Some elm_street) None None None None.

Definition r1 : ObjectId := "64b000000000000000000001".

(** The store after Alice has filed the streetlight report. *)
Definition db1 : Reports :=
  (post_report 1000 r1 None None ∅ alice streetlight).1.

Definition to_status (s : string) : StatusBody := mkStatusBody (Some s) None None.

(** Dave resolves the report, reopens it, and resolves it again. *)
Definition db2 : Reports :=
  (put_report_status 2000 db1 dave r1 (to_status "resolved")).1.
Definition db3 : Reports :=
  (put_report_status 3000 db2 dave r1 (to_status "pending")).1.
Definition db4 : Reports :=
  (put_report_status 4000 db3 dave r1 (to_status "resolved")).1.

(** The report stored under [r1]. *)
Definition blank : Report :=
  mkReport "" "" "" "" "" "" empty_location [] "" None [] [] [] true None
    None [] (mkMetadata None None None).
Definition stored (db : Reports) : Report := default blank (db !! r1).

(** The store after Alice and Bob have each upvoted the report. *)
Definition db_voted : Reports :=
  (post_upvote 1600 (post_upvote 1500 db1 alice r1).1 bob r1).1.

Definition assign_to_dave : AssignBody := mkAssignBody (Some (u_id dave)) None.

Definition retitle (t : string) : ReportBody :=
  mkReportBody (Some t) None None None None None None None.

(** A stand-in for the regular expressions of the listing: every pattern
    is read as literal text, matched anywhere, letter case aside. *)
Definition literal_regexp (pattern : string) : option (string -> bool) :=
  Some (fun s => Js.includes (Js.toLowerCase s) (Js.toLowerCase pattern)).

(** A stand-in for the sort: the natural order of the collection. *)
Definition natural_order (_ : string) (_ : bool) (l : list Report)
  : list Report := l.

(** [GET /api/reports?status=pending&city=spring&limit=5]. *)
Definition pending_in_spring : ListQuery :=
  mkListQuery None (Some (IsInt 5)) (Some "pending") None (Some "spring")
    None None None None.

Definition pothole : ReportBody :=
  mkReportBody (Some "Pothole on Main St")
    (Some "A deep pothole has opened in front of number 4.")
    (Some "road") (Some elm_street) None None None None.

Definition r2 : ObjectId := "64b000000000000000000002".

(** The store after Bob has filed the pothole report as well. *)
Definition db_two : Reports :=
  (post_report 1100 r2 None None db1 bob pothole).1.

(** [GET /api/reports?page=2&limit=1]. *)
Definition second_of_one : ListQuery :=
  mkListQuery (Some (IsInt 2)) (Some (IsInt 1)) None None None None None None
    None.

End Sample.

(** ** The stores the application can hold *)

(** One request that writes the report collection.  Requests are served one
    after the other; the actor of a step is any user, the middleware in front
    of a route only narrows who can make it. *)
Inductive step : Reports -> Reports -> Prop :=
| step_create now newId ua ip db u b :
    step db (post_report now newId ua ip db u b).1
| step_update db u id b :
    step db (put_report db u id b).1
| step_upvote now db u id :
    step db (post_upvote now db u id).1
| step_delete db u id :
    step db (delete_report db u id).1
| step_status now db u id b :
    step db (put_report_status now db u id b).1
| step_assign now users db u id b :
    step db (put_report_assign now users db u id b).1
| step_comment now db u id c :
    step db (post_report_comment now db u id c).1.

(** The stores reached from the empty collection by such requests. *)
Definition reachable (db : Reports) : Prop := rtc step ∅ db.

(** ** Predicates of the statements *)

(** A stored report that satisfies every validator of its schema. *)
Definition schema_ok (r : Report) : Prop :=
  forallb (fun p => path_valid p r) all_paths = true.

(** Every report is stored under its own id, holds at most one upvote per
    user and satisfies its schema. *)
Definition store_ok (db : Reports) : Prop :=
  forall id r,
    db !! id = Some r ->
    _id r = id /\ NoDup (user <$> upvotes r) /\ schema_ok r.

(** The validity of the paths a document has not marked modified is that of
    the report [r] it was loaded from. *)
Definition tracks (r : Report) (d : Doc) : Prop :=
  forall p, p ∉ modifiedPaths d -> path_valid p (doc_report d) = path_valid p r.

(** A document loaded from the stored report [r] and then written by an
    admin handler: not new, same id, same upvotes, and tracked. *)
Definition loaded_from (r : Report) (d : Doc) : Prop :=
  isNew d = false
  /\ _id (doc_report d) = _id r
  /\ upvotes (doc_report d) = upvotes r
  /\ tracks r d.


(** A string with no white space at its start. *)
Definition starts_clean (s : string) : Prop :=
  match s with
  | EmptyString => True
  | String c _ => Js.is_ws c = false
  end.

(** A payload the create handler accepts: the validation chains pass and
    every image carries its required [url]. *)
Definition valid_payload (b : ReportBody) : Prop :=
  createReportValidation b = []
  /\ forallb (fun i => Js.truthy (url i)) (default [] (b_images b)) = true.

(** * Properties *)

(** ** Documents and the store *)

Lemma findById_lookup (db : Reports) (id : ObjectId) (r : Report) :
  db !! id = Some r -> findById db id = Some (mkDoc r false []).
Proof. intros H. unfold findById. by rewrite H. Qed.

Lemma findById_None (db : Reports) (id : ObjectId) :
  db !! id = None -> findById db id = None.
Proof. intros H. unfold findById. by rewrite H. Qed.

Lemma isModified_write (p q : Path) (f : Report -> Report) (d : Doc) :
  isModified p (write q f d) = bool_decide (p = q) || isModified p d.
Proof.
  unfold isModified, write; simpl.
  destruct (decide (p = q)) as [->|Hne].
  - rewrite (bool_decide_eq_true_2 (q = q)) by reflexivity. simpl.
    apply bool_decide_eq_true_2, elem_of_cons. by left.
  - rewrite (bool_decide_eq_false_2 (p = q)) by assumption. simpl.
    apply bool_decide_ext. rewrite elem_of_cons. tauto.
Qed.

Lemma isModified_loaded (p : Path) (r : Report) :
  isModified p (mkDoc r false []) = false.
Proof.
  reflexivity.
Qed.

(** The hook leaves a document alone unless a loaded document had its
    status assigned a different value. *)
Lemma pre_save_unmodified (now : Date) (d : Doc) :
  isModified PStatus d = false -> pre_save now d = d.
Proof. intros H. unfold pre_save. by rewrite H. Qed.

Lemma pre_save_new (now : Date) (d : Doc) :
  isNew d = true -> pre_save now d = d.
Proof. intros H. unfold pre_save. rewrite H. by rewrite andb_false_r. Qed.

Arguments Validator.isIn : simpl never.

Lemma check_app_nil (ok : bool) (msg : string) (rest : list string) :
  (check ok msg ++ rest)%list = [] <-> ok = true /\ rest = [].
Proof.
  destruct ok; simpl; split; [done | by intros [_ ->] | done | by intros [? _]].
Qed.

Lemma check_nil (ok : bool) (msg : string) : check ok msg = [] <-> ok = true.
Proof. destruct ok; simpl; split; done. Qed.

Lemma truthy_opt_field (o : option string) :
  Js.truthy_opt o = Js.truthy (field o).
Proof. by destruct o. Qed.

Lemma schema_ok_path (r : Report) (p : Path) :
  schema_ok r -> path_valid p r = true.
Proof.
  intros H. unfold schema_ok in H.
  apply (proj1 (List.forallb_forall _ _) H).
  destruct p; simpl; tauto.
Qed.

Lemma forallb_snoc {A : Type} (f : A -> bool) (l : list A) (x : A) :
  forallb f (l ++ [x]) = forallb f l && f x.
Proof. rewrite List.forallb_app. simpl. by rewrite andb_true_r. Qed.

(** ** The status handler *)

Lemma assign_status_changed (v : string) (r : Report) :
  String.eqb v (status r) = false ->
  assign_status v (mkDoc r false []) = mkDoc (set_status v r) false [PStatus].
Proof. intros H. unfold assign_status; simpl. by rewrite H. Qed.

Lemma assign_status_same (v : string) (r : Report) :
  String.eqb v (status r) = true ->
  assign_status v (mkDoc r false []) = mkDoc r false [].
Proof. intros H. unfold assign_status; simpl. by rewrite H. Qed.

Lemma updateStatusValidation_ok (b : StatusBody) :
  updateStatusValidation b = [] ->
  Validator.isIn statuses (field (sb_status b)) = true.
Proof.
  unfold updateStatusValidation. intros H.
  by apply check_app_nil in H as [? _].
Qed.

(** What a successful status update has done to the report: the handler's
    own history entry, a second one from the pre-save hook when the status
    value changed, and the hook's stamp when it changed to [resolved]. *)
Lemma put_report_status_200 now db u id b db' r r' ch :
  db !! id = Some r ->
  put_report_status now db u id b = (db', mkResponse 200 (StatusUpdated r' ch)) ->
  let s := field (sb_status b) in
  ch = negb (String.eqb (status r) s)
  /\ db' = <[_id r := r']> db
  /\ _id r' = _id r
  /\ status r' = s
  /\ statusHistory r' =
       (statusHistory r
        ++ mkStatusEntry s (Some (u_id u)) now (Js.trim <$> sb_comment b)
           :: (if ch then [mkStatusEntry s None now None] else []))%list
  /\ resolvedAt r' =
       (if ch && String.eqb s "resolved" then Some now else resolvedAt r).
Proof.
  intros Hr H s. unfold put_report_status in H.
  rewrite (findById_lookup _ _ _ Hr) in H.
  destruct (updateStatusValidation b); [|discriminate].
  destruct (outside_area u _) as [[|]|]; try discriminate.
  fold s in H.
  match type of H with
  | match save now ?D db with _ => _ end = _ =>
      destruct (save now D db) as [[db'' d'']|] eqn:Hs; [|discriminate]
  end.
  injection H as <- <- <-.
  unfold save in Hs.
  match type of Hs with
  | (if ?v then _ else _) = _ => destruct v; [|discriminate]
  end.
  injection Hs as <- <-.
  rewrite (String.eqb_sym (status r) s).
  simpl doc_report.
  destruct (String.eqb s (status r)) eqn:Hsame.
  - rewrite (assign_status_same _ _ Hsame).
    destruct (sb_estimatedResolutionTime b) as [[t|raw]|];
      destruct (Js.truthy_opt (Js.trim <$> sb_comment b)); simpl.
    all: apply String.eqb_eq in Hsame; repeat split; done.
  - rewrite (assign_status_changed _ _ Hsame).
    destruct (sb_estimatedResolutionTime b) as [[t|raw]|];
      destruct (Js.truthy_opt (Js.trim <$> sb_comment b)); simpl.
    all: destruct (String.eqb s "resolved"); repeat split; simpl;
      rewrite <- ?List.app_assoc; done.
Qed.

(** A validated status update by an administrator whose area admits the
    report is saved and answered with 200. *)
Lemma put_report_status_succeeds now db u id b r :
  db !! id = Some r ->
  updateStatusValidation b = [] ->
  outside_area u r = Some false ->
  schema_ok r ->
  exists db' r' ch,
    put_report_status now db u id b
    = (db', mkResponse 200 (StatusUpdated r' ch)).
Proof.
  intros Hr Hv Ha Hok. unfold put_report_status.
  rewrite Hv, (findById_lookup _ _ _ Hr). simpl doc_report. rewrite Ha.
  apply updateStatusValidation_ok in Hv.
  pose proof (schema_ok_path r PStatusHistory Hok) as Hh.
  pose proof (schema_ok_path r PAdminComments Hok) as Hc.
  unfold path_valid in Hh, Hc.
  match goal with
  | |- context [save now ?D db] =>
      assert (Hval : validate D = true); [|unfold save; rewrite Hval; eauto]
  end.
  unfold assign_status; simpl.
  destruct (String.eqb _ (status r));
    destruct (sb_estimatedResolutionTime b) as [[t|raw]|];
    destruct (Js.truthy_opt (Js.trim <$> sb_comment b)) eqn:Hc'; simpl.
  all: unfold validate, push_adminComments, push_statusHistory, write;
    cbn [isNew modifiedPaths doc_report forallb path_valid statusHistory
         adminComments status set_statusHistory set_adminComments set_status
         set_estimatedResolutionTime sh_status ac_comment].
  all: rewrite ?forallb_snoc, ?Hh, ?Hc; cbn [sh_status ac_comment];
    rewrite ?Hv, <- ?truthy_opt_field, ?Hc'; reflexivity.
Qed.

(** The number of entries a successful status update appends: two when the
    status value changes, one when it does not. *)
Lemma put_report_status_history_length now db u id b db' r r' ch :
  db !! id = Some r ->
  put_report_status now db u id b = (db', mkResponse 200 (StatusUpdated r' ch)) ->
  List.length (statusHistory r')
  = (List.length (statusHistory r) + if ch then 2 else 1)%nat.
Proof.
  intros Hr H.
  destruct (put_report_status_200 _ _ _ _ _ _ _ _ _ Hr H)
    as (_ & _ & _ & _ & -> & _).
  rewrite List.length_app. by destruct ch.
Qed.

(** C1 (evaluation at the failing input).  Dave moves Alice's pending report
    to resolved through the admin status endpoint.  The report had no history
    entry before the call and has two after it: the one the handler pushes,
    and the one the pre-save hook pushes because the status was modified.  The
    claim says the call appends exactly one. *)
Theorem C1_status_change_appends_two_entries :
  let call :=
    put_report_status 2000 Sample.db1 Sample.dave Sample.r1
      (Sample.to_status "resolved") in
  statusHistory <$> Sample.db1 !! Sample.r1 = Some []
  /\ code (snd call) = 200%nat
  /\ statusHistory <$> fst call !! Sample.r1
     = Some [mkStatusEntry "resolved" (Some (u_id Sample.dave)) 2000 None;
             mkStatusEntry "resolved" None 2000 None].
Proof. vm_compute. repeat split; reflexivity. Qed.

(** ** Trimming *)

Lemma trimStart_clean (s : string) : starts_clean (Js.trimStart s).
Proof.
  induction s as [|c r IH]; simpl; [exact I|].
  destruct (Js.is_ws c) eqn:Hc; [exact IH | exact Hc].
Qed.

Lemma trimStart_id (s : string) : starts_clean s -> Js.trimStart s = s.
Proof. destruct s as [|c r]; simpl; [done|]. by intros ->. Qed.

Lemma trimEnd_clean (s : string) : starts_clean s -> starts_clean (Js.trimEnd s).
Proof.
  destruct s as [|c r]; simpl; [done|]. intros Hc.
  destruct (Js.trimEnd r); [rewrite Hc|]; exact Hc.
Qed.

Lemma trimEnd_idem (s : string) : Js.trimEnd (Js.trimEnd s) = Js.trimEnd s.
Proof.
  induction s as [|c r IH]; simpl; [reflexivity|].
  destruct (Js.trimEnd r) as [|c' r'] eqn:Hr.
  - destruct (Js.is_ws c) eqn:Hc; simpl; [reflexivity | by rewrite Hc].
  - change (Js.trimEnd (String c (String c' r'))) with
      (match Js.trimEnd (String c' r') with
       | EmptyString =>
           if Js.is_ws c then EmptyString else String c EmptyString
       | r'' => String c r''
       end).
    by rewrite IH.
Qed.

(** [trim] is idempotent: the sanitizer and the schema setter agree. *)
Lemma trim_idem (s : string) : Js.trim (Js.trim s) = Js.trim s.
Proof.
  unfold Js.trim.
  rewrite (trimStart_id (Js.trimEnd (Js.trimStart s))).
  - apply trimEnd_idem.
  - apply trimEnd_clean, trimStart_clean.
Qed.

Lemma isLength_truthy (min max : nat) (s : string) :
  (0 < min)%nat -> Validator.isLength min max s = true -> Js.truthy s = true.
Proof.
  unfold Validator.isLength. intros Hmin H.
  apply andb_prop in H as [H _]. apply Nat.leb_le in H.
  destruct s; simpl in *; [lia | reflexivity].
Qed.

(** ** Creation *)

Lemma createReportValidation_ok (b : ReportBody) :
  createReportValidation b = [] ->
  Validator.isLength 5 100 (Js.trim (field (b_title b))) = true
  /\ Validator.isLength 20 1000 (Js.trim (field (b_description b))) = true
  /\ Validator.isIn categories (field (b_category b)) = true
  /\ Validator.notEmpty (Js.trim (field (loc_address b))) = true
  /\ from_option (Validator.isFloat (-90) 90) false (loc_lat b) = true
  /\ from_option (Validator.isFloat (-180) 180) false (loc_lng b) = true
  /\ Validator.notEmpty (Js.trim (field (loc_city b))) = true
  /\ from_option (Validator.isIn priorities) true (b_priority b) = true.
Proof.
  unfold createReportValidation. intros H.
  repeat (apply check_app_nil in H as [? H]; split; [assumption|]).
  by apply check_nil in H.
Qed.

Lemma priority_default (o : option string) :
  from_option (Validator.isIn priorities) true o = true ->
  Validator.isIn priorities (Js.or_else o "medium") = true.
Proof.
  destruct o as [[|c p]|]; simpl; [discriminate | done | reflexivity].
Qed.

Lemma title_valid (t : string) :
  Validator.isLength 5 100 t = true ->
  Js.truthy t && Nat.leb (String.length t) 100 = true.
Proof.
  intros H. rewrite (isLength_truthy 5 100 t) by (lia || assumption).
  unfold Validator.isLength in H. by apply andb_prop in H as [_ ->].
Qed.

Lemma description_valid (d : string) :
  Validator.isLength 20 1000 d = true ->
  Js.truthy d && Nat.leb 20 (String.length d) && Nat.leb (String.length d) 1000
  = true.
Proof.
  intros H. rewrite (isLength_truthy 20 1000 d) by (lia || assumption).
  exact H.
Qed.

Lemma new_Report_validate newId b reporter ua ip :
  valid_payload b ->
  validate (new_Report newId (createReportSanitize b) reporter ua ip) = true.
Proof.
  intros [Hv Himg].
  destruct (createReportValidation_ok b Hv)
    as (Ht & Hd & Hc & Ha & Hlat & Hlng & Hcity & Hp).
  unfold loc_address, loc_lat, loc_lng, loc_city in *.
  destruct (b_location b) as [l|] eqn:Hl; [|discriminate].
  unfold validate, new_Report, all_paths, createReportSanitize.
  rewrite Hl. unfold field in *.
  cbn -[Nat.leb Validator.isIn Js.trim Qle_bool].
  rewrite !trim_idem.
  rewrite (title_valid _ Ht), (description_valid _ Hd), Hc,
    (priority_default _ Hp), Himg.
  cbn -[Js.trim Qle_bool] in Ha, Hcity, Hlat, Hlng.
  unfold Validator.notEmpty in Ha, Hcity. rewrite Ha, Hcity.
  destruct (lat (coordinates l)) as [x|]; [|discriminate].
  destruct (lng (coordinates l)) as [y|]; [|discriminate].
  unfold Validator.isFloat in Hlat, Hlng. unfold coordinate_valid.
  cbn -[Qle_bool] in Hlat, Hlng. by rewrite Hlat, Hlng.
Qed.

(** The create handler accepts every valid payload and stores the document
    it built. *)
Lemma post_report_valid now newId ua ip (db : Reports) u b :
  valid_payload b ->
  let r := doc_report (new_Report newId (createReportSanitize b) (u_id u) ua ip) in
  post_report now newId ua ip db u b
  = (<[newId := r]> db, mkResponse 201 (ReportCreated r)).
Proof.
  intros Hv r. unfold post_report.
  destruct Hv as [Hv Himg]. rewrite Hv. unfold save.
  rewrite new_Report_validate by (by split).
  by rewrite pre_save_new.
Qed.

(** C2 (amended).  For every valid report-creation payload the create
    operation answers 201 and stores the report it returns; that report has
    status [pending] and an empty [statusHistory]: the pre-save hook skips new
    documents, so no history entry is seeded at creation. *)
Theorem C2_created_report_pending_empty_history
    now newId ua ip (db : Reports) u b :
  valid_payload b ->
  exists r,
    post_report now newId ua ip db u b
    = (<[newId := r]> db, mkResponse 201 (ReportCreated r))
    /\ status r = "pending"
    /\ statusHistory r = [].
Proof.
  intros Hv. eexists. split; [by apply post_report_valid|]. by split.
Qed.

(** C2 at Alice's streetlight report. *)
Lemma C2_created_report_witness :
  valid_payload Sample.streetlight
  /\ exists r,
       post_report 1000 Sample.r1 None None ∅ Sample.alice Sample.streetlight
       = (<[Sample.r1 := r]> ∅, mkResponse 201 (ReportCreated r))
       /\ status r = "pending"
       /\ statusHistory r = [].
Proof.
  assert (Hv : valid_payload Sample.streetlight)
    by (split; vm_compute; reflexivity).
  split; [exact Hv|].
  exact (C2_created_report_pending_empty_history 1000 Sample.r1 None None ∅
           Sample.alice Sample.streetlight Hv).
Defined.

(** C2 (counterexample).  Alice's streetlight report is a valid payload; the
    report the create operation returns has status [pending] and no history
    entry at all, so it does not contain exactly one [pending] entry. *)
Lemma C2_streetlight_created_without_history :
  valid_payload Sample.streetlight
  /\ exists r,
       snd (post_report 1000 Sample.r1 None None ∅ Sample.alice
              Sample.streetlight)
       = mkResponse 201 (ReportCreated r)
       /\ status r = "pending"
       /\ List.length
            (List.filter (fun e => String.eqb (sh_status e) "pending")
               (statusHistory r))
          <> 1%nat.
Proof.
  split; [split; vm_compute; reflexivity|].
  eexists. split; [vm_compute; reflexivity|]. split; [reflexivity|].
  simpl. discriminate.
Qed.

(** ** The resolved stamp *)

(** A validated status update on a schema-valid report is carried out, and
    stamps [resolvedAt] exactly when it changes the status to [resolved]. *)
Lemma put_report_status_resolvedAt now (db : Reports) u id b r :
  db !! id = Some r ->
  updateStatusValidation b = [] ->
  outside_area u r = Some false ->
  schema_ok r ->
  exists db' r' ch,
    put_report_status now db u id b
    = (db', mkResponse 200 (StatusUpdated r' ch))
    /\ db' !! _id r = Some r'
    /\ resolvedAt r' =
         (if negb (String.eqb (status r) (field (sb_status b)))
             && String.eqb (field (sb_status b)) "resolved"
          then Some now else resolvedAt r).
Proof.
  intros Hr Hv Ha Hok.
  destruct (put_report_status_succeeds now db u id b r Hr Hv Ha Hok)
    as (db' & r' & ch & H).
  exists db', r', ch. split; [exact H|].
  destruct (put_report_status_200 _ _ _ _ _ _ _ _ _ Hr H)
    as (-> & -> & _ & _ & _ & Hres).
  split; [apply lookup_insert_eq | exact Hres].
Qed.

(** C3 (counterexample).  Dave resolves Alice's report at 2000, reopens it at
    3000 and resolves it again at 4000.  The first resolution stamps
    [resolvedAt] with 2000; the second one replaces the stamp with 4000. *)
Lemma C3_resolvedAt_restamped_on_reentry :
  resolvedAt <$> Sample.db1 !! Sample.r1 = Some None
  /\ resolvedAt <$> Sample.db2 !! Sample.r1 = Some (Some 2000%Z)
  /\ status <$> Sample.db3 !! Sample.r1 = Some "pending"
  /\ resolvedAt <$> Sample.db3 !! Sample.r1 = Some (Some 2000%Z)
  /\ code (snd (put_report_status 4000 Sample.db3 Sample.dave Sample.r1
                  (Sample.to_status "resolved"))) = 200%nat
  /\ resolvedAt <$> Sample.db4 !! Sample.r1 = Some (Some 4000%Z).
Proof. vm_compute. repeat split; reflexivity. Qed.

(** ** Bearer tokens *)

(** C4 (the failing path).  When no separate refresh secret is configured,
    [generateRefreshToken] signs with [JWT_SECRET].  The refresh token carries
    the marker [type: 'refresh'], but [authenticateToken] verifies with
    [JWT_SECRET] and never reads the marker: a refresh token that the library
    verifies under the key that signed it, sent as the bearer token of an
    active user, authenticates that user. *)
Theorem C4_refresh_token_accepted_as_access_token
    (jwt_sign : Payload -> string -> SignOptions -> Date -> string)
    (jwt_verify : string -> string -> Date -> Verified)
    (env : Env) (users : Users) (issued now : Date) (uid : ObjectId)
    (user : User) :
  Js.truthy_opt (JWT_REFRESH_SECRET env) = false ->
  let token := generateRefreshToken jwt_sign env issued uid in
  bearer_token (Some ("Bearer " ++ token)) = Some token ->
  jwt_verify token (refresh_secret env) now
  = Decoded (mkPayload uid (Some "refresh")) ->
  users !! uid = Some user ->
  isActive user = true ->
  authenticateToken jwt_verify env users now (Some ("Bearer " ++ token))
  = Next (Some user).
Proof.
  intros Hsecret token Hbearer Hverify Huser Hactive.
  assert (Hkey : refresh_secret env = JWT_SECRET env).
  { unfold refresh_secret, Js.or_else.
    destruct (JWT_REFRESH_SECRET env) as [[|c s]|]; done. }
  rewrite Hkey in Hverify.
  unfold authenticateToken. rewrite Hbearer, Hverify. simpl userId.
  by rewrite Huser, Hactive.
Qed.

(** C4 with the reference token library and the README configuration:
    Alice's refresh token passes [verifyRefreshToken] and authenticates her
    as a bearer token. *)
Lemma C4_refresh_token_witness :
  let token :=
    generateRefreshToken SymbolicJwt.sign Sample.env 1000
      (u_id Sample.alice) in
  verifyRefreshToken SymbolicJwt.verify Sample.env 2000 token
  = Some (mkPayload (u_id Sample.alice) (Some "refresh"))
  /\ authenticateToken SymbolicJwt.verify Sample.env Sample.users 2000
       (Some ("Bearer " ++ token))
     = Next (Some Sample.alice).
Proof.
  intros token. split; [vm_compute; reflexivity|].
  apply (C4_refresh_token_accepted_as_access_token SymbolicJwt.sign
           SymbolicJwt.verify Sample.env Sample.users 1000 2000
           (u_id Sample.alice) Sample.alice);
    vm_compute; reflexivity.
Defined.

(** With the optional middleware the request always reaches the handler. *)
Lemma optionalAuth_next
    (jwt_verify : string -> string -> Date -> Verified)
    (env : Env) (users : Users) (now : Date) (authorization : option string) :
  exists u, optionalAuth jwt_verify env users now authorization = Next u.
Proof.
  unfold optionalAuth.
  destruct (bearer_token authorization) as [token|]; [|eauto].
  destruct (jwt_verify token (JWT_SECRET env) now) as [decoded|e]; [|eauto].
  destruct (users !! userId decoded) as [user|]; [|eauto].
  destruct (isActive user); eauto.
Qed.

(** C10.  On a route behind [optionalAuth] (the public listing and the
    single-report fetch) no bearer token makes the middleware answer the
    request itself.  Without a token, or with one that [jwt.verify] rejects
    (malformed, expired, or any other error), the handler runs exactly as for
    an unauthenticated request; with a token that verifies and names an
    active user, the handler runs with that user attached. *)
Theorem C10_optionalAuth_never_rejects
    (jwt_verify : string -> string -> Date -> Verified)
    (env : Env) (users : Users) (now : Date) (authorization : option string)
    (handler : option User -> Response) :
  let m := optionalAuth jwt_verify env users now authorization in
  (exists u, m = Next u)
  /\ (bearer_token authorization = None -> route m handler = handler None)
  /\ (forall token e,
        bearer_token authorization = Some token ->
        jwt_verify token (JWT_SECRET env) now = Throws e ->
        route m handler = handler None)
  /\ (forall token decoded user,
        bearer_token authorization = Some token ->
        jwt_verify token (JWT_SECRET env) now = Decoded decoded ->
        users !! userId decoded = Some user ->
        isActive user = true ->
        route m handler = handler (Some user)).
Proof.
  intros m. split; [apply optionalAuth_next|].
  subst m. unfold optionalAuth. repeat split.
  - by intros ->.
  - by intros token e -> ->.
  - by intros token decoded user -> -> -> ->.
Qed.

(** C10 on the single-report fetch: no header, a token that does not verify,
    and Alice's access token. *)
Lemma C10_optionalAuth_witness :
  let fetch := fun u => get_report Sample.db1 u Sample.r1 in
  let auth := optionalAuth SymbolicJwt.verify Sample.env Sample.users 2000 in
  route (auth None) fetch = fetch None
  /\ route (auth (Some "Bearer not.a.token")) fetch = fetch None
  /\ route (auth (Some ("Bearer "
                          ++ generateToken SymbolicJwt.sign Sample.env 1000
                               (u_id Sample.alice)))) fetch
     = fetch (Some Sample.alice).
Proof.
  intros fetch auth.
  pose proof (C10_optionalAuth_never_rejects SymbolicJwt.verify Sample.env
                Sample.users 2000 None fetch) as (_ & Hmissing & _ & _).
  pose proof (C10_optionalAuth_never_rejects SymbolicJwt.verify Sample.env
                Sample.users 2000 (Some "Bearer not.a.token") fetch)
    as (_ & _ & Hbad & _).
  pose proof (C10_optionalAuth_never_rejects SymbolicJwt.verify Sample.env
                Sample.users 2000
                (Some ("Bearer "
                         ++ generateToken SymbolicJwt.sign Sample.env 1000
                              (u_id Sample.alice))) fetch)
    as (_ & _ & _ & Hgood).
  split; [apply Hmissing; reflexivity|].
  split.
  - apply (Hbad "not.a.token" JsonWebTokenError); vm_compute; reflexivity.
  - apply (Hgood (generateToken SymbolicJwt.sign Sample.env 1000
                    (u_id Sample.alice))
             (mkPayload (u_id Sample.alice) None) Sample.alice);
      vm_compute; reflexivity.
Defined.

(** ** Content updates *)

Lemma opt_set_preserves {A B : Type} (g : Report -> B) (o : option A)
    (f : A -> Report -> Report) (r : Report) :
  (forall v r0, g (f v r0) = g r0) -> g (opt_set o f r) = g r.
Proof. intros H. destruct o; simpl; [apply H | reflexivity]. Qed.

(** A projection that none of the eight content setters writes is the same
    after [apply_update]. *)
Ltac frame_of_update :=
  intros; unfold apply_update; cbv zeta;
  repeat (rewrite opt_set_preserves; [|intros; reflexivity]);
  reflexivity.

Lemma apply_update_id ud r : _id (apply_update ud r) = _id r.
Proof. frame_of_update. Qed.

Lemma apply_update_status ud r : status (apply_update ud r) = status r.
Proof. frame_of_update. Qed.

Lemma apply_update_statusHistory ud r :
  statusHistory (apply_update ud r) = statusHistory r.
Proof. frame_of_update. Qed.

Lemma apply_update_adminComments ud r :
  adminComments (apply_update ud r) = adminComments r.
Proof. frame_of_update. Qed.

Lemma apply_update_upvotes ud r : upvotes (apply_update ud r) = upvotes r.
Proof. frame_of_update. Qed.

Lemma apply_update_reportedBy ud r :
  reportedBy (apply_update ud r) = reportedBy r.
Proof. frame_of_update. Qed.

Lemma apply_update_resolvedAt ud r :
  resolvedAt (apply_update ud r) = resolvedAt r.
Proof. frame_of_update. Qed.

Lemma apply_update_assignedTo ud r :
  assignedTo (apply_update ud r) = assignedTo r.
Proof. frame_of_update. Qed.

Lemma apply_update_estimatedResolutionTime ud r :
  estimatedResolutionTime (apply_update ud r) = estimatedResolutionTime r.
Proof. frame_of_update. Qed.

Lemma apply_update_metadata ud r : metadata (apply_update ud r) = metadata r.
Proof. frame_of_update. Qed.

(** A successful content update stores [apply_update] of the patch. *)
Lemma put_report_200 (db db' : Reports) u id b ro r :
  db !! id = Some r ->
  put_report db u id b = (db', mkResponse 200 (ReportUpdated ro)) ->
  ro = Some (apply_update (updateData_of b) r)
  /\ db' = <[id := apply_update (updateData_of b) r]> db
  /\ canEdit r (u_id u) (role u) = true.
Proof.
  intros Hr H. unfold put_report in H.
  rewrite (findById_lookup _ _ _ Hr) in H. simpl doc_report in H.
  destruct (canEdit r (u_id u) (role u)); [|discriminate]. simpl in H.
  unfold findByIdAndUpdate in H. rewrite Hr in H.
  destruct (forallb _ _); [|discriminate].
  by injection H as <- <-.
Qed.

(** C9.  A content update (PUT /reports/:id) that succeeds leaves the
    report's status, statusHistory, adminComments, upvotes, reportedBy and
    resolvedAt as they were; the stored report differs from the old one at
    most in title, description, category, location, images, priority, tags
    and isPublic, and no other report is touched. *)
Theorem C9_content_update_frame (db db' : Reports) u id b ro r :
  db !! id = Some r ->
  put_report db u id b = (db', mkResponse 200 (ReportUpdated ro)) ->
  exists r',
    ro = Some r'
    /\ db' = <[id := r']> db
    /\ status r' = status r
    /\ statusHistory r' = statusHistory r
    /\ adminComments r' = adminComments r
    /\ upvotes r' = upvotes r
    /\ reportedBy r' = reportedBy r
    /\ resolvedAt r' = resolvedAt r
    /\ r' = mkReport (_id r) (title r') (description r') (category r')
              (status r) (priority r') (location r') (images r')
              (reportedBy r) (assignedTo r) (statusHistory r)
              (adminComments r) (upvotes r) (isPublic r') (resolvedAt r)
              (estimatedResolutionTime r) (tags r') (metadata r).
Proof.
  intros Hr H.
  destruct (put_report_200 _ _ _ _ _ _ _ Hr H) as (-> & -> & _).
  exists (apply_update (updateData_of b) r).
  repeat (split; [first [reflexivity | frame_of_update]|]).
  rewrite <- (apply_update_id (updateData_of b) r),
    <- (apply_update_status (updateData_of b) r),
    <- (apply_update_reportedBy (updateData_of b) r),
    <- (apply_update_assignedTo (updateData_of b) r),
    <- (apply_update_statusHistory (updateData_of b) r),
    <- (apply_update_adminComments (updateData_of b) r),
    <- (apply_update_upvotes (updateData_of b) r),
    <- (apply_update_resolvedAt (updateData_of b) r),
    <- (apply_update_estimatedResolutionTime (updateData_of b) r),
    <- (apply_update_metadata (updateData_of b) r).
  by destruct (apply_update (updateData_of b) r).
Qed.

(** C9 at a retitling of the resolved report by its owner. *)
Lemma C9_content_update_witness :
  let b := Sample.retitle "Streetlight out at 12 Elm St" in
  let r := Sample.stored Sample.db2 in
  let r' := apply_update (updateData_of b) r in
  Sample.db2 !! Sample.r1 = Some r
  /\ put_report Sample.db2 Sample.alice Sample.r1 b
     = (<[Sample.r1 := r']> Sample.db2, mkResponse 200 (ReportUpdated (Some r')))
  /\ exists r'',
       Some r' = Some r''
       /\ <[Sample.r1 := r']> Sample.db2 = <[Sample.r1 := r'']> Sample.db2
       /\ status r'' = status r
       /\ statusHistory r'' = statusHistory r
       /\ adminComments r'' = adminComments r
       /\ upvotes r'' = upvotes r
       /\ reportedBy r'' = reportedBy r
       /\ resolvedAt r'' = resolvedAt r
       /\ r'' = mkReport (_id r) (title r'') (description r'') (category r'')
                  (status r) (priority r'') (location r'') (images r'')
                  (reportedBy r) (assignedTo r) (statusHistory r)
                  (adminComments r) (upvotes r) (isPublic r'') (resolvedAt r)
                  (estimatedResolutionTime r) (tags r'') (metadata r).
Proof.
  intros b r r'.
  assert (Hr : Sample.db2 !! Sample.r1 = Some r) by (vm_compute; reflexivity).
  assert (Hcall : put_report Sample.db2 Sample.alice Sample.r1 b
                  = (<[Sample.r1 := r']> Sample.db2,
                     mkResponse 200 (ReportUpdated (Some r')))).
  { unfold put_report. rewrite (findById_lookup _ _ _ Hr).
    unfold findByIdAndUpdate. rewrite Hr. reflexivity. }
  split; [exact Hr|]. split; [exact Hcall|].
  exact (C9_content_update_frame Sample.db2 _ Sample.alice Sample.r1 b _ r
           Hr Hcall).
Defined.

(** The create operation stores a title of 5 to 100 characters and a
    description of 20 to 1000. *)
Lemma post_report_bounds now newId ua ip (db : Reports) u b :
  valid_payload b ->
  exists r,
    post_report now newId ua ip db u b
    = (<[newId := r]> db, mkResponse 201 (ReportCreated r))
    /\ Validator.isLength 5 100 (title r) = true
    /\ Validator.isLength 20 1000 (description r) = true.
Proof.
  intros Hv. eexists. split; [by apply post_report_valid|].
  destruct Hv as [Hv _].
  destruct (createReportValidation_ok b Hv) as (Ht & Hd & _).
  unfold new_Report, createReportSanitize, field; simpl.
  by rewrite !trim_idem.
Qed.

(** A content update that is not answered with 200 leaves the store as it
    was. *)
Lemma put_report_failure_keeps_store (db db' : Reports) u id b resp :
  put_report db u id b = (db', resp) -> code resp <> 200%nat -> db' = db.
Proof.
  unfold put_report. intros H Hcode.
  destruct (findById db id) as [d|]; [|by injection H as <- _].
  destruct (negb _); [by injection H as <- _|].
  destruct (findByIdAndUpdate db id (updateData_of b)) as [[db'' ro]|];
    [|by injection H as <- _].
  injection H as <- <-. by destruct Hcode.
Qed.

(** A description outside 20 to 1000 characters is refused by the update
    path: the schema does bound the description. *)
Lemma put_report_description_bounds (db db' : Reports) u id b ro r d :
  db !! id = Some r ->
  b_description b = Some d ->
  Js.truthy d = true ->
  put_report db u id b = (db', mkResponse 200 (ReportUpdated ro)) ->
  Validator.isLength 20 1000 (Js.trim d) = true.
Proof.
  intros Hr Hd Ht H. unfold put_report in H.
  rewrite (findById_lookup _ _ _ Hr) in H. simpl doc_report in H.
  destruct (negb _); [discriminate|].
  unfold findByIdAndUpdate in H. rewrite Hr in H.
  destruct (forallb _ _) eqn:Hval; [|discriminate]. clear H.
  rewrite List.forallb_forall in Hval.
  assert (Hin : In PDescription (update_paths (updateData_of b))).
  { unfold update_paths, updateData_of, keep_truthy. simpl.
    rewrite Hd. simpl. rewrite Ht. simpl.
    apply in_or_app. right. by left. }
  specialize (Hval _ Hin). unfold path_valid in Hval.
  assert (Hdesc : description (apply_update (updateData_of b) r) = Js.trim d).
  { unfold apply_update, updateData_of, keep_truthy. simpl.
    rewrite Hd. simpl. rewrite Ht. simpl.
    repeat (rewrite opt_set_preserves; [|intros; reflexivity]).
    reflexivity. }
  rewrite Hdesc in Hval. unfold Validator.isLength.
  apply andb_prop in Hval as [Hval Hmax].
  apply andb_prop in Hval as [_ Hmin]. by rewrite Hmin, Hmax.
Qed.

(** C5 (evaluation at the failing input).  Alice, the owner, patches her
    report with the three-character title [abc].  The create validation
    rejects such a title, but the update path only runs the schema validators,
    and the schema puts no lower bound on the title: the update answers 200
    and the stored report now has a title of three characters. *)
Theorem C5_update_stores_three_character_title :
  let call :=
    put_report Sample.db1 Sample.alice Sample.r1 (Sample.retitle "abc") in
  Validator.isLength 5 100 (Js.trim "abc") = false
  /\ title <$> Sample.db1 !! Sample.r1 = Some "Broken streetlight on Elm St"
  /\ code (snd call) = 200%nat
  /\ title <$> fst call !! Sample.r1 = Some "abc".
Proof. vm_compute. repeat split; reflexivity. Qed.

(** ** Who may manage and who may view *)

(** C6.  [canEdit] (the spec's canManage) holds exactly for the owner and for
    administrators; an authenticated user is served a report (200) exactly
    when the report is public or the user can manage it, and is refused with
    403 otherwise. *)
Theorem C6_canManage_and_view (db : Reports) (id : ObjectId) (U : User)
    (R : Report) :
  db !! id = Some R ->
  (canEdit R (u_id U) (role U) = true
   <-> u_id U = reportedBy R \/ role U = "admin")
  /\ (code (get_report db (Some U) id) = 200%nat
      <-> isPublic R = true \/ canEdit R (u_id U) (role U) = true)
  /\ (code (get_report db (Some U) id) <> 200%nat ->
      get_report db (Some U) id
      = mkResponse 403 (Error "Access denied" "ACCESS_DENIED")).
Proof.
  intros HR. unfold get_report, view_denied, canEdit.
  rewrite (findById_lookup _ _ _ HR). simpl doc_report.
  rewrite (String.eqb_sym (reportedBy R) (u_id U)).
  destruct (String.eqb_spec (u_id U) (reportedBy R)) as [Ho|Ho];
    destruct (String.eqb_spec (role U) "admin") as [Ha|Ha];
    destruct (isPublic R); simpl; repeat split; intros; try done;
    try tauto; try (by left); try (by right); try lia.
  all: destruct H; done.
Qed.

(** C6 at Bob, a citizen who does not own Alice's public report. *)
Lemma C6_canManage_and_view_witness :
  Sample.db1 !! Sample.r1 = Some (Sample.stored Sample.db1)
  /\ (canEdit (Sample.stored Sample.db1) (u_id Sample.bob) (role Sample.bob)
      = true
      <-> u_id Sample.bob = reportedBy (Sample.stored Sample.db1)
          \/ role Sample.bob = "admin")
  /\ (code (get_report Sample.db1 (Some Sample.bob) Sample.r1) = 200%nat
      <-> isPublic (Sample.stored Sample.db1) = true
          \/ canEdit (Sample.stored Sample.db1) (u_id Sample.bob)
               (role Sample.bob) = true)
  /\ (code (get_report Sample.db1 (Some Sample.bob) Sample.r1) <> 200%nat ->
      get_report Sample.db1 (Some Sample.bob) Sample.r1
      = mkResponse 403 (Error "Access denied" "ACCESS_DENIED")).
Proof.
  assert (HR : Sample.db1 !! Sample.r1 = Some (Sample.stored Sample.db1))
    by (vm_compute; reflexivity).
  split; [exact HR|].
  exact (C6_canManage_and_view Sample.db1 Sample.r1 Sample.bob
           (Sample.stored Sample.db1) HR).
Defined.

(** ** Upvotes *)

Lemma find_existsb {A : Type} (p : A -> bool) (l : list A) :
  List.find p l = None <-> existsb p l = false.
Proof.
  induction l as [|x l IH]; simpl; [done|].
  destruct (p x); simpl; [split; discriminate | exact IH].
Qed.

Lemma filter_other_id (u : ObjectId) (l : list Upvote) :
  existsb (fun vote => String.eqb (user vote) u) l = false ->
  List.filter (fun vote => negb (String.eqb (user vote) u)) l = l.
Proof.
  induction l as [|x l IH]; simpl; [done|].
  intros H. apply orb_false_elim in H as [Hx Hl].
  rewrite Hx; simpl. by rewrite IH.
Qed.

Lemma existsb_filter_other (u : ObjectId) (l : list Upvote) :
  existsb (fun vote => String.eqb (user vote) u)
    (List.filter (fun vote => negb (String.eqb (user vote) u)) l) = false.
Proof.
  induction l as [|x l IH]; simpl; [done|].
  destruct (String.eqb (user x) u) eqn:Hx; simpl; [exact IH|].
  by rewrite Hx, IH.
Qed.

Lemma existsb_user_elem (u : ObjectId) (l : list Upvote) :
  existsb (fun vote => String.eqb (user vote) u) l = true <-> u ∈ user <$> l.
Proof.
  induction l as [|x l IH]; simpl.
  - split; [discriminate | by intros ?%elem_of_nil].
  - rewrite orb_true_iff, IH, elem_of_cons, String.eqb_eq.
    split; (intros [H|H]; [left; congruence | by right]).
Qed.

(** Removing a voter's entry and appending a new one keeps the voters. *)
Lemma revote_voters (u : ObjectId) (l : list Upvote) :
  NoDup (user <$> l) ->
  existsb (fun vote => String.eqb (user vote) u) l = true ->
  (user <$> List.filter (fun vote => negb (String.eqb (user vote) u)) l) ++ [u]
  ≡ₚ user <$> l.
Proof.
  induction l as [|x l IH]; simpl; [discriminate|].
  intros [Hx Hl]%NoDup_cons H.
  destruct (String.eqb_spec (user x) u) as [Heq|Hne]; simpl.
  - rewrite Heq in Hx |- *. rewrite filter_other_id.
    + symmetry. apply Permutation_cons_append.
    + destruct (existsb _ l) eqn:E; [|reflexivity].
      by apply existsb_user_elem in E.
  - simpl in H. f_equiv. by apply IH.
Qed.

Lemma post_upvote_add now (db : Reports) u id r :
  db !! id = Some r ->
  hasUpvoted r (u_id u) = false ->
  let r' := set_upvotes (upvotes r ++ [mkUpvote (u_id u) now]) r in
  post_upvote now db u id
  = (<[_id r := r']> db,
     mkResponse 200
       (UpvoteToggled "Report upvoted" true (List.length (upvotes r')))).
Proof.
  intros Hr Hu r'. unfold post_upvote.
  rewrite (findById_lookup _ _ _ Hr). simpl doc_report. rewrite Hu.
  unfold addUpvote. simpl doc_report.
  rewrite (proj2 (find_existsb _ _) Hu). reflexivity.
Qed.

Lemma post_upvote_remove now (db : Reports) u id r :
  db !! id = Some r ->
  hasUpvoted r (u_id u) = true ->
  let r' :=
    set_upvotes
      (List.filter (fun vote => negb (String.eqb (user vote) (u_id u)))
         (upvotes r)) r in
  post_upvote now db u id
  = (<[_id r := r']> db,
     mkResponse 200
       (UpvoteToggled "Upvote removed" false (List.length (upvotes r')))).
Proof.
  intros Hr Hu r'. unfold post_upvote.
  rewrite (findById_lookup _ _ _ Hr). simpl doc_report. rewrite Hu.
  reflexivity.
Qed.

Lemma set_upvotes_same (r : Report) : set_upvotes (upvotes r) r = r.
Proof. by destruct r. Qed.

Lemma set_upvotes_twice (l l' : list Upvote) (r : Report) :
  set_upvotes l (set_upvotes l' r) = set_upvotes l r.
Proof. reflexivity. Qed.

(** Two consecutive toggles on a report stored under its id with at most one
    upvote per user. *)
Lemma toggle_twice (db : Reports) (id : ObjectId) (u : User)
    (t1 t2 : Date) (r : Report) :
  db !! id = Some r ->
  _id r = id ->
  NoDup (user <$> upvotes r) ->
  exists db1 m1 f1 n1 m2 f2 n2 r2,
    post_upvote t1 db u id = (db1, mkResponse 200 (UpvoteToggled m1 f1 n1))
    /\ post_upvote t2 db1 u id
       = (<[id := r2]> db, mkResponse 200 (UpvoteToggled m2 f2 n2))
    /\ user <$> upvotes r2 ≡ₚ user <$> upvotes r
    /\ (forall v, hasUpvoted r2 v = hasUpvoted r v)
    /\ List.length (upvotes r2) = List.length (upvotes r)
    /\ n2 = List.length (upvotes r)
    /\ f1 = negb f2
    /\ set_upvotes (upvotes r) r2 = r.
Proof.
  intros Hr Hid Hnd.
  assert (Hmem : forall l l' : list Upvote,
             user <$> l ≡ₚ user <$> l' ->
             forall v, existsb (fun vote => String.eqb (user vote) v) l
                       = existsb (fun vote => String.eqb (user vote) v) l').
  { intros l l' Hp v. apply eq_true_iff_eq.
    by rewrite !existsb_user_elem, Hp. }
  destruct (hasUpvoted r (u_id u)) eqn:Hu.
  - (* remove, then add *)
    pose proof (post_upvote_remove t1 db u id r Hr Hu) as H1.
    cbv zeta in H1. rewrite Hid in H1.
    set (r1 := set_upvotes _ r) in H1.
    assert (Hr1 : <[id := r1]> db !! id = Some r1) by apply lookup_insert_eq.
    assert (Hu1 : hasUpvoted r1 (u_id u) = false)
      by apply existsb_filter_other.
    pose proof (post_upvote_add t2 _ u id r1 Hr1 Hu1) as H2.
    cbv zeta in H2. change (_id r1) with (_id r) in H2.
    rewrite Hid, insert_insert_eq in H2.
    set (r2 := set_upvotes _ r1) in H2.
    assert (Hp : user <$> upvotes r2 ≡ₚ user <$> upvotes r).
    { subst r2 r1. simpl. rewrite fmap_app. simpl.
      by apply revote_voters. }
    exists (<[id := r1]> db), "Upvote removed", false,
      (List.length (upvotes r1)), "Report upvoted", true,
      (List.length (upvotes r2)), r2.
    split; [exact H1|]. split; [exact H2|].
    split; [exact Hp|]. split; [apply (Hmem _ _ Hp)|].
    assert (Hlen : List.length (upvotes r2) = List.length (upvotes r)).
    { rewrite <- (length_fmap user (upvotes r2)), Hp. apply length_fmap. }
    split; [exact Hlen|]. split; [exact Hlen|]. split; [reflexivity|].
    subst r2 r1. rewrite !set_upvotes_twice. apply set_upvotes_same.
  - (* add, then remove *)
    pose proof (post_upvote_add t1 db u id r Hr Hu) as H1.
    cbv zeta in H1. rewrite Hid in H1.
    set (r1 := set_upvotes _ r) in H1.
    assert (Hr1 : <[id := r1]> db !! id = Some r1) by apply lookup_insert_eq.
    assert (Hu1 : hasUpvoted r1 (u_id u) = true).
    { subst r1. unfold hasUpvoted. simpl. rewrite existsb_app. simpl.
      rewrite String.eqb_refl. apply orb_true_r. }
    pose proof (post_upvote_remove t2 _ u id r1 Hr1 Hu1) as H2.
    cbv zeta in H2. change (_id r1) with (_id r) in H2.
    rewrite Hid, insert_insert_eq in H2.
    set (r2 := set_upvotes _ r1) in H2.
    assert (Hback : upvotes r2 = upvotes r).
    { subst r2 r1. simpl. rewrite List.filter_app. simpl.
      rewrite String.eqb_refl. simpl. rewrite app_nil_r.
      by apply filter_other_id. }
    exists (<[id := r1]> db), "Report upvoted", true,
      (List.length (upvotes r1)), "Upvote removed", false,
      (List.length (upvotes r2)), r2.
    split; [exact H1|]. split; [exact H2|].
    unfold hasUpvoted. rewrite Hback. repeat split; try reflexivity.
    subst r2 r1. rewrite !set_upvotes_twice. apply set_upvotes_same.
Qed.

Lemma filter_voters_subset (p : Upvote -> bool) (l : list Upvote) (v : ObjectId) :
  v ∈ user <$> List.filter p l -> v ∈ user <$> l.
Proof.
  induction l as [|x l IH]; simpl; [done|].
  destruct (p x); simpl; rewrite ?elem_of_cons; intros H.
  - destruct H as [->|H]; [by left | right; by apply IH].
  - right. by apply IH.
Qed.

Lemma filter_voters_NoDup (p : Upvote -> bool) (l : list Upvote) :
  NoDup (user <$> l) -> NoDup (user <$> List.filter p l).
Proof.
  induction l as [|x l IH]; simpl; [done|].
  intros [Hx Hl]%NoDup_cons.
  destruct (p x); simpl; [|by apply IH].
  apply NoDup_cons. split; [|by apply IH].
  intros H. by apply Hx, (filter_voters_subset p).
Qed.

(** The invariant behind C7: a toggle keeps at most one upvote per user. *)
Lemma post_upvote_one_vote_per_user now (db : Reports) u id r :
  db !! id = Some r ->
  NoDup (user <$> upvotes r) ->
  exists l resp,
    post_upvote now db u id
    = (<[_id (set_upvotes l r) := set_upvotes l r]> db, resp)
    /\ NoDup (user <$> l).
Proof.
  intros Hr Hnd. destruct (hasUpvoted r (u_id u)) eqn:Hu.
  - eexists _, _.
    split; [exact (post_upvote_remove now db u id r Hr Hu)|].
    by apply filter_voters_NoDup.
  - eexists _, _.
    split; [exact (post_upvote_add now db u id r Hr Hu)|].
    rewrite fmap_app. simpl. apply NoDup_app. split; [exact Hnd|].
    split; [|apply NoDup_singleton].
    intros v Hv ->%list_elem_of_singleton.
    apply existsb_user_elem in Hv. unfold hasUpvoted in Hu. congruence.
Qed.

(** ** Administrative actions *)

Lemma or_else_truthy (o : option string) (d : string) :
  Js.truthy d = true -> Js.truthy (Js.or_else o d) = true.
Proof.
  intros Hd. unfold Js.or_else.
  destruct o as [s|]; [|exact Hd]. by destruct (Js.truthy s) eqn:Hs.
Qed.

(** A validated assignment to a stored administrator is carried out. *)
Lemma put_report_assign_succeeds now (users : Users) (db : Reports) u id b r
    oid assignee :
  db !! id = Some r ->
  assignReportValidation b = [] ->
  castObjectId (field (ab_assignedTo b)) = Some oid ->
  users !! oid = Some assignee ->
  role assignee = "admin" ->
  schema_ok r ->
  exists db' r',
    put_report_assign now users db u id b
    = (db', mkResponse 200 (ReportAssigned r'))
    /\ assignedTo r' = Some oid.
Proof.
  intros Hr Hv Hoid Ha Hrole Hok. unfold put_report_assign.
  rewrite Hv, (findById_lookup _ _ _ Hr), Hoid, Ha, Hrole. simpl negb.
  cbv iota.
  pose proof (schema_ok_path r PStatusHistory Hok) as Hh.
  pose proof (schema_ok_path r PAdminComments Hok) as Hc.
  unfold path_valid in Hh, Hc.
  match goal with
  | |- context [save now ?D db] =>
      assert (Hval : validate D = true);
      [|unfold save; rewrite Hval; eexists _, _; split; [reflexivity|]]
  end.
  - unfold push_adminComments, write. simpl doc_report.
    cbn [status set_adminComments set_assignedTo].
    destruct (String.eqb (status r) "pending");
      unfold validate, push_statusHistory, assign_status, write;
      cbn -[Js.or_else Validator.isIn String.append String.eqb];
      try destruct (String.eqb "in_progress" (status r));
      cbn -[Js.or_else Validator.isIn String.append String.eqb];
      rewrite ?forallb_snoc, ?Hh, ?Hc; simpl;
      rewrite ?or_else_truthy by reflexivity; reflexivity.
  - unfold push_adminComments, write. simpl doc_report.
    cbn [status set_adminComments set_assignedTo].
    destruct (String.eqb (status r) "pending");
      unfold pre_save, push_statusHistory, assign_status, write;
      cbn -[Js.or_else String.append String.eqb];
      try destruct (String.eqb "in_progress" (status r));
      cbn -[Js.or_else String.append String.eqb]; reflexivity.
Qed.

(** The report an assignment stores. *)
Lemma put_report_assign_200 now (users : Users) (db db' : Reports) u id b r r' :
  db !! id = Some r ->
  put_report_assign now users db u id b
  = (db', mkResponse 200 (ReportAssigned r')) ->
  exists oid assignee,
    castObjectId (field (ab_assignedTo b)) = Some oid
    /\ users !! oid = Some assignee
    /\ role assignee = "admin"
    /\ db' = <[_id r := r']> db
    /\ let note :=
         mkAdminComment
           (Js.or_else (Js.trim <$> ab_comment b)
              ("Report assigned to " ++ u_name assignee ++ " by " ++ u_name u))
           (u_id u) now in
       let base :=
         set_adminComments (adminComments r ++ [note])
           (set_assignedTo (Some oid) r) in
       r' =
         if String.eqb (status r) "pending" then
           set_statusHistory
             (statusHistory r
              ++ [mkStatusEntry "in_progress" (Some (u_id u)) now
                    (Some "Status updated due to assignment");
                  mkStatusEntry "in_progress" None now None])
             (set_status "in_progress" base)
         else base.
Proof.
  intros Hr H. unfold put_report_assign in H.
  destruct (assignReportValidation b); [|discriminate].
  rewrite (findById_lookup _ _ _ Hr) in H.
  destruct (castObjectId _) as [oid|] eqn:Hoid; [|discriminate].
  destruct (users !! _) as [assignee|] eqn:Ha; [|discriminate].
  destruct (String.eqb_spec (role assignee) "admin") as [Hrole|Hrole];
    [|discriminate].
  simpl negb in H. cbv iota in H.
  destruct (save _ _ _) as [[db'' d'']|] eqn:Hs; [|discriminate].
  injection H as <- <-. exists oid, assignee.
  split; [reflexivity|]. split; [exact Ha|]. split; [exact Hrole|].
  unfold save in Hs. destruct (validate _); [|discriminate].
  injection Hs as <- <-.
  unfold push_adminComments, write. simpl doc_report.
  cbn [status set_adminComments set_assignedTo].
  destruct (String.eqb_spec (status r) "pending") as [Hp|Hp].
  - unfold push_statusHistory, assign_status, write.
    cbn -[Js.or_else String.append String.eqb]. rewrite Hp.
    unfold pre_save. cbn -[Js.or_else String.append].
    rewrite <- List.app_assoc. by split.
  - rewrite pre_save_unmodified by reflexivity. by split.
Qed.

(** The assign handler never looks at the administrator's area: what it
    stores and answers for a validated assignment to a stored
    administrator. *)
Lemma put_report_assign_effect now (users : Users) (db : Reports) u id b r
    oid assignee :
  db !! id = Some r ->
  _id r = id ->
  schema_ok r ->
  assignReportValidation b = [] ->
  castObjectId (field (ab_assignedTo b)) = Some oid ->
  users !! oid = Some assignee ->
  role assignee = "admin" ->
  let note :=
    mkAdminComment
      (Js.or_else (Js.trim <$> ab_comment b)
         ("Report assigned to " ++ u_name assignee ++ " by " ++ u_name u))
      (u_id u) now in
  let base :=
    set_adminComments (adminComments r ++ [note]) (set_assignedTo (Some oid) r) in
  let r' :=
    if String.eqb (status r) "pending" then
      set_statusHistory
        (statusHistory r
         ++ [mkStatusEntry "in_progress" (Some (u_id u)) now
               (Some "Status updated due to assignment");
             mkStatusEntry "in_progress" None now None])
        (set_status "in_progress" base)
    else base in
  put_report_assign now users db u id b
  = (<[id := r']> db, mkResponse 200 (ReportAssigned r')).
Proof.
  intros Hr Hid Hok Hv Hoid Ha Hrole note base r'.
  destruct (put_report_assign_succeeds now users db u id b r oid assignee
              Hr Hv Hoid Ha Hrole Hok) as (db' & r'' & H & _).
  destruct (put_report_assign_200 _ _ _ _ _ _ _ _ _ Hr H)
    as (oid' & assignee' & Hoid' & Ha' & _ & -> & Hr'').
  rewrite Hoid in Hoid'. injection Hoid' as <-.
  rewrite Ha in Ha'. injection Ha' as <-. cbv zeta in Hr''.
  rewrite H, Hid. subst r'' r' base note. reflexivity.
Qed.

(** Nor does the comment handler: what it stores and answers for a validated
    comment. *)
Lemma post_report_comment_effect now (db : Reports) u id c r :
  db !! id = Some r ->
  _id r = id ->
  schema_ok r ->
  commentValidation c = [] ->
  let note := mkAdminComment (Js.trim (field c)) (u_id u) now in
  post_report_comment now db u id c
  = (<[id := set_adminComments (adminComments r ++ [note]) r]> db,
     mkResponse 200 (CommentAdded (Some note))).
Proof.
  intros Hr Hid Hok Hv note.
  unfold post_report_comment. rewrite Hv, (findById_lookup _ _ _ Hr).
  apply check_nil in Hv. apply (isLength_truthy 1 500) in Hv; [|lia].
  pose proof (schema_ok_path r PAdminComments Hok) as Hc.
  unfold path_valid in Hc. unfold save.
  assert (Hval : validate (push_adminComments note (mkDoc r false [])) = true).
  { unfold validate, push_adminComments, write.
    cbn -[Js.trim field]. rewrite forallb_snoc, Hc. simpl ac_comment.
    by rewrite Hv. }
  fold note. rewrite Hval, pre_save_unmodified by reflexivity.
  unfold push_adminComments, write. simpl doc_report.
  cbn [adminComments set_adminComments _id]. by rewrite last_snoc, Hid.
Qed.

(** The status handler refuses an administrator whose area the city does
    not contain. *)
Lemma put_report_status_outside_area now (db : Reports) (u : User)
    (id : ObjectId) (r : Report) (area c : string) (sb : StatusBody) :
  adminArea u = Some area ->
  Js.truthy area = true ->
  db !! id = Some r ->
  city (location r) = Some c ->
  Js.includes (Js.toLowerCase c) (Js.toLowerCase area) = false ->
  updateStatusValidation sb = [] ->
  put_report_status now db u id sb
  = (db,
     mkResponse 403
       (Error "Access denied - report outside your administrative area"
          "AREA_ACCESS_DENIED")).
Proof.
  intros Harea Htruthy Hr Hcity Hout Hsb.
  unfold put_report_status.
  rewrite Hsb, (findById_lookup _ _ _ Hr). simpl doc_report.
  unfold outside_area. rewrite Harea, Hcity. simpl Js.truthy_opt.
  rewrite Htruthy. simpl field. by rewrite Hout.
Qed.

(** ** The store invariant *)

Lemma store_ok_empty : store_ok ∅.
Proof. intros id r H. by rewrite lookup_empty in H. Qed.

Lemma store_ok_insert (db : Reports) (r' : Report) :
  store_ok db ->
  NoDup (user <$> upvotes r') ->
  schema_ok r' ->
  store_ok (<[_id r' := r']> db).
Proof.
  intros Hok Hnd Hs id r. destruct (decide (_id r' = id)) as [<-|Hne].
  - rewrite lookup_insert_eq. by intros [= <-].
  - rewrite lookup_insert_ne by done. apply Hok.
Qed.

Lemma store_ok_delete (db : Reports) (id : ObjectId) :
  store_ok db -> store_ok (delete id db).
Proof.
  intros Hok id' r. destruct (decide (id = id')) as [<-|Hne].
  - by rewrite lookup_delete_eq.
  - rewrite lookup_delete_ne by done. apply Hok.
Qed.

Lemma findById_inv (db : Reports) (id : ObjectId) (d : Doc) :
  findById db id = Some d ->
  exists r, db !! id = Some r /\ d = mkDoc r false [].
Proof.
  unfold findById. destruct (db !! id) as [r|]; [|discriminate].
  intros [= <-]. eauto.
Qed.

(** *** Change tracking and validation *)

Lemma tracks_loaded (r : Report) : tracks r (mkDoc r false []).
Proof. by intros p _. Qed.

Lemma tracks_write (r : Report) (d : Doc) (q : Path) (f : Report -> Report) :
  (forall p r0, p <> q -> path_valid p (f r0) = path_valid p r0) ->
  tracks r d -> tracks r (write q f d).
Proof.
  intros Hf Hd p Hp. unfold write in *. simpl in *.
  apply not_elem_of_cons in Hp as [Hpq Hp].
  rewrite Hf by exact Hpq. by apply Hd.
Qed.

Lemma tracks_assign_status (r : Report) (d : Doc) (v : string) :
  tracks r d -> tracks r (assign_status v d).
Proof.
  intros Hd. unfold assign_status. destruct (negb (isNew d) && _); [exact Hd|].
  apply tracks_write; [|exact Hd].
  by intros [] r0 Hp.
Qed.

Lemma tracks_push_statusHistory (r : Report) (d : Doc) (e : StatusEntry) :
  tracks r d -> tracks r (push_statusHistory e d).
Proof. apply tracks_write. by intros [] r0 Hp. Qed.

Lemma tracks_push_adminComments (r : Report) (d : Doc) (c : AdminComment) :
  tracks r d -> tracks r (push_adminComments c d).
Proof. apply tracks_write. by intros [] r0 Hp. Qed.

(** A loaded document that passes validation satisfies the whole schema when
    the report it was loaded from did. *)
Lemma validate_schema_ok (r : Report) (d : Doc) :
  isNew d = false ->
  schema_ok r -> tracks r d -> validate d = true -> schema_ok (doc_report d).
Proof.
  intros Hnew Hr Hd Hv. unfold validate in Hv. rewrite Hnew in Hv.
  unfold schema_ok. apply List.forallb_forall. intros p _.
  destruct (decide (p ∈ modifiedPaths d)) as [Hp|Hp].
  - apply (proj1 (List.forallb_forall _ _) Hv). by apply list_elem_of_In.
  - rewrite (Hd p Hp). by apply schema_ok_path.
Qed.

(** The hook keeps a valid document valid: the entry it pushes carries the
    validated status. *)
Lemma pre_save_schema_ok (now : Date) (d : Doc) :
  schema_ok (doc_report d) -> schema_ok (doc_report (pre_save now d)).
Proof.
  intros Hok. unfold pre_save.
  destruct (isModified PStatus d && negb (isNew d)); [|exact Hok].
  pose proof (schema_ok_path _ PStatus Hok) as Hs.
  pose proof (schema_ok_path _ PStatusHistory Hok) as Hh.
  unfold path_valid in Hs, Hh.
  assert (Hpush : schema_ok
            (set_statusHistory
               (statusHistory (doc_report d)
                ++ [mkStatusEntry (status (doc_report d)) None now None])
               (doc_report d))).
  { unfold schema_ok. apply List.forallb_forall. intros p _.
    destruct p;
      match goal with
      | |- path_valid ?q _ = true =>
          try exact (schema_ok_path (doc_report d) q Hok)
      end.
    unfold path_valid. cbn [statusHistory set_statusHistory].
    rewrite forallb_snoc, Hh. cbn [sh_status]. by rewrite Hs. }
  simpl doc_report. cbn [status set_statusHistory].
  destruct (String.eqb _ "resolved"); [|exact Hpush].
  unfold schema_ok. apply List.forallb_forall. intros p _.
  rewrite <- (schema_ok_path _ p Hpush). by destruct p.
Qed.

Lemma loaded_from_loaded (r : Report) : loaded_from r (mkDoc r false []).
Proof. repeat split. Qed.

Lemma loaded_from_write (r : Report) (d : Doc) (q : Path)
    (f : Report -> Report) :
  (forall p r0, p <> q -> path_valid p (f r0) = path_valid p r0) ->
  (forall r0, _id (f r0) = _id r0) ->
  (forall r0, upvotes (f r0) = upvotes r0) ->
  loaded_from r d -> loaded_from r (write q f d).
Proof.
  intros Hf Hid Hup (Hnew & Hi & Hu & Ht).
  split; [exact Hnew|]. split; [simpl; by rewrite Hid|].
  split; [simpl; by rewrite Hup | by apply tracks_write].
Qed.

Lemma loaded_from_assign_status (r : Report) (d : Doc) (v : string) :
  loaded_from r d -> loaded_from r (assign_status v d).
Proof.
  intros Hd. unfold assign_status. destruct (negb (isNew d) && _); [exact Hd|].
  apply loaded_from_write; [|done|done|exact Hd]. by intros [] r0 Hp.
Qed.

Lemma loaded_from_push_statusHistory (r : Report) (d : Doc) (e : StatusEntry) :
  loaded_from r d -> loaded_from r (push_statusHistory e d).
Proof. apply loaded_from_write; [|done|done]. by intros [] r0 Hp. Qed.

Lemma loaded_from_push_adminComments (r : Report) (d : Doc) (c : AdminComment) :
  loaded_from r d -> loaded_from r (push_adminComments c d).
Proof. apply loaded_from_write; [|done|done]. by intros [] r0 Hp. Qed.

(** The hook writes neither the id nor the upvotes. *)
Lemma pre_save_keeps (now : Date) (d : Doc) :
  _id (doc_report (pre_save now d)) = _id (doc_report d)
  /\ upvotes (doc_report (pre_save now d)) = upvotes (doc_report d).
Proof.
  unfold pre_save. destruct (isModified PStatus d && negb (isNew d)); [|done].
  simpl. by destruct (String.eqb _ "resolved").
Qed.

(** Saving a document an admin handler has written stores a valid report
    under the same id, with the same upvotes. *)
Lemma save_loaded (now : Date) (r : Report) (d d' : Doc) (db db' : Reports) :
  loaded_from r d ->
  schema_ok r ->
  save now d db = Some (db', d') ->
  exists r',
    db' = <[_id r' := r']> db
    /\ _id r' = _id r
    /\ upvotes r' = upvotes r
    /\ schema_ok r'.
Proof.
  intros (Hnew & Hid & Hup & Ht) Hok. unfold save.
  destruct (validate d) eqn:Hv; [|discriminate].
  intros [= <- <-]. exists (doc_report (pre_save now d)).
  destruct (pre_save_keeps now d) as [Hid' Hup'].
  split; [reflexivity|]. split; [congruence|]. split; [congruence|].
  apply pre_save_schema_ok. by apply (validate_schema_ok r).
Qed.

Lemma post_report_store_ok now newId ua ip (db : Reports) u b :
  store_ok db -> store_ok (post_report now newId ua ip db u b).1.
Proof.
  intros Hok. unfold post_report.
  destruct (createReportValidation b); [|exact Hok].
  unfold save. destruct (validate _) eqn:Hv; [|exact Hok].
  rewrite pre_save_new by reflexivity.
  refine (store_ok_insert db
            (doc_report
               (new_Report newId (createReportSanitize b) (u_id u) ua ip))
            Hok _ Hv).
  apply NoDup_nil_2.
Qed.

Lemma apply_update_untouched (ud : UpdateData) (r : Report) (p : Path) :
  p ∉ update_paths ud ->
  path_valid p (apply_update ud r) = path_valid p r.
Proof.
  unfold update_paths, apply_update. cbv zeta.
  rewrite !not_elem_of_app.
  intros (H1 & H2 & H3 & H4 & H5 & H6 & H7 & H8).
  destruct ud as [t d c l i pr tg pub]. simpl in *.
  destruct t, d, c, l, i, pr, tg, pub; simpl in *;
    repeat match goal with
      | H : _ ∉ [_] |- _ => apply not_elem_of_cons in H as [H _]
      end;
    destruct p; try reflexivity; congruence.
Qed.

Lemma put_report_store_ok (db : Reports) u id b :
  store_ok db -> store_ok (put_report db u id b).1.
Proof.
  intros Hok. unfold put_report.
  destruct (findById db id) as [d|] eqn:Hd; [|exact Hok].
  apply findById_inv in Hd as (r & Hr & ->). simpl doc_report.
  destruct (negb _); [exact Hok|].
  unfold findByIdAndUpdate. rewrite Hr.
  destruct (forallb _ _) eqn:Hv; [|exact Hok].
  destruct (Hok id r Hr) as (Hid & Hnd & Hs).
  cbn [fst]. rewrite <- Hid, <- (apply_update_id (updateData_of b) r).
  apply store_ok_insert; [exact Hok | by rewrite apply_update_upvotes |].
  unfold schema_ok. apply List.forallb_forall. intros p _.
  destruct (decide (p ∈ update_paths (updateData_of b))) as [Hp|Hp].
  - apply (proj1 (List.forallb_forall _ _) Hv). by apply list_elem_of_In.
  - rewrite apply_update_untouched by exact Hp. by apply schema_ok_path.
Qed.

Lemma set_upvotes_schema_ok (l : list Upvote) (r : Report) :
  schema_ok r -> schema_ok (set_upvotes l r).
Proof.
  intros Hok. unfold schema_ok. apply List.forallb_forall. intros p _.
  rewrite <- (schema_ok_path r p Hok). by destruct p.
Qed.

Lemma post_upvote_store_ok now (db : Reports) u id :
  store_ok db -> store_ok (post_upvote now db u id).1.
Proof.
  intros Hok. destruct (db !! id) as [r|] eqn:Hr.
  - destruct (Hok id r Hr) as (_ & Hnd & Hs).
    destruct (post_upvote_one_vote_per_user now db u id r Hr Hnd)
      as (l & resp & -> & Hnd').
    apply store_ok_insert; [exact Hok | exact Hnd' |].
    by apply set_upvotes_schema_ok.
  - unfold post_upvote. by rewrite (findById_None _ _ Hr).
Qed.

Lemma delete_report_store_ok (db : Reports) u id :
  store_ok db -> store_ok (delete_report db u id).1.
Proof.
  intros Hok. unfold delete_report.
  destruct (findById db id) as [d|]; [|exact Hok].
  destruct (negb _); [exact Hok|]. by apply store_ok_delete.
Qed.

(** What an admin handler's [save] does to a valid store. *)
Lemma save_store_ok now (db db' : Reports) id r d d' :
  store_ok db ->
  db !! id = Some r ->
  loaded_from r d ->
  save now d db = Some (db', d') ->
  store_ok db'.
Proof.
  intros Hok Hr Hd Hs. destruct (Hok id r Hr) as (_ & Hnd & Hsch).
  destruct (save_loaded now r d d' db db' Hd Hsch Hs)
    as (r' & -> & _ & Hup & Hsch').
  apply store_ok_insert; [exact Hok | by rewrite Hup | exact Hsch'].
Qed.

Lemma put_report_status_store_ok now (db : Reports) u id b :
  store_ok db -> store_ok (put_report_status now db u id b).1.
Proof.
  intros Hok. unfold put_report_status.
  destruct (updateStatusValidation b); [|exact Hok].
  destruct (findById db id) as [d|] eqn:Hd; [|exact Hok].
  apply findById_inv in Hd as (r & Hr & ->). simpl doc_report.
  destruct (outside_area u r) as [[|]|]; try exact Hok.
  destruct (save _ _ _) as [[db' d']|] eqn:Hs; [|exact Hok].
  cbn [fst]. apply (save_store_ok _ _ _ _ _ _ _ Hok Hr) in Hs; [exact Hs|].
  destruct (Js.truthy_opt _); [apply loaded_from_push_adminComments|];
    apply loaded_from_push_statusHistory;
    (destruct (sb_estimatedResolutionTime b) as [[t|raw]|];
     [apply loaded_from_write; [by intros [] r0 Hp | done | done |] | |]);
    apply loaded_from_assign_status, loaded_from_loaded.
Qed.

Lemma put_report_assign_store_ok now (users : Users) (db : Reports) u id b :
  store_ok db -> store_ok (put_report_assign now users db u id b).1.
Proof.
  intros Hok. unfold put_report_assign.
  destruct (assignReportValidation b); [|exact Hok].
  destruct (findById db id) as [d|] eqn:Hd; [|exact Hok].
  apply findById_inv in Hd as (r & Hr & ->).
  destruct (castObjectId _) as [oid|]; [|exact Hok].
  destruct (users !! _) as [assignee|]; [|exact Hok].
  destruct (negb _); [exact Hok|].
  destruct (save _ _ _) as [[db' d']|] eqn:Hs; [|exact Hok].
  cbn [fst]. apply (save_store_ok _ _ _ _ _ _ _ Hok Hr) in Hs; [exact Hs|].
  assert (Hd : loaded_from r
                 (push_adminComments
                    (mkAdminComment
                       (Js.or_else (Js.trim <$> ab_comment b)
                          ("Report assigned to " ++ u_name assignee ++ " by "
                             ++ u_name u))
                       (u_id u) now)
                    (write PAssignedTo (set_assignedTo (Some oid))
                       (mkDoc r false [])))).
  { apply loaded_from_push_adminComments, loaded_from_write;
      [by intros [] r0 Hp | done | done | apply loaded_from_loaded]. }
  destruct (String.eqb _ "pending"); [|exact Hd].
  by apply loaded_from_push_statusHistory, loaded_from_assign_status.
Qed.

Lemma post_report_comment_store_ok now (db : Reports) u id c :
  store_ok db -> store_ok (post_report_comment now db u id c).1.
Proof.
  intros Hok. unfold post_report_comment.
  destruct (commentValidation c); [|exact Hok].
  destruct (findById db id) as [d|] eqn:Hd; [|exact Hok].
  apply findById_inv in Hd as (r & Hr & ->).
  destruct (save _ _ _) as [[db' d']|] eqn:Hs; [|exact Hok].
  cbn [fst]. apply (save_store_ok _ _ _ _ _ _ _ Hok Hr) in Hs; [exact Hs|].
  apply loaded_from_push_adminComments, loaded_from_loaded.
Qed.

(** No request breaks the invariant. *)
Lemma step_store_ok (db db' : Reports) :
  step db db' -> store_ok db -> store_ok db'.
Proof.
  destruct 1; eauto using post_report_store_ok, put_report_store_ok,
    post_upvote_store_ok, delete_report_store_ok, put_report_status_store_ok,
    put_report_assign_store_ok, post_report_comment_store_ok.
Qed.

(** Every store the application can hold keeps each report under its id,
    schema-valid, with at most one upvote per user. *)
Lemma reachable_store_ok (db : Reports) : reachable db -> store_ok db.
Proof.
  unfold reachable. revert db.
  apply (rtc_ind_r store_ok); [apply store_ok_empty|].
  intros db db' _ Hstep Hok. by apply (step_store_ok db).
Qed.

(** ** Claims over the stores the application can hold *)

Lemma db1_reachable : reachable Sample.db1.
Proof. apply rtc_once. apply step_create. Qed.

Lemma db3_reachable : reachable Sample.db3.
Proof.
  eapply rtc_r; [eapply rtc_r; [exact db1_reachable|]|]; apply step_status.
Qed.

Lemma db_voted_reachable : reachable Sample.db_voted.
Proof.
  eapply rtc_r; [eapply rtc_r; [exact db1_reachable|]|]; apply step_upvote.
Qed.

(** C3 (amended).  A status update that an administrator is allowed to make
    stamps [resolvedAt] with the time of the call exactly when it changes the
    status to [resolved], on the first entry and on every later re-entry
    alike; a call that leaves the status as it was, or moves it to another
    status, leaves [resolvedAt] as it was. *)
Theorem C3_resolvedAt_stamped_by_each_change_to_resolved
    now (db : Reports) u id b r :
  reachable db ->
  db !! id = Some r ->
  updateStatusValidation b = [] ->
  outside_area u r = Some false ->
  exists db' r' ch,
    put_report_status now db u id b
    = (db', mkResponse 200 (StatusUpdated r' ch))
    /\ db' !! id = Some r'
    /\ resolvedAt r' =
         (if negb (String.eqb (status r) (field (sb_status b)))
             && String.eqb (field (sb_status b)) "resolved"
          then Some now else resolvedAt r).
Proof.
  intros Hreach Hr Hv Ha.
  destruct (reachable_store_ok db Hreach id r Hr) as (Hid & _ & Hok).
  destruct (put_report_status_resolvedAt now db u id b r Hr Hv Ha Hok)
    as (db' & r' & ch & Hcall & Hstored & Hstamp).
  exists db', r', ch. by rewrite Hid in Hstored.
Qed.

(** C3 at the re-entry: the reopened report, stamped 2000, is resolved again
    at 4000. *)
Lemma C3_resolvedAt_witness :
  let r := Sample.stored Sample.db3 in
  let b := Sample.to_status "resolved" in
  Sample.db3 !! Sample.r1 = Some r
  /\ status r = "pending"
  /\ resolvedAt r = Some 2000%Z
  /\ exists db' r' ch,
       put_report_status 4000 Sample.db3 Sample.dave Sample.r1 b
       = (db', mkResponse 200 (StatusUpdated r' ch))
       /\ db' !! Sample.r1 = Some r'
       /\ resolvedAt r' =
            (if negb (String.eqb (status r) (field (sb_status b)))
                && String.eqb (field (sb_status b)) "resolved"
             then Some 4000%Z else resolvedAt r).
Proof.
  intros r b.
  assert (Hr : Sample.db3 !! Sample.r1 = Some r) by (vm_compute; reflexivity).
  split; [exact Hr|]. split; [vm_compute; reflexivity|].
  split; [vm_compute; reflexivity|].
  apply (C3_resolvedAt_stamped_by_each_change_to_resolved 4000 Sample.db3
           Sample.dave Sample.r1 b r db3_reachable Hr);
    vm_compute; reflexivity.
Defined.

(** C7.  For every user and every report the application can hold, two
    consecutive upvote toggles by that user both succeed and leave the report
    with the voters and the number of upvotes it had before the first call;
    nothing but the upvote list has changed, no other report is touched, and
    the two [upvoted] flags are each other's negation. *)
Theorem C7_toggle_twice (db : Reports) (id : ObjectId) (u : User)
    (t1 t2 : Date) (r : Report) :
  reachable db ->
  db !! id = Some r ->
  exists db1 m1 f1 n1 m2 f2 n2 r2,
    post_upvote t1 db u id = (db1, mkResponse 200 (UpvoteToggled m1 f1 n1))
    /\ post_upvote t2 db1 u id
       = (<[id := r2]> db, mkResponse 200 (UpvoteToggled m2 f2 n2))
    /\ user <$> upvotes r2 ≡ₚ user <$> upvotes r
    /\ (forall v, hasUpvoted r2 v = hasUpvoted r v)
    /\ List.length (upvotes r2) = List.length (upvotes r)
    /\ n2 = List.length (upvotes r)
    /\ f1 = negb f2
    /\ set_upvotes (upvotes r) r2 = r.
Proof.
  intros Hreach Hr.
  destruct (reachable_store_ok db Hreach id r Hr) as (Hid & Hnd & _).
  by apply toggle_twice.
Qed.

(** C7 at Bob toggling twice on a report that Alice and he have upvoted. *)
Lemma C7_toggle_twice_witness :
  let r := Sample.stored Sample.db_voted in
  Sample.db_voted !! Sample.r1 = Some r
  /\ user <$> upvotes r = [u_id Sample.alice; u_id Sample.bob]
  /\ exists db1 m1 f1 n1 m2 f2 n2 r2,
       post_upvote 2000 Sample.db_voted Sample.bob Sample.r1
       = (db1, mkResponse 200 (UpvoteToggled m1 f1 n1))
       /\ post_upvote 3000 db1 Sample.bob Sample.r1
          = (<[Sample.r1 := r2]> Sample.db_voted,
             mkResponse 200 (UpvoteToggled m2 f2 n2))
       /\ user <$> upvotes r2 ≡ₚ user <$> upvotes r
       /\ (forall v, hasUpvoted r2 v = hasUpvoted r v)
       /\ List.length (upvotes r2) = List.length (upvotes r)
       /\ n2 = List.length (upvotes r)
       /\ f1 = negb f2
       /\ set_upvotes (upvotes r) r2 = r.
Proof.
  intros r.
  assert (Hr : Sample.db_voted !! Sample.r1 = Some r)
    by (vm_compute; reflexivity).
  split; [exact Hr|]. split; [vm_compute; reflexivity|].
  exact (C7_toggle_twice Sample.db_voted Sample.r1 Sample.bob 2000 3000 r
           db_voted_reachable Hr).
Defined.

(** C8.  Take an administrator with an assigned area and a stored report
    whose city does not contain that area, letter case aside.  A validated
    status update is refused with 403 AREA_ACCESS_DENIED and the store is
    left as it was.  The assign and comment handlers make no area test and
    are carried out on the same report.  A validated assignment to an
    existing administrator is answered 200 and stores the report with the
    assignee and the assignment comment, moved to [in_progress] with its two
    history entries if it was pending; a validated comment is answered 200
    and stores the report with the comment appended. *)
Theorem C8_area_check_only_on_status now (users : Users) (db : Reports)
    (u : User) (id : ObjectId) (r : Report) (area c : string)
    (sb : StatusBody) (ab : AssignBody) (cb : option string)
    (oid : ObjectId) (assignee : User) :
  reachable db ->
  role u = "admin" ->
  adminArea u = Some area ->
  Js.truthy area = true ->
  db !! id = Some r ->
  city (location r) = Some c ->
  Js.includes (Js.toLowerCase c) (Js.toLowerCase area) = false ->
  updateStatusValidation sb = [] ->
  assignReportValidation ab = [] ->
  castObjectId (field (ab_assignedTo ab)) = Some oid ->
  users !! oid = Some assignee ->
  role assignee = "admin" ->
  commentValidation cb = [] ->
  let assignment :=
    mkAdminComment
      (Js.or_else (Js.trim <$> ab_comment ab)
         ("Report assigned to " ++ u_name assignee ++ " by " ++ u_name u))
      (u_id u) now in
  let base :=
    set_adminComments (adminComments r ++ [assignment])
      (set_assignedTo (Some oid) r) in
  let assigned :=
    if String.eqb (status r) "pending" then
      set_statusHistory
        (statusHistory r
         ++ [mkStatusEntry "in_progress" (Some (u_id u)) now
               (Some "Status updated due to assignment");
             mkStatusEntry "in_progress" None now None])
        (set_status "in_progress" base)
    else base in
  let note := mkAdminComment (Js.trim (field cb)) (u_id u) now in
  let commented := set_adminComments (adminComments r ++ [note]) r in
  requireAdmin u = Next (Some u)
  /\ put_report_status now db u id sb
     = (db,
        mkResponse 403
          (Error "Access denied - report outside your administrative area"
             "AREA_ACCESS_DENIED"))
  /\ put_report_assign now users db u id ab
     = (<[id := assigned]> db, mkResponse 200 (ReportAssigned assigned))
  /\ assignedTo assigned = Some oid
  /\ post_report_comment now db u id cb
     = (<[id := commented]> db, mkResponse 200 (CommentAdded (Some note)))
  /\ adminComments commented = (adminComments r ++ [note])%list.
Proof.
  intros Hreach Hrole Harea Htruthy Hr Hcity Hout Hsb Hab Hoid Hassignee
    Hadmin Hcb assignment base assigned note commented.
  destruct (reachable_store_ok db Hreach id r Hr) as (Hid & _ & Hok).
  split; [unfold requireAdmin; by rewrite Hrole|].
  split; [by apply (put_report_status_outside_area now db u id r area c)|].
  split;
    [exact (put_report_assign_effect now users db u id ab r oid assignee
              Hr Hid Hok Hab Hoid Hassignee Hadmin)|].
  split; [subst assigned base; by destruct (String.eqb (status r) "pending")|].
  split; [|reflexivity].
  exact (post_report_comment_effect now db u id cb r Hr Hid Hok Hcb).
Qed.

(** C8 at Carol, scoped to Shelbyville, acting on Alice's pending
    Springfield report. *)
Lemma C8_area_check_witness :
  let r := Sample.stored Sample.db1 in
  let text := Some "Crew dispatched" in
  let assigned :=
    set_statusHistory
      [mkStatusEntry "in_progress" (Some (u_id Sample.carol)) 2000
         (Some "Status updated due to assignment");
       mkStatusEntry "in_progress" None 2000 None]
      (set_status "in_progress"
         (set_adminComments
            [mkAdminComment "Report assigned to Dave by Carol"
               (u_id Sample.carol) 2000]
            (set_assignedTo (Some (u_id Sample.dave)) r))) in
  let note := mkAdminComment "Crew dispatched" (u_id Sample.carol) 2000 in
  let commented := set_adminComments [note] r in
  adminArea Sample.carol = Some "Shelbyville"
  /\ city (location r) = Some "Springfield"
  /\ requireAdmin Sample.carol = Next (Some Sample.carol)
  /\ put_report_status 2000 Sample.db1 Sample.carol Sample.r1
       (Sample.to_status "resolved")
     = (Sample.db1,
        mkResponse 403
          (Error "Access denied - report outside your administrative area"
             "AREA_ACCESS_DENIED"))
  /\ put_report_assign 2000 Sample.users Sample.db1 Sample.carol Sample.r1
       Sample.assign_to_dave
     = (<[Sample.r1 := assigned]> Sample.db1,
        mkResponse 200 (ReportAssigned assigned))
  /\ post_report_comment 2000 Sample.db1 Sample.carol Sample.r1 text
     = (<[Sample.r1 := commented]> Sample.db1,
        mkResponse 200 (CommentAdded (Some note))).
Proof.
  intros r text assigned note commented.
  assert (Hr : Sample.db1 !! Sample.r1 = Some r) by (vm_compute; reflexivity).
  pose proof (C8_area_check_only_on_status 2000 Sample.users Sample.db1
                Sample.carol Sample.r1 r "Shelbyville" "Springfield"
                (Sample.to_status "resolved") Sample.assign_to_dave text
                (u_id Sample.dave) Sample.dave db1_reachable
                eq_refl eq_refl eq_refl Hr eq_refl eq_refl eq_refl eq_refl
                eq_refl eq_refl eq_refl eq_refl)
    as (Hgate & Hstatus & Hassign & _ & Hcomment & _).
  split; [reflexivity|]. split; [vm_compute; reflexivity|].
  split; [exact Hgate|]. split; [exact Hstatus|].
  split; [exact Hassign | exact Hcomment].
Defined.

(** * Further properties of the code *)

(** ** Authentication *)

(** X1.  [authenticateToken] fails closed: it passes a request on only with
    a user attached, and only when the header carries a token that
    [jwt.verify] accepts under [JWT_SECRET], the decoded [userId] names a
    stored user, and that user is active. *)
Theorem X1_authenticateToken_fails_closed
    (jwt_verify : string -> string -> Date -> Verified)
    (env : Env) (users : Users) (now : Date) (authorization : option string)
    (u : option User) :
  authenticateToken jwt_verify env users now authorization = Next u ->
  exists token decoded user,
    u = Some user
    /\ bearer_token authorization = Some token
    /\ jwt_verify token (JWT_SECRET env) now = Decoded decoded
    /\ users !! userId decoded = Some user
    /\ isActive user = true.
Proof.
  unfold authenticateToken.
  destruct (bearer_token authorization) as [token|]; [|discriminate].
  destruct (jwt_verify token (JWT_SECRET env) now) as [decoded|[]] eqn:Hv;
    try discriminate.
  destruct (users !! userId decoded) as [user|] eqn:Hu; [|discriminate].
  destruct (isActive user) eqn:Ha; [|discriminate].
  intros [= <-]. by exists token, decoded, user.
Qed.

(** X1 at Alice's access token. *)
Lemma X1_authenticateToken_witness :
  let h :=
    Some ("Bearer "
            ++ generateToken SymbolicJwt.sign Sample.env 1000
                 (u_id Sample.alice)) in
  authenticateToken SymbolicJwt.verify Sample.env Sample.users 2000 h
  = Next (Some Sample.alice)
  /\ exists token decoded user,
       Some Sample.alice = Some user
       /\ bearer_token h = Some token
       /\ SymbolicJwt.verify token (JWT_SECRET Sample.env) 2000
          = Decoded decoded
       /\ Sample.users !! userId decoded = Some user
       /\ isActive user = true.
Proof.
  intros h.
  assert (H : authenticateToken SymbolicJwt.verify Sample.env Sample.users
                2000 h = Next (Some Sample.alice))
    by (vm_compute; reflexivity).
  split; [exact H|].
  exact (X1_authenticateToken_fails_closed SymbolicJwt.verify Sample.env
           Sample.users 2000 h (Some Sample.alice) H).
Defined.

(** X2.  The two bearer-token middlewares attach the same users: the
    optional one attaches a user exactly when the mandatory one admits the
    request as that user. *)
Theorem X2_optionalAuth_attaches_whom_authenticateToken_admits
    (jwt_verify : string -> string -> Date -> Verified)
    (env : Env) (users : Users) (now : Date) (authorization : option string)
    (user : User) :
  optionalAuth jwt_verify env users now authorization = Next (Some user)
  <-> authenticateToken jwt_verify env users now authorization
      = Next (Some user).
Proof.
  unfold optionalAuth, authenticateToken.
  destruct (bearer_token authorization) as [token|]; [|done].
  destruct (jwt_verify token (JWT_SECRET env) now) as [decoded|[]]; try done.
  destruct (users !! userId decoded) as [v|]; [|done].
  by destruct (isActive v).
Qed.

(** X3.  The role gates.  [requireAdmin] passes exactly the administrators.
    [requireAdminOrOwner] on the default field passes exactly the users whom
    [canEdit] lets manage the loaded resource, and when no resource has been
    loaded on the request it passes administrators only. *)
Theorem X3_role_gates (u : User) (r : Report)
    (owner : Report -> option ObjectId) :
  (requireAdmin u = Next (Some u) <-> role u = "admin")
  /\ (requireAdminOrOwner by_reportedBy u (Some r) = Next (Some u)
      <-> canEdit r (u_id u) (role u) = true)
  /\ (requireAdminOrOwner owner u None = Next (Some u) <-> role u = "admin").
Proof.
  unfold requireAdmin, requireAdminOrOwner, canEdit, by_reportedBy. simpl.
  destruct (String.eqb_spec (role u) "admin") as [Ha|Ha]; simpl;
    destruct (String.eqb (reportedBy r) (u_id u)); simpl;
    repeat split; intros; try done.
Qed.

(** ** The refresh route *)

(** The outcomes of the refresh route. *)
Lemma post_refresh_outcome
    (jwt_sign : Payload -> string -> SignOptions -> Date -> string)
    (jwt_verify : string -> string -> Date -> Verified)
    (env : Env) (users : Users) (now : Date) (refreshToken : option string) :
  let resp := post_refresh jwt_sign jwt_verify env users now refreshToken in
  (auth_code resp = 200%nat \/ auth_code resp = 401%nat)
  /\ (auth_code resp = 200%nat
      <-> exists token decoded user,
            refreshToken = Some token
            /\ Js.truthy token = true
            /\ jwt_verify token (refresh_secret env) now = Decoded decoded
            /\ type decoded = Some "refresh"
            /\ users !! userId decoded = Some user
            /\ isActive user = true
            /\ auth_body resp
               = TokenRefreshed (generateToken jwt_sign env now (u_id user))).
Proof.
  unfold post_refresh, verifyRefreshToken.
  destruct refreshToken as [token|]; simpl;
    [|split; [by right | split; [done | by intros (? & ? & ? & ? & _)]]].
  destruct (Js.truthy token) eqn:Ht; simpl;
    [|split; [by right | split; [done|]];
      intros (t & ? & ? & [= <-] & Ht' & _); congruence].
  destruct (jwt_verify token (refresh_secret env) now) as [decoded|e] eqn:Hv;
    [|split; [by right | split; [done|]];
      intros (t & ? & ? & [= <-] & _ & Hv' & _); congruence].
  destruct (bool_decide (type decoded = Some "refresh")) eqn:Hty; simpl;
    [apply bool_decide_eq_true in Hty
    |apply bool_decide_eq_false in Hty;
     split; [by right | split; [done|]];
     intros (t & d & ? & [= <-] & _ & Hv' & Hty' & _); congruence].
  destruct (users !! userId decoded) as [user|] eqn:Hu;
    [|split; [by right | split; [done|]];
      intros (t & d & ? & [= <-] & _ & Hv' & _ & Hu' & _); congruence].
  destruct (isActive user) eqn:Ha; simpl.
  - split; [by left|]. split; [|done]. intros _.
    by exists token, decoded, user.
  - split; [by right|]. split; [done|].
    intros (t & d & v & [= <-] & _ & Hv' & _ & Hu' & Ha' & _).
    rewrite Hv in Hv'. injection Hv' as <-. rewrite Hu in Hu'.
    injection Hu' as <-. congruence.
Qed.

(** X4.  [POST /auth/refresh] answers 200 or 401 and nothing else.  It
    answers 200 exactly when the body carries a token that [jwt.verify]
    accepts under the refresh secret, whose payload is marked
    [type: 'refresh'] and names a stored, active user; the answer then holds
    a fresh access token for that user, and no new refresh token. *)
Theorem X4_refresh_outcome
    (jwt_sign : Payload -> string -> SignOptions -> Date -> string)
    (jwt_verify : string -> string -> Date -> Verified)
    (env : Env) (users : Users) (now : Date) (refreshToken : option string) :
  let resp := post_refresh jwt_sign jwt_verify env users now refreshToken in
  (auth_code resp = 200%nat \/ auth_code resp = 401%nat)
  /\ (auth_code resp = 200%nat
      <-> exists token decoded user,
            refreshToken = Some token
            /\ Js.truthy token = true
            /\ jwt_verify token (refresh_secret env) now = Decoded decoded
            /\ type decoded = Some "refresh"
            /\ users !! userId decoded = Some user
            /\ isActive user = true
            /\ auth_body resp
               = TokenRefreshed (generateToken jwt_sign env now (u_id user))).
Proof. apply post_refresh_outcome. Qed.

(** X5.  An access token cannot be used to obtain a new one.  If the library
    decodes a token issued by [generateToken] only to the payload that was
    signed, the refresh route answers 401 to it, whether or not the two
    secrets coincide: the payload has no [type] marker. *)
Theorem X5_access_token_refused_by_refresh
    (jwt_sign : Payload -> string -> SignOptions -> Date -> string)
    (jwt_verify : string -> string -> Date -> Verified)
    (env : Env) (users : Users) (issued now : Date) (uid : ObjectId) :
  let token := generateToken jwt_sign env issued uid in
  (forall p,
     jwt_verify token (refresh_secret env) now = Decoded p ->
     p = mkPayload uid None) ->
  auth_code (post_refresh jwt_sign jwt_verify env users now (Some token))
  = 401%nat.
Proof.
  intros token Hlib.
  destruct (post_refresh_outcome jwt_sign jwt_verify env users now
              (Some token))
    as [[H200|H401] [Hiff _]]; [|exact H401].
  destruct (Hiff H200) as (t & d & ? & [= <-] & _ & Hv & Hty & _).
  apply Hlib in Hv. subst d. discriminate.
Qed.

(** X5 with the reference token library: Alice's access token. *)
Lemma X5_access_token_witness :
  let token :=
    generateToken SymbolicJwt.sign Sample.env 1000 (u_id Sample.alice) in
  authenticateToken SymbolicJwt.verify Sample.env Sample.users 2000
    (Some ("Bearer " ++ token))
  = Next (Some Sample.alice)
  /\ auth_code
       (post_refresh SymbolicJwt.sign SymbolicJwt.verify Sample.env
          Sample.users 2000 (Some token))
     = 401%nat.
Proof.
  intros token. split; [vm_compute; reflexivity|].
  apply (X5_access_token_refused_by_refresh SymbolicJwt.sign
           SymbolicJwt.verify Sample.env Sample.users 1000 2000
           (u_id Sample.alice)).
  intros p. vm_compute. by intros [= <-].
Defined.

(** X6.  Refresh, then authenticate.  When users are stored under their own
    ids, the access token that a successful refresh hands out, once the
    library verifies it under [JWT_SECRET] as the payload that was signed,
    authenticates as bearer token the very user the refresh token named. *)
Theorem X6_refreshed_token_authenticates
    (jwt_sign : Payload -> string -> SignOptions -> Date -> string)
    (jwt_verify : string -> string -> Date -> Verified)
    (env : Env) (users : Users) (now later : Date)
    (refreshToken : option string) (token : string) :
  (forall k v, users !! k = Some v -> u_id v = k) ->
  post_refresh jwt_sign jwt_verify env users now refreshToken
  = mkAuthResponse 200 (TokenRefreshed token) ->
  bearer_token (Some ("Bearer " ++ token)) = Some token ->
  (forall uid user,
     users !! uid = Some user ->
     jwt_verify (generateToken jwt_sign env now uid) (JWT_SECRET env) later
     = Decoded (mkPayload uid None)) ->
  exists decoded user,
    verifyRefreshToken jwt_verify env now (field refreshToken) = Some decoded
    /\ users !! userId decoded = Some user
    /\ authenticateToken jwt_verify env users later
         (Some ("Bearer " ++ token))
       = Next (Some user).
Proof.
  intros Hkeys Hresp Hbearer Hlib. unfold post_refresh in Hresp.
  destruct (negb (Js.truthy_opt refreshToken)); [discriminate|].
  destruct (verifyRefreshToken _ _ _ _) as [decoded|] eqn:Hd; [|discriminate].
  destruct (users !! userId decoded) as [user|] eqn:Hu; [|discriminate].
  destruct (isActive user) eqn:Ha; [|discriminate]. simpl in Hresp.
  injection Hresp as <-. exists decoded, user.
  split; [reflexivity|]. split; [exact Hu|].
  pose proof (Hkeys _ _ Hu) as Hid. rewrite <- Hid in Hu.
  unfold authenticateToken. rewrite Hbearer, (Hlib (u_id user) user Hu).
  simpl userId. by rewrite Hu, Ha.
Qed.

(** X6 with the reference token library: Alice refreshes at 2000 and calls
    at 3000. *)
Lemma X6_refreshed_token_witness :
  let rt :=
    Some (generateRefreshToken SymbolicJwt.sign Sample.env 1000
            (u_id Sample.alice)) in
  let token :=
    generateToken SymbolicJwt.sign Sample.env 2000 (u_id Sample.alice) in
  post_refresh SymbolicJwt.sign SymbolicJwt.verify Sample.env Sample.users
    2000 rt
  = mkAuthResponse 200 (TokenRefreshed token)
  /\ exists decoded user,
       verifyRefreshToken SymbolicJwt.verify Sample.env 2000 (field rt)
       = Some decoded
       /\ Sample.users !! userId decoded = Some user
       /\ authenticateToken SymbolicJwt.verify Sample.env Sample.users 3000
            (Some ("Bearer " ++ token))
          = Next (Some user).
Proof.
  intros rt token.
  assert (Hresp : post_refresh SymbolicJwt.sign SymbolicJwt.verify Sample.env
                    Sample.users 2000 rt
                  = mkAuthResponse 200 (TokenRefreshed token))
    by (vm_compute; reflexivity).
  split; [exact Hresp|].
  apply (X6_refreshed_token_authenticates SymbolicJwt.sign SymbolicJwt.verify
           Sample.env Sample.users 2000 3000 rt token).
  - apply (bool_decide_unpack (map_Forall (fun k v => u_id v = k) Sample.users)).
    vm_compute. exact I.
  - exact Hresp.
  - vm_compute. reflexivity.
  - intros uid user H. unfold Sample.users in H.
    apply elem_of_dom_2 in H. rewrite !dom_insert_L, dom_empty_L in H.
    set_unfold. destruct H as [->|[->|[->|[->|[]]]]]; vm_compute; reflexivity.
Defined.

(** ** Requests that fail change nothing *)

(** X7.  A request to the report routes that is not answered with its
    success code leaves the collection exactly as it was: a rejected create
    (anything but 201), update, upvote toggle or delete (anything but 200)
    writes nothing. *)
Theorem X7_failed_report_request_writes_nothing
    now newId ua ip (db : Reports) u id b :
  (code (post_report now newId ua ip db u b).2 <> 201%nat ->
   (post_report now newId ua ip db u b).1 = db)
  /\ (code (put_report db u id b).2 <> 200%nat ->
      (put_report db u id b).1 = db)
  /\ (code (post_upvote now db u id).2 <> 200%nat ->
      (post_upvote now db u id).1 = db)
  /\ (code (delete_report db u id).2 <> 200%nat ->
      (delete_report db u id).1 = db).
Proof.
  repeat split.
  - unfold post_report. destruct (createReportValidation b); [|done].
    by destruct (save _ _ _) as [[db' d']|].
  - intros H. destruct (put_report db u id b) as [db' resp] eqn:E.
    by apply (put_report_failure_keeps_store _ _ _ _ _ _ E).
  - unfold post_upvote. destruct (findById db id) as [d|]; [|done].
    destruct (hasUpvoted _ _).
    + by destruct (removeUpvote _ _ _ _) as [[db' d']|].
    + by destruct (addUpvote _ _ _ _) as [[db' d']|].
  - unfold delete_report. destruct (findById db id) as [d|]; [|done].
    by destruct (negb _).
Qed.

(** X7 at four refused requests: an empty create, and Bob updating,
    deleting, and upvoting under an unknown id. *)
Lemma X7_failed_report_request_witness :
  let nothing := mkReportBody None None None None None None None None in
  (post_report 2000 "64b000000000000000000002" None None Sample.db1
     Sample.bob nothing).1 = Sample.db1
  /\ (put_report Sample.db1 Sample.bob Sample.r1 (Sample.retitle "Mine now")).1
     = Sample.db1
  /\ (post_upvote 2000 Sample.db1 Sample.bob "64b000000000000000000009").1
     = Sample.db1
  /\ (delete_report Sample.db1 Sample.bob Sample.r1).1 = Sample.db1.
Proof.
  intros nothing.
  destruct (X7_failed_report_request_writes_nothing 2000
              "64b000000000000000000002" None None Sample.db1 Sample.bob
              Sample.r1 nothing) as (H1 & _ & _ & H4).
  destruct (X7_failed_report_request_writes_nothing 2000
              "64b000000000000000000002" None None Sample.db1 Sample.bob
              Sample.r1 (Sample.retitle "Mine now")) as (_ & H2 & _ & _).
  destruct (X7_failed_report_request_writes_nothing 2000
              "64b000000000000000000002" None None Sample.db1 Sample.bob
              "64b000000000000000000009" nothing) as (_ & _ & H3 & _).
  split; [apply H1; vm_compute; discriminate|].
  split; [apply H2; vm_compute; discriminate|].
  split; [apply H3; vm_compute; discriminate|].
  apply H4; vm_compute; discriminate.
Defined.

(** X8.  The same for the admin routes: a status update, an assignment or a
    comment that is not answered with 200 writes nothing. *)
Theorem X8_failed_admin_request_writes_nothing
    now (users : Users) (db : Reports) u id sb ab cb :
  (code (put_report_status now db u id sb).2 <> 200%nat ->
   (put_report_status now db u id sb).1 = db)
  /\ (code (put_report_assign now users db u id ab).2 <> 200%nat ->
      (put_report_assign now users db u id ab).1 = db)
  /\ (code (post_report_comment now db u id cb).2 <> 200%nat ->
      (post_report_comment now db u id cb).1 = db).
Proof.
  repeat split.
  - unfold put_report_status. destruct (updateStatusValidation sb); [|done].
    destruct (findById db id) as [d|]; [|done].
    destruct (outside_area u _) as [[|]|]; try done.
    by destruct (save _ _ _) as [[db' d']|].
  - unfold put_report_assign. destruct (assignReportValidation ab); [|done].
    destruct (findById db id) as [d|]; [|done].
    destruct (castObjectId _) as [oid|]; [|done].
    destruct (users !! _) as [assignee|]; [|done].
    destruct (negb _); [done|].
    by destruct (save _ _ _) as [[db' d']|].
  - unfold post_report_comment. destruct (commentValidation cb); [|done].
    destruct (findById db id) as [d|]; [|done].
    by destruct (save _ _ _) as [[db' d']|].
Qed.

(** X8 at three refused admin requests by Dave: an unknown status, an
    assignment to the citizen Alice, and a blank comment. *)
Lemma X8_failed_admin_request_witness :
  (put_report_status 2000 Sample.db1 Sample.dave Sample.r1
     (Sample.to_status "done")).1 = Sample.db1
  /\ (put_report_assign 2000 Sample.users Sample.db1 Sample.dave Sample.r1
        (mkAssignBody (Some (u_id Sample.alice)) None)).1 = Sample.db1
  /\ (post_report_comment 2000 Sample.db1 Sample.dave Sample.r1 (Some "   ")).1
     = Sample.db1.
Proof.
  destruct (X8_failed_admin_request_writes_nothing 2000 Sample.users
              Sample.db1 Sample.dave Sample.r1 (Sample.to_status "done")
              (mkAssignBody (Some (u_id Sample.alice)) None) (Some "   "))
    as (H1 & H2 & H3).
  split; [apply H1; vm_compute; discriminate|].
  split; [apply H2; vm_compute; discriminate|].
  apply H3; vm_compute; discriminate.
Defined.

(** ** The collection *)

(** X9.  Whatever sequence of create, update, upvote, delete, status,
    assign and comment requests is served, every stored report sits under
    its own id, carries at most one upvote per user, and satisfies the
    validators of its schema: title present and at most 100 characters,
    description of 20 to 1000, category, status and priority in their
    enumerations, address, city and in-range coordinates present, every
    image with a url, every history entry with a known status, every admin
    comment non-empty. *)
Theorem X9_store_invariant (db : Reports) (id : ObjectId) (r : Report) :
  reachable db ->
  db !! id = Some r ->
  _id r = id
  /\ NoDup (user <$> upvotes r)
  /\ (forall p, path_valid p r = true).
Proof.
  intros Hreach Hr.
  destruct (reachable_store_ok db Hreach id r Hr) as (Hid & Hnd & Hok).
  split; [exact Hid|]. split; [exact Hnd|].
  intros p. by apply schema_ok_path.
Qed.

(** X9 at the report that Alice and Bob have upvoted. *)
Lemma X9_store_invariant_witness :
  let r := Sample.stored Sample.db_voted in
  _id r = Sample.r1
  /\ NoDup (user <$> upvotes r)
  /\ (forall p, path_valid p r = true).
Proof.
  intros r.
  apply (X9_store_invariant Sample.db_voted Sample.r1 r db_voted_reachable).
  vm_compute. reflexivity.
Defined.

(** ** Deleting and managing *)

Lemma get_report_delete_ne (db : Reports) (id id' : ObjectId) v :
  id' <> id -> get_report (delete id db) v id' = get_report db v id'.
Proof.
  intros Hne. unfold get_report, findById. by rewrite lookup_delete_ne.
Qed.

(** X10.  A delete is answered 200 exactly when the report exists and the
    actor is its owner or an administrator.  After a successful delete the
    report is gone for every viewer (404), and every other report is served
    as before. *)
Theorem X10_delete_report_effect (db : Reports) (u : User) (id : ObjectId) :
  let db' := (delete_report db u id).1 in
  (code (delete_report db u id).2 = 200%nat
   <-> exists r, db !! id = Some r /\ canEdit r (u_id u) (role u) = true)
  /\ (code (delete_report db u id).2 = 200%nat ->
      (forall v, get_report db' v id = not_found)
      /\ (forall id' v, id' <> id -> get_report db' v id' = get_report db v id')).
Proof.
  unfold delete_report, findById.
  destruct (db !! id) as [r|] eqn:Hr; simpl.
  - destruct (canEdit r (u_id u) (role u)) eqn:Hc; simpl.
    + split; [split; [by exists r | done]|]. intros _. split.
      * intros v. unfold get_report, findById. by rewrite lookup_delete_eq.
      * intros id' v Hne. by apply get_report_delete_ne.
    + split; [split; [done | by intros (? & [= <-] & ?); congruence]|]. done.
  - split; [split; [done | by intros (? & ? & _)]|]. done.
Qed.

(** X11.  Only the owner and administrators manage a report: for anyone
    else both the content update and the delete of an existing report are
    answered 403 ACCESS_DENIED and the collection stays as it was. *)
Theorem X11_strangers_cannot_manage (db : Reports) (u : User) (id : ObjectId)
    (b : ReportBody) (r : Report) :
  db !! id = Some r ->
  u_id u <> reportedBy r ->
  role u <> "admin" ->
  put_report db u id b
  = (db, mkResponse 403 (Error "Access denied" "ACCESS_DENIED"))
  /\ delete_report db u id
     = (db, mkResponse 403 (Error "Access denied" "ACCESS_DENIED")).
Proof.
  intros Hr Ho Ha.
  assert (Hc : canEdit r (u_id u) (role u) = false).
  { unfold canEdit. apply orb_false_intro.
    - by apply String.eqb_neq.
    - apply String.eqb_neq. congruence. }
  unfold put_report, delete_report.
  rewrite (findById_lookup _ _ _ Hr). simpl doc_report. by rewrite Hc.
Qed.

(** X11 at Bob and Alice's report. *)
Lemma X11_strangers_witness :
  put_report Sample.db1 Sample.bob Sample.r1 (Sample.retitle "Mine now")
  = (Sample.db1, mkResponse 403 (Error "Access denied" "ACCESS_DENIED"))
  /\ delete_report Sample.db1 Sample.bob Sample.r1
     = (Sample.db1, mkResponse 403 (Error "Access denied" "ACCESS_DENIED")).
Proof.
  apply (X11_strangers_cannot_manage Sample.db1 Sample.bob Sample.r1
           (Sample.retitle "Mine now") (Sample.stored Sample.db1));
    vm_compute; (reflexivity || discriminate).
Defined.

(** X10 at Alice deleting her own report. *)
Lemma X10_delete_report_witness :
  let db' := (delete_report Sample.db1 Sample.alice Sample.r1).1 in
  code (delete_report Sample.db1 Sample.alice Sample.r1).2 = 200%nat
  /\ (forall v, get_report db' v Sample.r1 = not_found)
  /\ (forall id' v,
        id' <> Sample.r1 -> get_report db' v id' = get_report Sample.db1 v id').
Proof.
  intros db'.
  assert (H : code (delete_report Sample.db1 Sample.alice Sample.r1).2
              = 200%nat) by (vm_compute; reflexivity).
  split; [exact H|].
  exact (proj2 (X10_delete_report_effect Sample.db1 Sample.alice Sample.r1) H).
Defined.

(** ** One toggle *)

Lemma filter_other_length (u : ObjectId) (l : list Upvote) :
  NoDup (user <$> l) ->
  existsb (fun vote => String.eqb (user vote) u) l = true ->
  S (List.length
       (List.filter (fun vote => negb (String.eqb (user vote) u)) l))
  = List.length l.
Proof.
  intros Hnd Hu.
  rewrite <- (length_fmap user l), <- (revote_voters u l Hnd Hu).
  rewrite length_app, length_fmap. simpl. lia.
Qed.

Lemma existsb_filter_keeps (u v : ObjectId) (l : list Upvote) :
  v <> u ->
  existsb (fun vote => String.eqb (user vote) v)
    (List.filter (fun vote => negb (String.eqb (user vote) u)) l)
  = existsb (fun vote => String.eqb (user vote) v) l.
Proof.
  intros Hne. induction l as [|x l IH]; simpl; [done|].
  destruct (String.eqb_spec (user x) u) as [Hx|Hx]; simpl.
  - rewrite IH. rewrite Hx. by rewrite (proj2 (String.eqb_neq u v)).
  - by rewrite IH.
Qed.

(** X12.  One upvote toggle on a stored report.  The call flips the
    caller's vote and nothing else: the answer's flag says whether the caller
    is a voter afterwards, every other user's vote is as before, the count
    moves by exactly one in the matching direction and is the count the
    answer reports, and no other field of the report changes. *)
Theorem X12_toggle_flips_one_vote now (db : Reports) (u : User)
    (id : ObjectId) (r : Report) :
  reachable db ->
  db !! id = Some r ->
  exists message r',
    post_upvote now db u id
    = (<[id := r']> db,
       mkResponse 200
         (UpvoteToggled message (negb (hasUpvoted r (u_id u)))
            (List.length (upvotes r'))))
    /\ hasUpvoted r' (u_id u) = negb (hasUpvoted r (u_id u))
    /\ (forall v, v <> u_id u -> hasUpvoted r' v = hasUpvoted r v)
    /\ (if hasUpvoted r (u_id u)
        then S (List.length (upvotes r')) = List.length (upvotes r)
        else List.length (upvotes r') = S (List.length (upvotes r)))
    /\ set_upvotes (upvotes r) r' = r.
Proof.
  intros Hreach Hr.
  destruct (reachable_store_ok db Hreach id r Hr) as (Hid & Hnd & _).
  destruct (hasUpvoted r (u_id u)) eqn:Hu.
  - pose proof (post_upvote_remove now db u id r Hr Hu) as H.
    cbv zeta in H. rewrite Hid in H.
    eexists _, _. split; [exact H|]. unfold hasUpvoted. simpl.
    split; [apply existsb_filter_other|].
    split; [intros v Hv; by apply existsb_filter_keeps|].
    split; [by apply filter_other_length|].
    rewrite set_upvotes_twice. apply set_upvotes_same.
  - pose proof (post_upvote_add now db u id r Hr Hu) as H.
    cbv zeta in H. rewrite Hid in H.
    eexists _, _. split; [exact H|]. unfold hasUpvoted. simpl.
    split; [rewrite existsb_app; simpl; rewrite String.eqb_refl;
            apply orb_true_r|].
    split.
    { intros v Hv. rewrite existsb_app. simpl.
      rewrite (proj2 (String.eqb_neq (u_id u) v)) by congruence.
      by rewrite !orb_false_r. }
    split; [rewrite length_app; simpl; lia|].
    rewrite set_upvotes_twice. apply set_upvotes_same.
Qed.

(** X12 at Bob withdrawing his vote from the report he and Alice upvoted. *)
Lemma X12_toggle_witness :
  let r := Sample.stored Sample.db_voted in
  hasUpvoted r (u_id Sample.bob) = true
  /\ exists message r',
       post_upvote 2000 Sample.db_voted Sample.bob Sample.r1
       = (<[Sample.r1 := r']> Sample.db_voted,
          mkResponse 200
            (UpvoteToggled message (negb (hasUpvoted r (u_id Sample.bob)))
               (List.length (upvotes r'))))
       /\ hasUpvoted r' (u_id Sample.bob)
          = negb (hasUpvoted r (u_id Sample.bob))
       /\ (forall v, v <> u_id Sample.bob -> hasUpvoted r' v = hasUpvoted r v)
       /\ (if hasUpvoted r (u_id Sample.bob)
           then S (List.length (upvotes r')) = List.length (upvotes r)
           else List.length (upvotes r') = S (List.length (upvotes r)))
       /\ set_upvotes (upvotes r) r' = r.
Proof.
  intros r. split; [vm_compute; reflexivity|].
  apply (X12_toggle_flips_one_vote 2000 Sample.db_voted Sample.bob Sample.r1 r
           db_voted_reachable).
  vm_compute. reflexivity.
Defined.

(** ** Creating, then viewing *)

(** X13.  The report a valid create stores belongs to the caller, is
    unassigned, has no upvotes, comments or resolved stamp, takes priority
    [medium] and visibility public unless the payload says otherwise.  Its
    creator is served it right away; an anonymous caller is served it
    exactly when it was not created private; any other citizen is refused a
    private one with 403. *)
Theorem X13_created_report_owner_and_visibility
    now newId ua ip (db : Reports) u b :
  valid_payload b ->
  let db' := (post_report now newId ua ip db u b).1 in
  exists r,
    db' !! newId = Some r
    /\ _id r = newId
    /\ reportedBy r = u_id u
    /\ assignedTo r = None
    /\ upvotes r = []
    /\ adminComments r = []
    /\ resolvedAt r = None
    /\ priority r = Js.or_else (b_priority b) "medium"
    /\ isPublic r = negb (bool_decide (b_isPublic b = Some false))
    /\ code (get_report db' (Some u) newId) = 200%nat
    /\ (code (get_report db' None newId) = 200%nat
        <-> b_isPublic b <> Some false)
    /\ (forall v,
          b_isPublic b = Some false ->
          u_id v <> u_id u ->
          role v <> "admin" ->
          get_report db' (Some v) newId
          = mkResponse 403 (Error "Access denied" "ACCESS_DENIED")).
Proof.
  intros Hv db'. subst db'. rewrite (post_report_valid _ _ _ _ _ _ _ Hv).
  cbn [fst]. eexists. split; [apply lookup_insert_eq|].
  repeat (split; [reflexivity|]).
  unfold get_report, findById, view_denied. rewrite lookup_insert_eq.
  cbn -[Js.trim Js.or_else cast_location bool_decide].
  rewrite String.eqb_refl.
  destruct (bool_decide_reflect (b_isPublic b = Some false)) as [Hp|Hp];
    simpl; (split; [reflexivity|]); split; try done.
  intros v _ Hne Hrole.
  rewrite (proj2 (String.eqb_neq (u_id v) (u_id u)) Hne).
  by rewrite (proj2 (String.eqb_neq (role v) "admin") Hrole).
Qed.

(** X13 at Alice's streetlight report. *)
Lemma X13_created_report_witness :
  let db' :=
    (post_report 1000 Sample.r1 None None ∅ Sample.alice Sample.streetlight).1
  in
  exists r,
    db' !! Sample.r1 = Some r
    /\ _id r = Sample.r1
    /\ reportedBy r = u_id Sample.alice
    /\ assignedTo r = None
    /\ upvotes r = []
    /\ adminComments r = []
    /\ resolvedAt r = None
    /\ priority r = Js.or_else (b_priority Sample.streetlight) "medium"
    /\ isPublic r
       = negb (bool_decide (b_isPublic Sample.streetlight = Some false))
    /\ code (get_report db' (Some Sample.alice) Sample.r1) = 200%nat
    /\ (code (get_report db' None Sample.r1) = 200%nat
        <-> b_isPublic Sample.streetlight <> Some false)
    /\ (forall v,
          b_isPublic Sample.streetlight = Some false ->
          u_id v <> u_id Sample.alice ->
          role v <> "admin" ->
          get_report db' (Some v) Sample.r1
          = mkResponse 403 (Error "Access denied" "ACCESS_DENIED")).
Proof.
  apply (X13_created_report_owner_and_visibility 1000 Sample.r1 None None ∅
           Sample.alice Sample.streetlight).
  split; vm_compute; reflexivity.
Defined.

(** ** Administrative actions, in full *)

(** Among the ids that [isMongoId] accepts, the cast fails exactly on those
    with [0x] or [0h] in front. *)
Lemma validated_id_cast (b : AssignBody) :
  assignReportValidation b = [] ->
  castObjectId (field (ab_assignedTo b)) = None
  <-> exists c digits,
        field (ab_assignedTo b) = String "0" (String c digits)
        /\ c ∈ ["x"; "X"; "h"; "H"]%char.
Proof.
  intros Hv. apply check_app_nil in Hv as [Hv _].
  set (s := field (ab_assignedTo b)) in *.
  unfold isMongoId in Hv. apply andb_prop in Hv as [Hhex Hlen].
  unfold castObjectId. rewrite Hlen. cbn [andb].
  unfold isHexadecimal in Hhex.
  destruct s as [|z [|c digits]].
  - discriminate.
  - discriminate.
  - destruct (Ascii.eqb_spec z "0"%char) as [->|Hz].
    + destruct (existsb (Ascii.eqb c) ["x"; "X"; "h"; "H"]%char) eqn:Hc.
      * assert (Hin : c ∈ ["x"; "X"; "h"; "H"]%char).
        { apply existsb_exists in Hc as (x & Hx & ->%Ascii.eqb_eq).
          by apply list_elem_of_In. }
        assert (Hnh : is_hex c = false).
        { set_unfold in Hin. destruct Hin as [->|[->|[->|[->|[]]]]];
            reflexivity. }
        cbn [list_ascii_of_string forallb]. rewrite Hnh.
        rewrite andb_false_r. cbn [andb]. split; [eauto|done].
      * apply andb_prop in Hhex as [_ ->]. split; [done|].
        intros (c' & digits' & [= <- <-] & Hin).
        apply list_elem_of_In in Hin.
        assert (existsb (Ascii.eqb c) ["x"; "X"; "h"; "H"]%char = true)
          by (apply existsb_exists; exists c; split;
              [exact Hin | apply Ascii.eqb_refl]).
        congruence.
    + assert (Hd : (match String z (String c digits) with
                    | String "0" (String c0 r) =>
                        if existsb (Ascii.eqb c0) ["x"; "X"; "h"; "H"]%char
                        then r else String z (String c digits)
                    | _ => String z (String c digits)
                    end) = String z (String c digits)).
      { destruct z as [[] [] [] [] [] [] [] []]; try reflexivity.
        by destruct Hz. }
      rewrite Hd in Hhex. apply andb_prop in Hhex as [_ ->].
      split; [done|]. intros (c' & digits' & [= -> _] & _). by destruct Hz.
Qed.

(** X14.  An assignment to an existing administrator, on any stored
    report.  The validated id is cast to the ObjectId it names, in either
    letter case of its digits; that assignee is recorded and one admin
    comment is appended (the caller's trimmed comment, or the generated
    sentence when it is blank or absent).  A pending report moves to
    [in_progress] and the move is logged twice, once by the handler and once
    by the pre-save hook; a report in any other status keeps its status and
    history.  Nothing else changes. *)
Theorem X14_assignment_effect now (users : Users) (db : Reports) u id b r
    oid assignee :
  reachable db ->
  db !! id = Some r ->
  assignReportValidation b = [] ->
  castObjectId (field (ab_assignedTo b)) = Some oid ->
  users !! oid = Some assignee ->
  role assignee = "admin" ->
  let note :=
    mkAdminComment
      (Js.or_else (Js.trim <$> ab_comment b)
         ("Report assigned to " ++ u_name assignee ++ " by " ++ u_name u))
      (u_id u) now in
  let base :=
    set_adminComments (adminComments r ++ [note])
      (set_assignedTo (Some oid) r) in
  let r' :=
    if String.eqb (status r) "pending" then
      set_statusHistory
        (statusHistory r
         ++ [mkStatusEntry "in_progress" (Some (u_id u)) now
               (Some "Status updated due to assignment");
             mkStatusEntry "in_progress" None now None])
        (set_status "in_progress" base)
    else base in
  put_report_assign now users db u id b
  = (<[id := r']> db, mkResponse 200 (ReportAssigned r')).
Proof.
  intros Hreach Hr Hv Hoid Ha Hrole.
  destruct (reachable_store_ok db Hreach id r Hr) as (Hid & _ & Hok).
  exact (put_report_assign_effect now users db u id b r oid assignee
           Hr Hid Hok Hv Hoid Ha Hrole).
Qed.

(** X14 at Carol assigning Alice's pending report to Dave, whose id the
    request spells in lower case and then in upper case. *)
Lemma X14_assignment_witness :
  let r := Sample.stored Sample.db1 in
  let upper := mkAssignBody (Some "64A0000000000000000000D4") None in
  let call :=
    put_report_assign 2000 Sample.users Sample.db1 Sample.carol Sample.r1
      Sample.assign_to_dave in
  status r = "pending"
  /\ (status <$> call.1 !! Sample.r1) = Some "in_progress"
  /\ (assignedTo <$> call.1 !! Sample.r1) = Some (Some (u_id Sample.dave))
  /\ (List.length <$> (statusHistory <$> call.1 !! Sample.r1)) = Some 2%nat
  /\ put_report_assign 2000 Sample.users Sample.db1 Sample.carol Sample.r1
       upper
     = call.
Proof.
  intros r upper call.
  assert (Hr : Sample.db1 !! Sample.r1 = Some r) by (vm_compute; reflexivity).
  pose proof (X14_assignment_effect 2000 Sample.users Sample.db1 Sample.carol
                Sample.r1 Sample.assign_to_dave r (u_id Sample.dave)
                Sample.dave db1_reachable Hr
                eq_refl eq_refl eq_refl eq_refl) as H.
  pose proof (X14_assignment_effect 2000 Sample.users Sample.db1 Sample.carol
                Sample.r1 upper r (u_id Sample.dave)
                Sample.dave db1_reachable Hr
                eq_refl eq_refl eq_refl eq_refl) as Hupper.
  cbv zeta in H, Hupper. subst call. rewrite Hupper, H. cbn [fst].
  rewrite lookup_insert_eq. vm_compute. repeat split; reflexivity.
Defined.

(** X15.  A validated assignment that names no administrator is refused and
    writes nothing.  When the id casts to an ObjectId under which no user or
    a user who is not an administrator is stored, the answer is 400
    INVALID_ADMIN_USER.  When the validated id does not cast, which is the
    case exactly for the ids that [isMongoId] accepts with a [0x] or [0h] in
    front, the answer is 500 REPORT_ASSIGN_ERROR. *)
Theorem X15_assignment_needs_an_administrator
    now (users : Users) (db : Reports) u id b r :
  db !! id = Some r ->
  assignReportValidation b = [] ->
  let text := field (ab_assignedTo b) in
  (forall oid,
     castObjectId text = Some oid ->
     (forall v, users !! oid = Some v -> role v <> "admin") ->
     put_report_assign now users db u id b
     = (db,
        mkResponse 400
          (Error "Invalid admin user for assignment" "INVALID_ADMIN_USER")))
  /\ (castObjectId text = None ->
      put_report_assign now users db u id b
      = (db,
         mkResponse 500 (Error "Failed to assign report" "REPORT_ASSIGN_ERROR")))
  /\ (castObjectId text = None
      <-> exists c digits,
            text = String "0" (String c digits)
            /\ c ∈ ["x"; "X"; "h"; "H"]%char).
Proof.
  intros Hr Hv text. split; [|split].
  - intros oid Hoid Hna. unfold put_report_assign.
    rewrite Hv, (findById_lookup _ _ _ Hr). fold text. rewrite Hoid.
    destruct (users !! oid) as [v|] eqn:Hu; [|reflexivity].
    by rewrite (proj2 (String.eqb_neq (role v) "admin") (Hna v eq_refl)).
  - intros Hoid. unfold put_report_assign.
    rewrite Hv, (findById_lookup _ _ _ Hr). fold text. by rewrite Hoid.
  - apply (validated_id_cast b Hv).
Qed.

(** X15 at an assignment to the citizen Alice, and at an id that passes
    [isMongoId] with [0x] in front. *)
Lemma X15_assignment_witness :
  put_report_assign 2000 Sample.users Sample.db1 Sample.dave Sample.r1
    (mkAssignBody (Some (u_id Sample.alice)) None)
  = (Sample.db1,
     mkResponse 400
       (Error "Invalid admin user for assignment" "INVALID_ADMIN_USER"))
  /\ put_report_assign 2000 Sample.users Sample.db1 Sample.dave Sample.r1
       (mkAssignBody (Some "0xaaaaaaaaaaaaaaaaaaaaaa") None)
     = (Sample.db1,
        mkResponse 500 (Error "Failed to assign report" "REPORT_ASSIGN_ERROR")).
Proof.
  assert (Hr : Sample.db1 !! Sample.r1 = Some (Sample.stored Sample.db1))
    by (vm_compute; reflexivity).
  split.
  - destruct (X15_assignment_needs_an_administrator 2000 Sample.users
                Sample.db1 Sample.dave Sample.r1
                (mkAssignBody (Some (u_id Sample.alice)) None)
                (Sample.stored Sample.db1) Hr eq_refl) as (H & _).
    apply (H (u_id Sample.alice) eq_refl).
    intros v. vm_compute. by intros [= <-].
  - destruct (X15_assignment_needs_an_administrator 2000 Sample.users
                Sample.db1 Sample.dave Sample.r1
                (mkAssignBody (Some "0xaaaaaaaaaaaaaaaaaaaaaa") None)
                (Sample.stored Sample.db1) Hr eq_refl) as (_ & H & _).
    apply H. reflexivity.
Defined.

(** X16.  A validated admin comment on any stored report appends exactly
    one entry to [adminComments], holding the trimmed text, the caller and
    the time of the call, and answers with that entry; status, history,
    resolved stamp, upvotes and every other field stay as they were. *)
Theorem X16_comment_effect now (db : Reports) u id c r :
  reachable db ->
  db !! id = Some r ->
  commentValidation c = [] ->
  let note := mkAdminComment (Js.trim (field c)) (u_id u) now in
  post_report_comment now db u id c
  = (<[id := set_adminComments (adminComments r ++ [note]) r]> db,
     mkResponse 200 (CommentAdded (Some note))).
Proof.
  intros Hreach Hr Hv.
  destruct (reachable_store_ok db Hreach id r Hr) as (Hid & _ & Hok).
  exact (post_report_comment_effect now db u id c r Hr Hid Hok Hv).
Qed.

(** X16 at Dave's note on Alice's report. *)
Lemma X16_comment_witness :
  let r := Sample.stored Sample.db1 in
  let note := mkAdminComment "Crew dispatched" (u_id Sample.dave) 2000 in
  post_report_comment 2000 Sample.db1 Sample.dave Sample.r1
    (Some "  Crew dispatched ")
  = (<[Sample.r1 := set_adminComments (adminComments r ++ [note]) r]>
       Sample.db1,
     mkResponse 200 (CommentAdded (Some note))).
Proof.
  intros r note.
  apply (X16_comment_effect 2000 Sample.db1 Sample.dave Sample.r1
           (Some "  Crew dispatched ") r db1_reachable);
    vm_compute; reflexivity.
Defined.

(** X17.  What a successful status update leaves alone.  Besides the
    status, the history and the resolved stamp, the update writes
    [estimatedResolutionTime], only when the request gives one, and
    [adminComments], which gains one entry holding the trimmed comment when
    the comment is not blank and none otherwise.  Title, description,
    category, priority, location, images, owner, assignee, upvotes,
    visibility, tags and metadata are as before. *)
Theorem X17_status_update_frame now (db db' : Reports) u id b r r' ch :
  db !! id = Some r ->
  put_report_status now db u id b = (db', mkResponse 200 (StatusUpdated r' ch)) ->
  let comment := Js.trim <$> sb_comment b in
  adminComments r' =
    (adminComments r
     ++ if Js.truthy_opt comment
        then [mkAdminComment (field comment) (u_id u) now] else [])%list
  /\ estimatedResolutionTime r' =
       match sb_estimatedResolutionTime b with
       | Some (Iso8601 t) => Some t
       | _ => estimatedResolutionTime r
       end
  /\ set_status (status r)
       (set_statusHistory (statusHistory r)
          (set_resolvedAt (resolvedAt r)
             (set_estimatedResolutionTime (estimatedResolutionTime r)
                (set_adminComments (adminComments r) r')))) = r.
Proof.
  intros Hr H comment. unfold put_report_status in H.
  rewrite (findById_lookup _ _ _ Hr) in H.
  destruct (updateStatusValidation b); [|discriminate].
  destruct (outside_area u _) as [[|]|]; try discriminate.
  fold comment in H.
  match type of H with
  | match save now ?D db with _ => _ end = _ =>
      destruct (save now D db) as [[db'' d'']|] eqn:Hs; [|discriminate]
  end.
  injection H as <- <- <-.
  unfold save in Hs.
  match type of Hs with
  | (if ?v then _ else _) = _ => destruct v; [|discriminate]
  end.
  injection Hs as <- <-.
  simpl doc_report.
  destruct (String.eqb (field (sb_status b)) (status r)) eqn:Hsame.
  - rewrite (assign_status_same _ _ Hsame).
    destruct (sb_estimatedResolutionTime b) as [[t|raw]|];
      destruct (Js.truthy_opt comment); simpl;
      rewrite ?app_nil_r; repeat split; by destruct r.
  - rewrite (assign_status_changed _ _ Hsame).
    destruct (sb_estimatedResolutionTime b) as [[t|raw]|];
      destruct (Js.truthy_opt comment); simpl;
      destruct (String.eqb (field (sb_status b)) "resolved"); simpl;
      rewrite ?app_nil_r; repeat split; by destruct r.
Qed.

(** X17 at Dave resolving Alice's report with a comment and an estimate. *)
Lemma X17_status_update_witness :
  let r := Sample.stored Sample.db1 in
  let b := mkStatusBody (Some "resolved") (Some " Lamp replaced ")
             (Some (Iso8601 5000)) in
  let r' := Sample.stored (put_report_status 2000 Sample.db1 Sample.dave
                             Sample.r1 b).1 in
  adminComments r' =
    [mkAdminComment "Lamp replaced" (u_id Sample.dave) 2000]
  /\ estimatedResolutionTime r' = Some 5000%Z
  /\ set_status (status r)
       (set_statusHistory (statusHistory r)
          (set_resolvedAt (resolvedAt r)
             (set_estimatedResolutionTime (estimatedResolutionTime r)
                (set_adminComments (adminComments r) r')))) = r.
Proof.
  intros r b r'.
  assert (Hr : Sample.db1 !! Sample.r1 = Some r) by (vm_compute; reflexivity).
  assert (H : put_report_status 2000 Sample.db1 Sample.dave Sample.r1 b
              = ((put_report_status 2000 Sample.db1 Sample.dave Sample.r1 b).1,
                 mkResponse 200 (StatusUpdated r' true)))
    by (vm_compute; reflexivity).
  destruct (X17_status_update_frame 2000 Sample.db1 _ Sample.dave Sample.r1 b
              r r' true Hr H) as (Hc & He & Hf).
  split; [rewrite Hc; vm_compute; reflexivity|].
  split; [rewrite He; reflexivity | exact Hf].
Defined.

(** ** The area test *)

Lemma toLowerCase_app (s t : string) :
  Js.toLowerCase (s ++ t) = Js.toLowerCase s ++ Js.toLowerCase t.
Proof. induction s as [|c s IH]; simpl; [done|]. by rewrite IH. Qed.

Lemma prefix_app (s t : string) : String.prefix s (s ++ t) = true.
Proof.
  induction s as [|c s IH]; simpl; [by destruct t|].
  destruct (ascii_dec c c); [exact IH | done].
Qed.

Lemma includes_app (p s q : string) : Js.includes (p ++ s ++ q) s = true.
Proof.
  induction p as [|c p IH].
  - change ("" ++ s ++ q) with (s ++ q).
    pose proof (prefix_app s q) as H.
    destruct (s ++ q); cbn [Js.includes]; by rewrite H.
  - change (String c p ++ s ++ q) with (String c (p ++ s ++ q)).
    cbn [Js.includes]. rewrite IH. apply orb_true_r.
Qed.

(** The inline area test admits an administrator without an area, and one
    whose area occurs in the city in any letter case. *)
Lemma outside_area_admits (u : User) (r : Report) :
  (Js.truthy_opt (adminArea u) = false -> outside_area u r = Some false)
  /\ (forall area before inside after,
        adminArea u = Some area ->
        city (location r) = Some (before ++ inside ++ after) ->
        Js.toLowerCase inside = Js.toLowerCase area ->
        outside_area u r = Some false).
Proof.
  unfold outside_area. split.
  - by intros ->.
  - intros area before inside after -> -> Hcase. simpl.
    destruct (Js.truthy area); [|reflexivity].
    by rewrite !toLowerCase_app, Hcase, includes_app.
Qed.

Lemma put_report_status_not_403 now (db : Reports) u id b r :
  db !! id = Some r ->
  outside_area u r = Some false ->
  code (put_report_status now db u id b).2 <> 403%nat.
Proof.
  intros Hr Ha. unfold put_report_status.
  destruct (updateStatusValidation b); [|done].
  rewrite (findById_lookup _ _ _ Hr). simpl doc_report. rewrite Ha.
  by destruct (save _ _ _) as [[db' d']|].
Qed.

(** X18.  The area test of the status update is a case-insensitive
    substring test, and it binds only administrators who have an area.  An
    administrator without an area (or with an empty one) is never answered
    403 for a stored report; one with an area is not answered 403 whenever
    the area occurs somewhere in the report's city, whatever the letter case
    on either side. *)
Theorem X18_area_test now (db : Reports) (u : User) (id : ObjectId)
    (b : StatusBody) (r : Report) :
  db !! id = Some r ->
  (Js.truthy_opt (adminArea u) = false ->
   code (put_report_status now db u id b).2 <> 403%nat)
  /\ (forall area before inside after,
        adminArea u = Some area ->
        city (location r) = Some (before ++ inside ++ after) ->
        Js.toLowerCase inside = Js.toLowerCase area ->
        code (put_report_status now db u id b).2 <> 403%nat).
Proof.
  intros Hr. destruct (outside_area_admits u r) as [H1 H2]. split.
  - intros H. by apply (put_report_status_not_403 _ _ _ _ _ r), H1.
  - intros area before inside after Ha Hc Hl.
    apply (put_report_status_not_403 _ _ _ _ _ r); [exact Hr|].
    by apply (H2 area before inside after).
Qed.

(** X18 at Dave, who has no area, and at an administrator of [springfield]
    acting on a report in [West SPRINGFIELD Heights]. *)
Lemma X18_area_test_witness :
  let r :=
    set_location
      (mkLocation (Some "1 Main St") (mkCoordinates (Some 40) (Some (-75)))
         (Some "West SPRINGFIELD Heights") None None)
      (Sample.stored Sample.db1) in
  let db := <[Sample.r1 := r]> Sample.db1 in
  let eve := mkUser "64a0000000000000000000e5" "Eve" "admin"
               (Some "springfield") true in
  let b := Sample.to_status "resolved" in
  code (put_report_status 2000 db Sample.dave Sample.r1 b).2 <> 403%nat
  /\ code (put_report_status 2000 db eve Sample.r1 b).2 <> 403%nat.
Proof.
  intros r db eve b.
  assert (Hr : db !! Sample.r1 = Some r) by apply lookup_insert_eq.
  split.
  - apply (proj1 (X18_area_test 2000 db Sample.dave Sample.r1 b r Hr)).
    reflexivity.
  - apply (proj2 (X18_area_test 2000 db eve Sample.r1 b r Hr) "springfield"
             "West " "SPRINGFIELD" " Heights"); reflexivity.
Defined.

(** ** The public listing *)

Lemma elem_of_documents (db : Reports) (r : Report) :
  r ∈ documents db <-> exists id, db !! id = Some r.
Proof.
  unfold documents. rewrite list_elem_of_fmap. split.
  - intros ([id r'] & -> & H). exists id. by apply elem_of_map_to_list.
  - intros [id H]. exists (id, r). split; [done|].
    by apply elem_of_map_to_list.
Qed.

Lemma elem_of_find (f : Filter) (db : Reports) (r : Report) :
  r ∈ find f db <-> matches f r = true /\ exists id, db !! id = Some r.
Proof.
  unfold find. rewrite list_elem_of_In, List.filter_In, <- list_elem_of_In.
  rewrite elem_of_documents. tauto.
Qed.

Lemma listValidation_ok (q : ListQuery) :
  listValidation q = [] ->
  (1 <= int_param (q_page q) 1)%Z
  /\ (1 <= int_param (q_limit q) 10 <= 50)%Z
  /\ (forall s, q_status q = Some s -> Js.truthy s = true)
  /\ (forall c, q_category q = Some c -> Js.truthy c = true).
Proof.
  unfold listValidation. intros H.
  apply check_app_nil in H as [Hp H]. apply check_app_nil in H as [Hl H].
  apply check_app_nil in H as [Hs H]. apply check_app_nil in H as [Hc _].
  split; [|split; [|split]].
  - destruct (q_page q) as [[n|raw]|]; simpl in *; try done.
    apply andb_prop in Hp as [Hp _]. by apply Z.leb_le.
  - destruct (q_limit q) as [[n|raw]|]; simpl in *; try done.
    apply andb_prop in Hl as [Hl1 Hl2].
    apply Z.leb_le in Hl1. apply Z.leb_le in Hl2. done.
  - intros s Hq. rewrite Hq in Hs. simpl in Hs. by destruct s.
  - intros c Hq. rewrite Hq in Hc. simpl in Hc. by destruct c.
Qed.

(** What a successful listing is made of. *)
Lemma get_reports_ok regexp_i mongo_sort (db : Reports) u q items pg :
  get_reports regexp_i mongo_sort db u q = ListOk items pg ->
  exists f,
    listValidation q = []
    /\ list_filter regexp_i q = Some f
    /\ f_isPublic f = Some true
    /\ f_status f = keep_truthy (q_status q)
    /\ f_category f = keep_truthy (q_category q)
    /\ f_priority f = keep_truthy (q_priority q)
    /\ items =
         with_metadata u
         <$> take (Z.to_nat (int_param (q_limit q) 10))
               (drop (Z.to_nat ((int_param (q_page q) 1 - 1)
                                * int_param (q_limit q) 10))
                  (mongo_sort (default "createdAt" (q_sortBy q))
                     (String.eqb (default "desc" (q_sortOrder q)) "desc")
                     (find f db)))
    /\ pg =
         mkPagination (int_param (q_page q) 1)
           (ceil_div (Z.of_nat (countDocuments f db))
              (int_param (q_limit q) 10))
           (countDocuments f db)
           (Z.ltb (int_param (q_page q) 1)
              (ceil_div (Z.of_nat (countDocuments f db))
                 (int_param (q_limit q) 10)))
           (Z.ltb 1 (int_param (q_page q) 1)).
Proof.
  unfold get_reports. destruct (listValidation q); [|discriminate].
  destruct (list_filter regexp_i q) as [f|] eqn:Hf; [|discriminate].
  intros [= <- <-]. exists f. split; [done|]. split; [done|].
  unfold list_filter in Hf.
  destruct (regexp_filter _ _) as [c|]; [|discriminate].
  destruct (regexp_filter _ _) as [s|]; [|discriminate].
  injection Hf as <-. by repeat split.
Qed.

(** X19.  Whatever the query, the public listing returns only stored
    reports that are public and that carry the requested status, category
    and priority; each comes with its number of upvotes, and with a
    [hasUserUpvoted] flag that is [false] for an anonymous caller and tells
    an authenticated one whether the vote is theirs. *)
Theorem X19_listing_returns_public_matching_reports
    (regexp_i : string -> option (string -> bool))
    (mongo_sort : string -> bool -> list Report -> list Report)
    (db : Reports) (u : option User) (q : ListQuery)
    (items : list Listed) (pg : Pagination) :
  (forall key desc l, mongo_sort key desc l ≡ₚ l) ->
  get_reports regexp_i mongo_sort db u q = ListOk items pg ->
  forall item,
    item ∈ items ->
    let r := l_report item in
    (exists id, db !! id = Some r)
    /\ isPublic r = true
    /\ (forall s, q_status q = Some s -> status r = s)
    /\ (forall c, q_category q = Some c -> category r = c)
    /\ (forall p, q_priority q = Some p -> p <> "" -> priority r = p)
    /\ l_upvoteCount item = List.length (upvotes r)
    /\ l_hasUserUpvoted item
       = match u with
         | Some v => hasUpvoted r (u_id v)
         | None => false
         end.
Proof.
  intros Hsort H item Hitem r.
  destruct (get_reports_ok _ _ _ _ _ _ _ H)
    as (f & Hv & _ & Hpub & Hst & Hcat & Hpri & -> & _).
  destruct (listValidation_ok q Hv) as (_ & _ & Hs & Hc).
  apply list_elem_of_fmap in Hitem as (r0 & -> & Hr0).
  apply subseteq_take, subseteq_drop in Hr0. rewrite Hsort in Hr0.
  apply elem_of_find in Hr0 as [Hm Hstored]. subst r. simpl.
  split; [exact Hstored|].
  unfold matches in Hm. rewrite Hpub, Hst, Hcat, Hpri in Hm.
  repeat (apply andb_prop in Hm as [Hm ?]). simpl in Hm.
  split; [by destruct (isPublic r0)|].
  split; [|split; [|split; [|by split]]].
  - intros s Hq. rewrite Hq in *. unfold keep_truthy in *. simpl in *.
    rewrite (Hs s eq_refl) in *. simpl in *. by apply String.eqb_eq.
  - intros c Hq. rewrite Hq in *. unfold keep_truthy in *. simpl in *.
    rewrite (Hc c eq_refl) in *. simpl in *. by apply String.eqb_eq.
  - intros p Hq Hne. rewrite Hq in *. unfold keep_truthy in *. simpl in *.
    destruct p; [done|]. simpl in *. by apply String.eqb_eq.
Qed.

Lemma ceil_div_bounds (total limit : Z) :
  (1 <= limit)%Z ->
  ((ceil_div total limit - 1) * limit < total <= ceil_div total limit * limit)%Z.
Proof.
  intros Hl. unfold ceil_div.
  pose proof (Z.div_mod (total + limit - 1) limit ltac:(lia)) as Hdm.
  pose proof (Z.mod_pos_bound (total + limit - 1) limit ltac:(lia)) as Hm.
  set (c := ((total + limit - 1) / limit)%Z) in *.
  set (m := ((total + limit - 1) mod limit)%Z) in *.
  nia.
Qed.

Lemma lt_ceil_div (page total limit : Z) :
  (1 <= limit)%Z ->
  (page < ceil_div total limit)%Z <-> (page * limit < total)%Z.
Proof.
  intros Hl. pose proof (ceil_div_bounds total limit Hl) as [H1 H2].
  split; intros H.
  - pose proof (Z.mul_le_mono_nonneg_r page (ceil_div total limit - 1) limit
                  ltac:(lia) ltac:(lia)).
    lia.
  - destruct (Z.lt_ge_cases page (ceil_div total limit)) as [|Hge]; [done|].
    pose proof (Z.mul_le_mono_nonneg_r (ceil_div total limit) page limit
                  ltac:(lia) Hge).
    lia.
Qed.

(** X20.  Pagination of the public listing.  The total of the answer is
    the number of stored reports that match the filter of the query, and the
    page is the slice of those reports, in the order of the sort, that starts
    after the earlier pages and is at most one page long; a first page that
    has room for all of them holds them all.  Without a city or a search
    text, every stored public report with the requested status, category and
    priority is among them.  The page number is at least 1 and the page size
    between 1 and 50, so a page past the end is empty.  [hasNextPage] is set
    exactly when reports remain after this page, [hasPrevPage] exactly when
    the page is not the first, and [totalPages] is the least number of pages
    that hold all matching reports. *)
Theorem X20_listing_pagination
    (regexp_i : string -> option (string -> bool))
    (mongo_sort : string -> bool -> list Report -> list Report)
    (db : Reports) (u : option User) (q : ListQuery)
    (items : list Listed) (pg : Pagination) :
  (forall key desc l, mongo_sort key desc l ≡ₚ l) ->
  get_reports regexp_i mongo_sort db u q = ListOk items pg ->
  let page := int_param (q_page q) 1 in
  let limit := int_param (q_limit q) 10 in
  let total := Z.of_nat (totalReports pg) in
  exists f,
    list_filter regexp_i q = Some f
    /\ let sorted :=
         mongo_sort (default "createdAt" (q_sortBy q))
           (String.eqb (default "desc" (q_sortOrder q)) "desc")
           (List.filter (matches f) (documents db)) in
       (forall r,
          r ∈ sorted <-> matches f r = true /\ exists id, db !! id = Some r)
       /\ totalReports pg = List.length sorted
       /\ l_report <$> items
          = take (Z.to_nat limit) (drop (Z.to_nat ((page - 1) * limit)) sorted)
       /\ (page = 1%Z -> (total <= limit)%Z -> l_report <$> items = sorted)
       /\ (q_city q = None ->
           Js.truthy_opt (q_search q) = false ->
           forall id r,
             db !! id = Some r ->
             isPublic r = true ->
             (forall s, q_status q = Some s -> status r = s) ->
             (forall c, q_category q = Some c -> category r = c) ->
             (forall p, q_priority q = Some p -> priority r = p) ->
             r ∈ sorted)
       /\ (1 <= page)%Z
       /\ (1 <= limit <= 50)%Z
       /\ currentPage pg = page
       /\ Z.of_nat (List.length items)
          = Z.max 0 (Z.min limit (total - (page - 1) * limit))
       /\ (hasNextPage pg = true <-> (page * limit < total)%Z)
       /\ (hasPrevPage pg = true <-> (1 < page)%Z)
       /\ ((totalPages pg - 1) * limit < total <= totalPages pg * limit)%Z.
Proof.
  intros Hsort H page limit total.
  destruct (get_reports_ok _ _ _ _ _ _ _ H)
    as (f & Hv & Hf & Hpub & Hst & Hcat & Hpri & -> & ->).
  destruct (listValidation_ok q Hv) as (Hp & Hl & _ & _).
  exists f. split; [exact Hf|]. intros sorted.
  subst total. cbn [totalReports currentPage totalPages hasNextPage hasPrevPage].
  change (int_param (q_page q) 1) with page in Hp, Hl |- *.
  change (int_param (q_limit q) 10) with limit in Hp, Hl |- *.
  change (List.filter (matches f) (documents db)) with (find f db) in sorted.
  assert (Hl1 : (1 <= limit)%Z) by lia.
  assert (Hin : forall r,
             r ∈ sorted <-> matches f r = true /\ exists id, db !! id = Some r).
  { intros r. subst sorted. rewrite Hsort. apply elem_of_find. }
  assert (Hlen : countDocuments f db = List.length sorted).
  { subst sorted. unfold countDocuments.
    by rewrite (Permutation_length (Hsort _ _ _)). }
  assert (Hitems : l_report <$> (with_metadata u <$>
                      take (Z.to_nat limit)
                        (drop (Z.to_nat ((page - 1) * limit)) sorted))
                   = take (Z.to_nat limit)
                       (drop (Z.to_nat ((page - 1) * limit)) sorted)).
  { rewrite <- list_fmap_compose. apply list_fmap_id. }
  fold sorted. rewrite Hitems.
  split; [exact Hin|]. split; [exact Hlen|]. split; [reflexivity|].
  split.
  { intros -> Htot. change (Z.to_nat ((1 - 1) * limit)) with 0%nat.
    rewrite drop_0. apply take_ge. lia. }
  split.
  { intros Hcity Hsearch id r Hr Hp' Hs Hc Hpr. apply Hin.
    split; [|by exists id].
    unfold list_filter in Hf. rewrite Hcity in Hf.
    unfold regexp_filter in Hf at 1. cbn [fmap option_fmap option_map] in Hf.
    cbn [Js.truthy_opt] in Hf.
    unfold regexp_filter in Hf. rewrite Hsearch in Hf.
    injection Hf as <-. unfold matches.
    cbn [f_isPublic f_reportedBy f_status f_category f_priority f_city
         f_search from_option].
    rewrite Hp'. cbn [Bool.eqb].
    assert (Hk : forall (o : option string) (v : string),
               (forall x, o = Some x -> v = x) ->
               from_option (String.eqb v) true (keep_truthy o) = true).
    { intros [x|] v Hx; [|reflexivity]. unfold keep_truthy. simpl.
      destruct (Js.truthy x); [|reflexivity]. simpl.
      rewrite (Hx x eq_refl). apply String.eqb_refl. }
    by rewrite (Hk _ _ Hs), (Hk _ _ Hc), (Hk _ _ Hpr). }
  split; [exact Hp|]. split; [exact Hl|]. split; [reflexivity|].
  split.
  { rewrite length_fmap, length_take, length_drop, <- Hlen.
    assert (Hk : (0 <= (page - 1) * limit)%Z)
      by (apply Z.mul_nonneg_nonneg; lia).
    set (k := ((page - 1) * limit)%Z) in *. lia. }
  split; [rewrite Z.ltb_lt; by apply lt_ceil_div|].
  split; [apply Z.ltb_lt|].
  by apply ceil_div_bounds.
Qed.

(** X19 at the listing of pending reports in [spring], read by an anonymous
    caller off the store that holds Alice's report. *)
Lemma X19_listing_witness :
  let item := with_metadata None (Sample.stored Sample.db1) in
  exists pg,
    get_reports Sample.literal_regexp Sample.natural_order Sample.db1 None
      Sample.pending_in_spring
    = ListOk [item] pg
    /\ isPublic (l_report item) = true
    /\ status (l_report item) = "pending"
    /\ l_upvoteCount item = 0%nat
    /\ l_hasUserUpvoted item = false.
Proof.
  intros item. eexists.
  assert (H : get_reports Sample.literal_regexp Sample.natural_order
                Sample.db1 None Sample.pending_in_spring
              = ListOk [item] _) by (vm_compute; reflexivity).
  split; [exact H|].
  destruct (X19_listing_returns_public_matching_reports Sample.literal_regexp
              Sample.natural_order Sample.db1 None Sample.pending_in_spring
              [item] _ (fun _ _ l => reflexivity l) H item
              ltac:(apply list_elem_of_singleton; reflexivity))
    as (_ & Hpub & Hst & _ & _ & Hcount & Hflag).
  split; [exact Hpub|]. split; [exact (Hst "pending" eq_refl)|].
  split; [exact Hcount | exact Hflag].
Defined.

(** X20 at the second page of one report, read off the store that holds
    the reports of Alice and of Bob. *)
Lemma X20_listing_witness :
  exists item pg,
    get_reports Sample.literal_regexp Sample.natural_order Sample.db_two None
      Sample.second_of_one
    = ListOk [item] pg
    /\ totalReports pg = 2%nat
    /\ Sample.db_two !! Sample.r2 = Some (l_report item)
    /\ hasNextPage pg = false
    /\ hasPrevPage pg = true
    /\ totalPages pg = 2%Z.
Proof.
  eexists _, _.
  assert (H : get_reports Sample.literal_regexp Sample.natural_order
                Sample.db_two None Sample.second_of_one
              = ListOk [_] _) by (vm_compute; reflexivity).
  split; [exact H|].
  destruct (X20_listing_pagination Sample.literal_regexp Sample.natural_order
              Sample.db_two None Sample.second_of_one _ _
              (fun _ _ l => reflexivity l) H)
    as (f & Hf & _ & Htotal & _).
  injection Hf as <-.
  split; [rewrite Htotal; vm_compute; reflexivity|].
  repeat split; vm_compute; reflexivity.
Defined.

(** ** Statistics *)

Lemma count_by_status (l : list Report) :
  Forall (fun r => Validator.isIn statuses (status r) = true) l ->
  List.length l
  = (count_status "pending" l + count_status "in_progress" l
     + count_status "resolved" l + count_status "rejected" l)%nat.
Proof.
  unfold count_status. induction 1 as [|r l Hr _ IH]; [reflexivity|].
  cbn [List.length List.filter]. rewrite IH.
  unfold Validator.isIn, statuses in Hr. cbn [existsb] in Hr.
  repeat (apply orb_prop in Hr as [Hr|Hr]); try discriminate;
    apply String.eqb_eq in Hr; rewrite Hr; simpl; lia.
Qed.

Lemma find_statuses_valid (f : Filter) (db : Reports) :
  reachable db ->
  Forall (fun r => Validator.isIn statuses (status r) = true) (find f db).
Proof.
  intros Hreach. apply Forall_forall. intros r Hr.
  apply elem_of_find in Hr as (_ & id & Hs).
  destruct (reachable_store_ok db Hreach id r Hs) as (_ & _ & Hok).
  exact (schema_ok_path r PStatus Hok).
Qed.

Lemma group_all_spec (l : list Report) (s : Statistics) :
  s ∈ group_all l ->
  group_all l = [s]
  /\ l <> []
  /\ st_total s = List.length l
  /\ st_pending s = count_status "pending" l
  /\ st_inProgress s = count_status "in_progress" l
  /\ st_resolved s = count_status "resolved" l
  /\ st_rejected s = count_status "rejected" l
  /\ st_categoryBreakdown s = category <$> l.
Proof.
  destruct l as [|r l]; simpl; [by intros ?%elem_of_nil|].
  intros ->%list_elem_of_singleton. by repeat split.
Qed.

Lemma group_mine_spec (l : list Report) :
  match group_mine l with
  | s :: _ => s
  | [] => no_statistics
  end
  = mkMyStatistics (List.length l) (count_status "pending" l)
      (count_status "in_progress" l) (count_status "resolved" l)
      (count_status "rejected" l).
Proof. by destruct l. Qed.

(** X21.  The statistics add up.  Over any collection the application can
    hold, the [statistics] of [my-reports] count exactly the caller's own
    reports, in all and per status; the total is the sum of the pending,
    in-progress, resolved and rejected counts, and all five are zero for a
    caller who has filed nothing.  [getStatistics] yields at most one group,
    and none for an area without reports; the total of the group is the sum
    of its four counts and its category breakdown has one entry per counted
    report. *)
Theorem X21_statistics_add_up
    (regexp_i : string -> option (string -> bool))
    (db : Reports) (u : User) (city : option string) :
  reachable db ->
  let mine := my_reports_statistics db u in
  let own :=
    List.filter (fun r => String.eqb (reportedBy r) (u_id u)) (documents db) in
  let having := fun s =>
    List.length (List.filter (fun r => String.eqb (status r) s) own) in
  ms_total mine = List.length own
  /\ ms_pending mine = having "pending"
  /\ ms_inProgress mine = having "in_progress"
  /\ ms_resolved mine = having "resolved"
  /\ ms_rejected mine = having "rejected"
  /\ ms_total mine
     = (ms_pending mine + ms_inProgress mine + ms_resolved mine
        + ms_rejected mine)%nat
  /\ (ms_total mine = 0%nat -> mine = no_statistics)
  /\ (forall groups s,
        getStatistics regexp_i db city = Some groups ->
        s ∈ groups ->
        groups = [s]
        /\ (0 < st_total s)%nat
        /\ st_total s
           = (st_pending s + st_inProgress s + st_resolved s
              + st_rejected s)%nat
        /\ List.length (st_categoryBreakdown s) = st_total s).
Proof.
  intros Hreach mine own having.
  assert (Hmine : find (mkFilter None (Some (u_id u)) None None None None None)
                    db
                  = own).
  { unfold find. apply List.filter_ext. intros r. unfold matches. simpl.
    by rewrite !andb_true_r. }
  assert (Hsum : List.length own
                 = (having "pending" + having "in_progress"
                    + having "resolved" + having "rejected")%nat).
  { pose proof (find_statuses_valid
                  (mkFilter None (Some (u_id u)) None None None None None) db
                  Hreach) as Hvalid.
    rewrite Hmine in Hvalid. exact (count_by_status own Hvalid). }
  assert (Hm : mine
               = mkMyStatistics (List.length own) (having "pending")
                   (having "in_progress") (having "resolved")
                   (having "rejected")).
  { subst mine. unfold my_reports_statistics.
    by rewrite group_mine_spec, Hmine. }
  rewrite Hm. cbn [ms_total ms_pending ms_inProgress ms_resolved ms_rejected].
  do 5 (split; [reflexivity|]). split; [exact Hsum|].
  split.
  - intros H0. unfold no_statistics. rewrite H0 in Hsum |- *.
    f_equal; lia.
  - intros groups s Hget Hs. unfold getStatistics in Hget.
    destruct (regexp_filter _ _) as [c|]; [|discriminate].
    injection Hget as <-.
    destruct (group_all_spec _ _ Hs)
      as (Heq & Hne & Ht & Hp & Hi & Hr & Hj & Hc).
    split; [exact Heq|]. split; [|split].
    + rewrite Ht.
      destruct (find (mkFilter None None None None None c None) db);
        [done | simpl; lia].
    + rewrite Ht, Hp, Hi, Hr, Hj.
      by apply count_by_status, find_statuses_valid.
    + by rewrite Hc, length_fmap, Ht.
Qed.

(** X21 at Alice, who has filed one report, with the statistics of the
    Springfield area. *)
Lemma X21_statistics_witness :
  let mine := my_reports_statistics Sample.db3 Sample.alice in
  mine = mkMyStatistics 1 1 0 0 0
  /\ ms_total mine
     = (ms_pending mine + ms_inProgress mine + ms_resolved mine
        + ms_rejected mine)%nat
  /\ my_reports_statistics Sample.db3 Sample.bob = no_statistics
  /\ getStatistics Sample.literal_regexp Sample.db3 (Some "springfield")
     = Some [mkStatistics 1 1 0 0 0 ["streetlight"]].
Proof.
  intros mine.
  destruct (X21_statistics_add_up Sample.literal_regexp Sample.db3
              Sample.alice (Some "springfield") db3_reachable)
    as (_ & _ & _ & _ & _ & Hsum & _ & _).
  destruct (X21_statistics_add_up Sample.literal_regexp Sample.db3
              Sample.bob (Some "springfield") db3_reachable)
    as (_ & _ & _ & _ & _ & _ & Hzero & _).
  split; [vm_compute; reflexivity|]. split; [exact Hsum|].
  split; [apply Hzero; vm_compute; reflexivity|].
  vm_compute. reflexivity.
Defined.

(** ** What a content update applies *)

(** X22.  A successful content update applies a text field of the patch
    only when it is present and not the empty string, and then stores it
    trimmed (title, description) or as given (category, priority); an absent
    or empty field leaves the stored value alone.  The visibility flag is
    applied whenever the patch carries a boolean, [false] included. *)
Theorem X22_update_applies_non_empty_fields (db db' : Reports) u id b ro r :
  db !! id = Some r ->
  put_report db u id b = (db', mkResponse 200 (ReportUpdated ro)) ->
  exists r',
    ro = Some r'
    /\ db' !! id = Some r'
    /\ title r'
       = (if Js.truthy_opt (b_title b) then Js.trim (field (b_title b))
          else title r)
    /\ description r'
       = (if Js.truthy_opt (b_description b)
          then Js.trim (field (b_description b)) else description r)
    /\ category r'
       = (if Js.truthy_opt (b_category b) then field (b_category b)
          else category r)
    /\ priority r'
       = (if Js.truthy_opt (b_priority b) then field (b_priority b)
          else priority r)
    /\ isPublic r' = default (isPublic r) (b_isPublic b).
Proof.
  intros Hr H. destruct (put_report_200 _ _ _ _ _ _ _ Hr H) as (-> & -> & _).
  eexists. split; [reflexivity|]. split; [apply lookup_insert_eq|].
  unfold apply_update, updateData_of, keep_truthy. cbn -[Js.trim].
  destruct (b_title b) as [[|c1 t]|], (b_description b) as [[|c2 d]|],
    (b_category b) as [[|c3 c]|], (b_priority b) as [[|c4 p]|],
    (b_location b), (b_images b), (b_tags b), (b_isPublic b);
    repeat split; reflexivity.
Qed.

(** X22 at a patch with an empty title and a private flag. *)
Lemma X22_update_witness :
  let b := mkReportBody (Some "") None None None None None None (Some false) in
  let r := Sample.stored Sample.db1 in
  exists r',
    (put_report Sample.db1 Sample.alice Sample.r1 b).1 !! Sample.r1 = Some r'
    /\ title r' = "Broken streetlight on Elm St"
    /\ isPublic r' = false.
Proof.
  intros b r.
  assert (Hr : Sample.db1 !! Sample.r1 = Some r) by (vm_compute; reflexivity).
  assert (H : put_report Sample.db1 Sample.alice Sample.r1 b
              = ((put_report Sample.db1 Sample.alice Sample.r1 b).1,
                 mkResponse 200
                   (ReportUpdated (Some (apply_update (updateData_of b) r)))))
    by (vm_compute; reflexivity).
  destruct (X22_update_applies_non_empty_fields Sample.db1 _ Sample.alice
              Sample.r1 b _ r Hr H)
    as (r' & _ & Hs & Ht & _ & _ & _ & Hp).
  exists r'. split; [exact Hs|]. split; [exact Ht | exact Hp].
Defined.

(** X23.  The create operation stores the title and the description
    trimmed: what is stored is the trimmed input, trimming it again changes
    nothing, and its length is within 5 to 100 and 20 to 1000 characters. *)
Theorem X23_create_stores_trimmed_text now newId ua ip (db : Reports) u b :
  valid_payload b ->
  exists r,
    (post_report now newId ua ip db u b).1 !! newId = Some r
    /\ title r = Js.trim (field (b_title b))
    /\ description r = Js.trim (field (b_description b))
    /\ Js.trim (title r) = title r
    /\ Js.trim (description r) = description r
    /\ (5 <= String.length (title r) <= 100)%nat
    /\ (20 <= String.length (description r) <= 1000)%nat.
Proof.
  intros Hv. rewrite (post_report_valid _ _ _ _ _ _ _ Hv). cbn [fst].
  eexists. split; [apply lookup_insert_eq|].
  destruct Hv as [Hv _].
  destruct (createReportValidation_ok b Hv) as (Ht & Hd & _).
  unfold new_Report, createReportSanitize, field. cbn -[Js.trim].
  rewrite !trim_idem. repeat split; try reflexivity;
    unfold Validator.isLength in Ht, Hd;
    apply andb_prop in Ht as [Ht1 Ht2]; apply andb_prop in Hd as [Hd1 Hd2];
    apply Nat.leb_le in Ht1, Ht2, Hd1, Hd2; assumption.
Qed.

(** X23 at a title sent with surrounding blanks. *)
Lemma X23_create_witness :
  let b :=
    mkReportBody (Some "  Pothole on Main St  ")
      (Some "A deep pothole has opened in front of number 4.")
      (Some "road") (Some Sample.elm_street) None None None None in
  exists r,
    (post_report 1000 Sample.r1 None None ∅ Sample.bob b).1 !! Sample.r1
    = Some r
    /\ title r = "Pothole on Main St".
Proof.
  intros b.
  destruct (X23_create_stores_trimmed_text 1000 Sample.r1 None None ∅
              Sample.bob b ltac:(split; vm_compute; reflexivity))
    as (r & Hs & Ht & _).
  exists r. split; [exact Hs|]. rewrite Ht. vm_compute. reflexivity.
Defined.
